(** * Survey.py: feedback and survey system (Streamlit + SQLite)

    A shallow embedding of [src/Survey.py].

    - A Python [str] is a [string]; each [ascii] stands for one character
      with code point below 256.  [strip] removes the characters for which
      Python's [str.isspace] holds in that range.
    - The SQLite file is a record of four tables, each a list of rows in
      rowid order, together with the AUTOINCREMENT counters that SQLite
      keeps in [sqlite_sequence].  Rowids are unbounded integers.
    - [datetime.now()] is read from a clock given as a function of the
      number of readings made so far.
    - A Streamlit widget returns its default or what the user entered; the
      user's action on one widget is a [gesture].
    - pandas numeric columns are IEEE binary64, through [SpecFloat]. *)

From Stdlib Require Import ZArith List Bool Lia Ascii String.
From Stdlib Require Import Sorting.Sorted Sorting.Permutation.
From Stdlib Require Import DecimalString.
From Stdlib Require Import Floats.SpecFloat.
Import ListNotations.

Local Open Scope string_scope.
Local Open Scope list_scope.
Local Open Scope Z_scope.

(** ** Python strings *)

Module Str.

(** [str.isspace] on one character, for code points below 256:
    TAB..CR, FS..US, SPACE, NEL and NBSP. *)
Definition isspace (c : ascii) : bool :=
  let n := N_of_ascii c in
  ((9 <=? n) && (n <=? 13) || (28 <=? n) && (n <=? 32)
   || (n =? 133) || (n =? 160))%N.

Fixpoint lstrip (s : string) : string :=
  match s with
  | EmptyString => EmptyString
  | String c s' => if isspace c then lstrip s' else s
  end.

Fixpoint rstrip (s : string) : string :=
  match s with
  | EmptyString => EmptyString
  | String c s' =>
      match rstrip s' with
      | EmptyString => if isspace c then EmptyString else String c EmptyString
      | r => String c r
      end
  end.

(** [s.strip()] *)
Definition strip (s : string) : string := rstrip (lstrip s).

(** [s.split(sep)] for a one-character separator: never the empty list. *)
Fixpoint split (sep : ascii) (s : string) : list string :=
  match s with
  | EmptyString => [EmptyString]
  | String c s' =>
      if Ascii.eqb c sep then EmptyString :: split sep s'
      else match split sep s' with
           | p :: ps => String c p :: ps
           | [] => [String c EmptyString]
           end
  end.

(** Truth value of a string: [bool(s)]. *)
Definition truthy (s : string) : bool :=
  match s with EmptyString => false | _ => true end.

(** [str(n)] for an integer. *)
Definition of_Z (n : Z) : string := NilZero.string_of_int (Z.to_int n).

(** The characters of a string, for statements about its content. *)
Fixpoint chars (s : string) : list ascii :=
  match s with
  | EmptyString => []
  | String c s' => c :: chars s'
  end.

End Str.

(** ** Streamlit widgets *)

(** What a widget hands back to the script. *)
Inductive value :=
| VNone
| VStr (s : string)
| VInt (n : Z).

(** [str(ans)] *)
Definition str (v : value) : string :=
  match v with
  | VNone => "None"
  | VStr s => s
  | VInt n => Str.of_Z n
  end.

Inductive widget :=
| text_area
| radio (opts : list string)
| slider (lo hi dflt : Z)
| text_input.

(** What the user did with one widget before the form was sent. *)
Inductive gesture :=
| Untouched
| Typed (s : string)
| Picked (i : nat)
| Slid (n : Z).

(** The value of a widget: text widgets start empty, a radio starts on its
    first option (and is [None] without options), a slider on its default
    and never leaves its range. *)
Definition widget_value (w : widget) (g : gesture) : value :=
  match w with
  | text_area | text_input =>
      match g with Typed s => VStr s | _ => VStr "" end
  | radio opts =>
      match g with
      | Picked i =>
          match nth_error opts i with
          | Some o => VStr o
          | None => match opts with o :: _ => VStr o | [] => VNone end
          end
      | _ => match opts with o :: _ => VStr o | [] => VNone end
      end
  | slider lo hi dflt =>
      match g with
      | Slid n => if (lo <=? n) && (n <=? hi) then VInt n else VInt dflt
      | _ => VInt dflt
      end
  end.

(** ** The SQLite file *)

Record admin_row := {
  username : string;
  password : string }.

Record survey_row := {
  s_id : Z;
  title : string;
  description : option string;
  created_at : string }.

Record question_row := {
  q_id : Z;
  q_survey_id : Z;
  question_text : string;
  qtype : string;
  options : option string }.

Record response_row := {
  r_id : Z;
  r_survey_id : Z;
  r_question_id : Z;
  respondent_name : option string;
  answer : string;
  submitted_at : string }.

(** Tables hold their rows in insertion order; the three [seq_] fields are
    the [sqlite_sequence] entries of the AUTOINCREMENT tables. *)
Record database := {
  admins : list admin_row;
  surveys : list survey_row;
  questions : list question_row;
  responses : list response_row;
  seq_surveys : Z;
  seq_questions : Z;
  seq_responses : Z }.

(** A new file, once the [CREATE TABLE IF NOT EXISTS] statements ran. *)
Definition empty_db : database :=
  {| admins := []; surveys := []; questions := []; responses := [];
     seq_surveys := 0; seq_questions := 0; seq_responses := 0 |}.

(** The rowid AUTOINCREMENT gives a new row: one more than the largest
    rowid the table holds or ever held. *)
Definition next_rowid (ids : list Z) (seq : Z) : Z :=
  Z.max (fold_right Z.max 0 ids) seq + 1.

(** [ORDER BY]: a stable insertion sort; [le x y] says that [x] may come
    before [y]. *)
Fixpoint insert_by {A : Type} (le : A -> A -> bool) (x : A) (l : list A)
  : list A :=
  match l with
  | [] => [x]
  | y :: l' => if le x y then x :: l else y :: insert_by le x l'
  end.

Definition order_by {A : Type} (le : A -> A -> bool) (l : list A) : list A :=
  fold_right (insert_by le) [] l.

(** ** The process: database file and wall clock *)

Record world := {
  db : database;
  wall_clock : nat -> string;
  readings : nat }.

Definition M (A : Type) : Type := world -> A * world.

Definition ret {A : Type} (a : A) : M A := fun w => (a, w).

Definition bind {A B : Type} (m : M A) (k : A -> M B) : M B :=
  fun w => let (a, w') := m w in k a w'.

Notation "x <- m ;; k" := (bind m (fun x => k))
  (at level 61, m at next level, right associativity).
Notation "m ;;; k" := (bind m (fun _ => k))
  (at level 61, right associativity).

Definition get_db : M database := fun w => (db w, w).

Definition put_db (d : database) : M unit :=
  fun w => (tt, {| db := d; wall_clock := wall_clock w;
                   readings := readings w |}).

(** [datetime.now().isoformat(timespec="seconds")] *)
Definition now_isoformat : M string :=
  fun w => (wall_clock w (readings w),
            {| db := db w; wall_clock := wall_clock w;
               readings := S (readings w) |}).

(** [for x in l: body(x)] *)
Fixpoint for_each {A : Type} (l : list A) (body : A -> M unit) : M unit :=
  match l with
  | [] => ret tt
  | x :: l' => body x ;;; for_each l' body
  end.

(** ** Database helpers *)

Definition init_db : M unit :=
  d <- get_db ;;
  if (Z.of_nat (List.length (admins d)) =? 0)
  then put_db
         {| admins := admins d
                      ++ [{| username := "admin"; password := "admin123" |}];
            surveys := surveys d; questions := questions d;
            responses := responses d; seq_surveys := seq_surveys d;
            seq_questions := seq_questions d;
            seq_responses := seq_responses d |}
  else ret tt.

(** [SELECT * FROM surveys ORDER BY id DESC] *)
Definition fetch_surveys (d : database) : list survey_row :=
  order_by (fun a b => s_id b <=? s_id a) (surveys d).

(** [SELECT * FROM questions WHERE survey_id=? ORDER BY id ASC] *)
Definition fetch_questions (d : database) (survey_id : Z)
  : list question_row :=
  order_by (fun a b => q_id a <=? q_id b)
           (filter (fun q => q_survey_id q =? survey_id) (questions d)).

Definition insert_survey (title_ description_ : string) : M Z :=
  d <- get_db ;;
  ts <- now_isoformat ;;
  let survey_id := next_rowid (map s_id (surveys d)) (seq_surveys d) in
  put_db
    {| admins := admins d;
       surveys := surveys d
                  ++ [{| s_id := survey_id; title := title_;
                         description := Some description_;
                         created_at := ts |}];
       questions := questions d; responses := responses d;
       seq_surveys := survey_id; seq_questions := seq_questions d;
       seq_responses := seq_responses d |} ;;;
  ret survey_id.

Definition insert_question (survey_id : Z) (question_text_ qtype_ : string)
    (options_ : string) : M unit :=
  d <- get_db ;;
  let id := next_rowid (map q_id (questions d)) (seq_questions d) in
  put_db
    {| admins := admins d; surveys := surveys d;
       questions := questions d
                    ++ [{| q_id := id; q_survey_id := survey_id;
                           question_text := question_text_;
                           qtype := qtype_; options := Some options_ |}];
       responses := responses d; seq_surveys := seq_surveys d;
       seq_questions := id; seq_responses := seq_responses d |}.

Definition insert_response (survey_id question_id : Z)
    (respondent_name_ : string) (answer_ : value) : M unit :=
  d <- get_db ;;
  ts <- now_isoformat ;;
  let id := next_rowid (map r_id (responses d)) (seq_responses d) in
  put_db
    {| admins := admins d; surveys := surveys d; questions := questions d;
       responses := responses d
                    ++ [{| r_id := id; r_survey_id := survey_id;
                           r_question_id := question_id;
                           respondent_name := Some respondent_name_;
                           answer := str answer_; submitted_at := ts |}];
       seq_surveys := seq_surveys d; seq_questions := seq_questions d;
       seq_responses := id |}.

(** [SELECT * FROM admins WHERE username=? AND password=?] has a row. *)
Definition admin_login (d : database) (username_ password_ : string) : bool :=
  existsb (fun a => String.eqb (username a) username_
                    && String.eqb (password a) password_) (admins d).

(** One row of the join of [responses] with [questions]. *)
Record response_view := {
  v_id : Z;
  v_respondent_name : option string;
  v_answer : string;
  v_submitted_at : string;
  v_question_text : string;
  v_qtype : string }.

Definition join_row (r : response_row) (q : question_row) : response_view :=
  {| v_id := r_id r; v_respondent_name := respondent_name r;
     v_answer := answer r; v_submitted_at := submitted_at r;
     v_question_text := question_text q; v_qtype := qtype q |}.

(** [... FROM responses r JOIN questions q ON q.id = r.question_id
    WHERE r.survey_id=? ORDER BY r.submitted_at DESC]; timestamps compare as
    text, and rows with the same timestamp stay in scan order (SQLite leaves
    their order open). *)
Definition fetch_responses (d : database) (survey_id : Z)
  : list response_view :=
  order_by
    (fun a b => String.leb (v_submitted_at b) (v_submitted_at a))
    (flat_map
       (fun r =>
          if r_survey_id r =? survey_id
          then map (join_row r)
                   (filter (fun q => q_id q =? r_question_id r) (questions d))
          else [])
       (responses d)).

(** ** What the page shows *)

Inductive message :=
| st_error (text : string)
| st_success (text : string)
| st_warning (text : string)
| st_info (text : string).

(** ** User mode *)

(** [int(surveys_df.loc[surveys_df["title"] == chosen_title, "id"].iloc[0])]:
    the id of the first listed survey with the chosen title; [None] stands
    for the [IndexError] of a title that is not listed, which the select box
    never offers. *)
Definition chosen_survey_id (surveys_df : list survey_row)
    (chosen_title : string) : option Z :=
  option_map s_id
    (find (fun s => (title s =? chosen_title)%string) surveys_df).

(** [(q["options"] or "")] *)
Definition or_empty (o : option string) : string :=
  match o with
  | Some s => if Str.truthy s then s else ""
  | None => ""
  end.

(** The choices of a multiple-choice question, from its stripped options
    column. *)
Definition mcq_opts (options_ : string) : list string :=
  let opts :=
    map Str.strip
        (filter (fun o => Str.truthy (Str.strip o)) (Str.split "," options_)) in
  match opts with
  | [] => ["Option 1"; "Option 2"]
  | _ :: _ => opts
  end.

(** The input widget the form shows for one question. *)
Definition question_widget (q : question_row) : widget :=
  let options_ := Str.strip (or_empty (options q)) in
  if (qtype q =? "text")%string then text_area
  else if (qtype q =? "mcq")%string then radio (mcq_opts options_)
  else if (qtype q =? "rating")%string then slider 1 5 3
  else text_input.

(** [answers[qid] = ...] on a dict kept in insertion order. *)
Fixpoint dict_set (k : Z) (v : value) (d : list (Z * value))
  : list (Z * value) :=
  match d with
  | [] => [(k, v)]
  | (k', v') :: d' =>
      if k =? k' then (k, v) :: d' else (k', v') :: dict_set k v d'
  end.

(** The loop over [qdf.iterrows()] that fills [answers]; [ui qid] is what
    the user did with the widget of key [ans_<qid>]. *)
Definition survey_form (qdf : list question_row) (ui : Z -> gesture)
  : list (Z * value) :=
  fold_left
    (fun answers q =>
       dict_set (q_id q) (widget_value (question_widget q) (ui (q_id q)))
                answers)
    qdf [].

(** [ans is None or str(ans).strip() == ""] *)
Definition is_empty_answer (ans : value) : bool :=
  match ans with
  | VNone => true
  | _ => (Str.strip (str ans) =? "")%string
  end.

(** The body of [if submitted:]. *)
Definition submit_answers (chosen_id : Z) (respondent : string)
    (answers : list (Z * value)) : M message :=
  let empty_text :=
    map fst (filter (fun qa => is_empty_answer (snd qa)) answers) in
  match empty_text with
  | _ :: _ => ret (st_error "Please answer all questions before submitting.")
  | [] =>
      for_each answers
        (fun qa =>
           insert_response chosen_id (fst qa) (Str.strip respondent) (snd qa)) ;;;
      ret (st_success "Thank you! Your responses have been submitted.")
  end.

(** The user page once a survey is chosen and the form is sent. *)
Definition submit_survey (chosen_id : Z) (respondent : string)
    (ui : Z -> gesture) : M message :=
  d <- get_db ;;
  let qdf := fetch_questions d chosen_id in
  match qdf with
  | [] => ret (st_warning "This survey has no questions yet.")
  | _ :: _ => submit_answers chosen_id respondent (survey_form qdf ui)
  end.

(** ** Admin mode: create a survey *)

(** One slot of the authoring form: the options box exists for "mcq"
    only. *)
Definition question_slot (q_text q_type typed_opts : string)
  : string * string * string :=
  (q_text, q_type, if (q_type =? "mcq")%string then typed_opts else "").

(** The body of the loop over [question_data]: a slot whose text strips
    to nothing is skipped. *)
Definition store_question (sid : Z) (slot : string * string * string)
  : M unit :=
  let '(q_text, q_type, q_opts) := slot in
  if Str.truthy (Str.strip q_text)
  then insert_question sid (Str.strip q_text) q_type (Str.strip q_opts)
  else ret tt.

(** The body of [if st.button("Create Survey")]. *)
Definition create_survey (title_ desc : string)
    (question_data : list (string * string * string)) : M message :=
  if negb (Str.truthy (Str.strip title_))
  then ret (st_error "Survey title is required.")
  else
    sid <- insert_survey (Str.strip title_) (Str.strip desc) ;;
    for_each question_data (store_question sid) ;;;
    ret (st_success
           ("Survey created successfully! (Survey ID: " ++ Str.of_Z sid ++ ")")).

(** ** pandas numbers: IEEE binary64 *)

Module F64.

Definition prec : Z := 53.
Definition emax : Z := 1024.

Definition add : spec_float -> spec_float -> spec_float := SFadd prec emax.
Definition div : spec_float -> spec_float -> spec_float := SFdiv prec emax.
Definition eqb : spec_float -> spec_float -> bool := SFeqb.
Definition leb : spec_float -> spec_float -> bool := SFleb.

Definition of_Z (n : Z) : spec_float := binary_normalize prec emax n 0 false.

Definition is_nan (f : spec_float) : bool :=
  match f with S754_nan => true | _ => false end.

(** The integer nearest to [n / 2^k], ties to even. *)
Definition round_half_even_shift (n : Z) (k : Z) : Z :=
  let d := 2 ^ k in
  let q := n / d in
  let r := n mod d in
  if 2 * r <? d then q
  else if d <? 2 * r then q + 1
  else if Z.even q then q else q + 1.

(** The number of hundredths nearest to [m * 2^e], ties to even. *)
Definition hundredths (m : positive) (e : Z) : Z :=
  if 0 <=? e then 100 * Zpos m * 2 ^ e
  else round_half_even_shift (100 * Zpos m) (- e).

Definition two_digits (n : Z) : string :=
  (Str.of_Z (n / 10) ++ Str.of_Z (n mod 10))%string.

(** [f"{x:.2f}"] *)
Definition format_2f (x : spec_float) : string :=
  match x with
  | S754_zero s => ((if s then "-" else "") ++ "0.00")%string
  | S754_infinity s => if s then "-inf" else "inf"
  | S754_nan => "nan"
  | S754_finite s m e =>
      let h := hundredths m e in
      ((if s then "-" else "") ++ Str.of_Z (h / 100) ++ "."
       ++ two_digits (h mod 100))%string
  end.

End F64.

(** ** pandas Series helpers *)

(** Add one occurrence of [x] to a tally kept in order of first
    appearance. *)
Fixpoint bump {A : Type} (eqb : A -> A -> bool) (x : A) (l : list (A * nat))
  : list (A * nat) :=
  match l with
  | [] => [(x, 1%nat)]
  | (y, n) :: l' =>
      if eqb x y then (y, S n) :: l' else (y, n) :: bump eqb x l'
  end.

Definition tally {A : Type} (eqb : A -> A -> bool) (l : list A)
  : list (A * nat) :=
  fold_left (fun acc x => bump eqb x acc) l [].

(** [Series.value_counts()]: the distinct values with their number of
    occurrences, most frequent first; equal counts stay in order of first
    appearance. *)
Definition value_counts {A : Type} (eqb : A -> A -> bool) (l : list A)
  : list (A * nat) :=
  order_by (fun a b => Nat.leb (snd b) (snd a)) (tally eqb l).

(** [Series.sort_index()] on a numeric index. *)
Definition sort_index (s : list (spec_float * nat))
  : list (spec_float * nat) :=
  order_by (fun a b => F64.leb (fst a) (fst b)) s.

(** [Series.dropna()] *)
Definition dropna (s : list spec_float) : list spec_float :=
  filter (fun x => negb (F64.is_nan x)) s.

(** [Series.mean()] of a column without missing values: sum over count,
    the sum taken in column order. *)
Definition mean (s : list spec_float) : spec_float :=
  F64.div (fold_left F64.add s (S754_zero false))
          (F64.of_Z (Z.of_nat (List.length s))).

(** ** Admin mode: analytics *)

Inductive rating_view :=
| average_and_chart (text : string) (chart : list (spec_float * nat))
| no_valid_ratings (text : string).

Inductive question_view :=
| rating_analysis (v : rating_view)
| mcq_chart (counts : list (string * nat))
| text_table (rows : list (option string * string * string)).

Section Analytics.

(** How pandas reads one string as a number; [None] when it cannot.  The
    reader itself is pandas code. *)
Variable to_numeric : string -> option spec_float.

(** [pd.to_numeric(column, errors="coerce")] *)
Definition to_numeric_coerce (column : list string) : list spec_float :=
  map (fun s => match to_numeric s with Some x => x | None => S754_nan end)
      column.

(** The [if qtype == "rating":] branch, on the answers of [sub]. *)
Definition rating_analytics (answers : list string) : rating_view :=
  let sub_num := dropna (to_numeric_coerce answers) in
  if (0 <? Z.of_nat (List.length sub_num))
  then average_and_chart
         ("Average Rating: **" ++ F64.format_2f (mean sub_num) ++ " / 5**")
         (sort_index (value_counts F64.eqb sub_num))
  else no_valid_ratings "No valid ratings yet.".

(** [rdf[rdf["question_text"] == qtext]] *)
Definition responses_of (rdf : list response_view) (qtext : string)
  : list response_view :=
  filter (fun r => (v_question_text r =? qtext)%string) rdf.

(** The body of the question loop. *)
Definition question_analysis (rdf : list response_view) (q : question_row)
  : question_view :=
  let sub := responses_of rdf (question_text q) in
  if (qtype q =? "rating")%string
  then rating_analysis (rating_analytics (map v_answer sub))
  else if (qtype q =? "mcq")%string
  then mcq_chart (value_counts String.eqb (map v_answer sub))
  else text_table
         (map (fun r => (v_respondent_name r, v_answer r, v_submitted_at r))
              sub).

(** The analytics tab for the survey [sid]: nothing but a warning without
    responses, else the two totals and one view per question. *)
Definition analytics (d : database) (sid : Z)
  : message + (nat * nat * list question_view) :=
  let qdf := fetch_questions d sid in
  let rdf := fetch_responses d sid in
  match rdf with
  | [] => inl (st_warning "No responses yet to analyze.")
  | _ :: _ =>
      inr (List.length rdf, List.length qdf, map (question_analysis rdf) qdf)
  end.

End Analytics.

(** A reader for plain digit strings, as pandas reads them: used to run
    the analytics on concrete answers. *)
Fixpoint digits_value (acc : Z) (s : string) : option Z :=
  match s with
  | EmptyString => Some acc
  | String c s' =>
      let n := Z.of_N (N_of_ascii c) in
      if (48 <=? n) && (n <=? 57) then digits_value (10 * acc + (n - 48)) s'
      else None
  end.

Definition read_digits (s : string) : option spec_float :=
  match s with
  | EmptyString => None
  | _ => option_map F64.of_Z (digits_value 0 s)
  end.

(** ** The pages of the script *)

(** [st.text_input(label, value)] and [st.text_area]: the preset value
    unless the user typed. *)
Definition text_value (preset : string) (g : gesture) : string :=
  match g with
  | Typed s => s
  | _ => preset
  end.

(** [st.selectbox(label, options)]: like a radio, the first option unless
    another one is picked. *)
Definition selectbox (opts : list string) (g : gesture) : value :=
  widget_value (radio opts) g.

(** [st.number_input(label, min_value, max_value, value, step=1)] *)
Definition number_input (lo hi preset : Z) (g : gesture) : Z :=
  match g with
  | Slid n => if (lo <=? n) && (n <=? hi) then n else preset
  | _ => preset
  end.

(** The survey select box followed by the lookup of the id by title;
    [None] stands for the [IndexError] of [.iloc[0]]. *)
Definition pick_survey (surveys_df : list survey_row) (g : gesture)
  : option Z :=
  match selectbox (map title surveys_df) g with
  | VStr chosen => chosen_survey_id surveys_df chosen
  | _ => None
  end.

(** What the user page reads from its widgets in one run. *)
Record user_inputs := {
  survey_pick : gesture;
  respondent_in : gesture;
  answers_in : Z -> gesture;
  submitted : bool }.

(** [if st.session_state.role == "User":]; the result lists the messages
    shown ([None]: the run ends in an exception). *)
Definition user_mode (u : user_inputs) : M (option (list message)) :=
  d <- get_db ;;
  let surveys_df := fetch_surveys d in
  match surveys_df with
  | [] =>
      ret (Some [st_info
                   "No surveys available yet. Please ask admin to create one."])
  | _ :: _ =>
      match pick_survey surveys_df (survey_pick u) with
      | None => ret None
      | Some chosen_id =>
          let qdf := fetch_questions d chosen_id in
          match qdf with
          | [] => ret (Some [st_warning "This survey has no questions yet."])
          | _ :: _ =>
              if submitted u
              then
                m <- submit_answers chosen_id (text_value "" (respondent_in u))
                                    (survey_form qdf (answers_in u)) ;;
                ret (Some [m])
              else ret (Some [])
          end
      end
  end.

(** The widgets of one question slot of the authoring form. *)
Record slot_inputs := {
  q_text_in : gesture;
  q_type_in : gesture;
  q_opts_in : gesture }.

(** What the admin page reads from its widgets in one run. *)
Record admin_inputs := {
  username_in : gesture;
  password_in : gesture;
  login_clicked : bool;
  title_in : gesture;
  desc_in : gesture;
  q_count_in : gesture;
  slots_in : nat -> slot_inputs;
  create_clicked : bool;
  view_pick : gesture;
  analytics_pick : gesture;
  logout_clicked : bool }.

(** One pass of the loop that fills [question_data]. *)
Definition authored_slot (s : slot_inputs) : string * string * string :=
  let q_text := text_value "" (q_text_in s) in
  let q_type :=
    match selectbox ["text"; "mcq"; "rating"] (q_type_in s) with
    | VStr t => t
    | _ => "text"
    end in
  question_slot q_text q_type
    (text_value "Excellent, Good, Average, Poor" (q_opts_in s)).

(** [question_data] after the loop over [range(int(q_count))]. *)
Definition question_data_of (a : admin_inputs)
  : list (string * string * string) :=
  map (fun i => authored_slot (slots_in a i))
      (seq 0 (Z.to_nat (number_input 1 20 3 (q_count_in a)))).

(** The messages of the "View Responses" tab. *)
Definition responses_tab (d : database) (g : gesture)
  : option (list message) :=
  match fetch_surveys d with
  | [] => Some [st_info "No surveys available."]
  | s :: rest =>
      match pick_survey (s :: rest) g with
      | None => None
      | Some sid =>
          match fetch_responses d sid with
          | [] => Some [st_warning "No responses yet for this survey."]
          | _ :: _ => Some []
          end
      end
  end.

(** The messages of the "Analytics" tab. *)
Definition analytics_tab (d : database) (g : gesture)
  : option (list message) :=
  match fetch_surveys d with
  | [] => Some [st_info "No surveys available."]
  | s :: rest =>
      match pick_survey (s :: rest) g with
      | None => None
      | Some sid =>
          match fetch_responses d sid with
          | [] => Some [st_warning "No responses yet to analyze."]
          | _ :: _ => Some []
          end
      end
  end.

(** [st.session_state] *)
Record session_state := {
  role : string;
  admin_logged_in : bool }.

(** The session once the two defaults are set. *)
Definition initial_session : session_state :=
  {| role := "User"; admin_logged_in := false |}.

(** The "Logout" button, which ends the page of a logged-in admin; the
    flag in the result says that [st.rerun()] was called. *)
Definition logout_button (a : admin_inputs) (ss : session_state)
    (shown : list message) : session_state * bool * list message :=
  if logout_clicked a
  then ({| role := role ss; admin_logged_in := false |}, true, shown)
  else (ss, false, shown).

(** The [else:] branch of the role test. *)
Definition admin_mode (a : admin_inputs) (ss : session_state)
  : M (option (session_state * bool * list message)) :=
  if negb (admin_logged_in ss)
  then
    if login_clicked a
    then
      d <- get_db ;;
      if admin_login d (text_value "admin" (username_in a))
                     (text_value "" (password_in a))
      then ret (Some ({| role := role ss; admin_logged_in := true |}, true,
                      [st_success "Admin login successful."]))
      else ret (Some (ss, false,
                      [st_error "Invalid credentials. Try admin / admin123"]))
    else ret (Some (ss, false, []))
  else
    m1 <- (if create_clicked a
           then m <- create_survey (text_value "" (title_in a))
                                   (text_value "" (desc_in a))
                                   (question_data_of a) ;;
                ret [m]
           else ret []) ;;
    d <- get_db ;;
    match responses_tab d (view_pick a) with
    | None => ret None
    | Some m2 =>
        match analytics_tab d (analytics_pick a) with
        | None => ret None
        | Some m3 => ret (Some (logout_button a ss (m1 ++ m2 ++ m3)))
        end
    end.

(** [st.radio("Select Mode", ["User", "Admin"], index=0)] *)
Definition chosen_role (role_pick : gesture) : string :=
  match widget_value (radio ["User"; "Admin"]) role_pick with
  | VStr r => r
  | _ => "User"
  end.

(** One pass through the script, from [init_db()] to its last line. *)
Definition script_pass (role_pick : gesture) (u : user_inputs)
    (a : admin_inputs) (ss : session_state)
  : M (option (session_state * bool * list message)) :=
  init_db ;;;
  let role_ := chosen_role role_pick in
  let ss1 := {| role := role_; admin_logged_in := admin_logged_in ss |} in
  if (role_ =? "User")%string
  then
    r <- user_mode u ;;
    ret (option_map (fun shown => (ss1, false, shown)) r)
  else admin_mode a ss1.

(** The widgets as the rerun sees them: no button is pressed. *)
Definition released_user (u : user_inputs) : user_inputs :=
  {| survey_pick := survey_pick u; respondent_in := respondent_in u;
     answers_in := answers_in u; submitted := false |}.

Definition released_admin (a : admin_inputs) : admin_inputs :=
  {| username_in := username_in a; password_in := password_in a;
     login_clicked := false; title_in := title_in a; desc_in := desc_in a;
     q_count_in := q_count_in a; slots_in := slots_in a;
     create_clicked := false; view_pick := view_pick a;
     analytics_pick := analytics_pick a; logout_clicked := false |}.

(** One user interaction: a pass, and after [st.rerun()] a second pass
    on the new session, whose page replaces the first. *)
Definition script (role_pick : gesture) (u : user_inputs) (a : admin_inputs)
    (ss : session_state) : M (option (session_state * list message)) :=
  r <- script_pass role_pick u a ss ;;
  match r with
  | None => ret None
  | Some (ss', true, _) =>
      r2 <- script_pass role_pick (released_user u) (released_admin a) ss' ;;
      ret (option_map (fun p => (fst (fst p), snd p)) r2)
  | Some (ss', false, shown) => ret (Some (ss', shown))
  end.

(** The stores and sessions that one browser session reaches from a new
    file, one interaction after the other. *)
Inductive reachable (clock : nat -> string) : world -> session_state -> Prop :=
| reach_start :
    reachable clock {| db := empty_db; wall_clock := clock; readings := 0 |}
              initial_session
| reach_step (w : world) (ss : session_state) (role_pick : gesture)
    (u : user_inputs) (a : admin_inputs) :
    reachable clock w ss ->
    reachable clock (snd (script role_pick u a ss w))
              (match fst (script role_pick u a ss w) with
               | Some (ss', _) => ss'
               | None => ss
               end).

(** ** Predicates used in the statements *)

(** Every character of [s] is white space. *)
Definition blank (s : string) : Prop :=
  Forall (fun c => Str.isspace c = true) (Str.chars s).

(** The constraints the schema and the application keep: primary keys are
    unique, a question belongs to a stored survey, and a response points to
    a stored question of its survey. *)
Record db_ok (d : database) : Prop := {
  ok_survey_ids : NoDup (map s_id (surveys d));
  ok_question_ids : NoDup (map q_id (questions d));
  ok_response_ids : NoDup (map r_id (responses d));
  ok_question_survey :
    forall q, In q (questions d) -> In (q_survey_id q) (map s_id (surveys d));
  ok_response_question :
    forall r, In r (responses d) ->
      exists q, In q (questions d) /\ q_id q = r_question_id r
                /\ q_survey_id q = r_survey_id r }.

(** The columns of a response row that the submission decides. *)
Definition response_fields (r : response_row)
  : Z * Z * option string * string :=
  (r_survey_id r, r_question_id r, respondent_name r, answer r).

(** The columns of a question row that the authoring form decides. *)
Definition question_fields (q : question_row)
  : Z * string * string * option string :=
  (q_survey_id q, question_text q, qtype q, options q).

(** The answer the form holds for question [q] under the gestures [ui]. *)
Definition answer_of (ui : Z -> gesture) (q : question_row) : value :=
  widget_value (question_widget q) (ui (q_id q)).

(** Each element is above the bound and below its successor. *)
Fixpoint ascending_above (b : Z) (l : list Z) : Prop :=
  match l with
  | [] => True
  | x :: l' => b < x /\ ascending_above x l'
  end.

(** The largest rowid a table holds or ever held. *)
Definition high_water (ids : list Z) (seq : Z) : Z :=
  Z.max (fold_right Z.max 0 ids) seq.

(** The id [insert_survey] gives the next survey, and the row it writes. *)
Definition new_survey_id (w : world) : Z :=
  next_rowid (map s_id (surveys (db w))) (seq_surveys (db w)).

Definition new_survey_row (w : world) (title_ desc : string) : survey_row :=
  {| s_id := new_survey_id w; title := Str.strip title_;
     description := Some (Str.strip desc);
     created_at := wall_clock w (readings w) |}.

(** The world right after [insert_survey]. *)
Definition after_insert_survey (w : world) (title_ desc : string) : world :=
  {| db := {| admins := admins (db w);
              surveys := surveys (db w) ++ [new_survey_row w title_ desc];
              questions := questions (db w);
              responses := responses (db w);
              seq_surveys := new_survey_id w;
              seq_questions := seq_questions (db w);
              seq_responses := seq_responses (db w) |};
     wall_clock := wall_clock w;
     readings := S (readings w) |}.

(** What is stored for one authored slot. *)
Definition stored_fields (sid : Z) (slot : string * string * string)
  : Z * string * string * option string :=
  let '(q_text, q_type, q_opts) := slot in
  (sid, Str.strip q_text, q_type, Some (Str.strip q_opts)).

(** The slot has text once stripped. *)
Definition has_text (slot : string * string * string) : bool :=
  let '(q_text, _, _) := slot in Str.truthy (Str.strip q_text).


(** The number of elements of [l] that [eqb] equates with [x]. *)
Definition occurrences {A : Type} (eqb : A -> A -> bool) (x : A) (l : list A)
  : nat :=
  List.length (filter (eqb x) l).

(** The count a breakdown holds for the keys that [eqb] equates with
    [k]. *)
Definition count_for {A : Type} (eqb : A -> A -> bool) (k : A)
    (counts : list (A * nat)) : nat :=
  fold_right (fun kn acc => if eqb k (fst kn) then (snd kn + acc)%nat else acc)
             0%nat counts.

(** No key of a breakdown is equated with an earlier one. *)
Definition distinct_keys {A : Type} (eqb : A -> A -> bool)
    (counts : list (A * nat)) : Prop :=
  ForallOrdPairs (fun a b => eqb (fst b) (fst a) = false) counts.




(** The admin row that [init_db] writes into an empty table. *)
Definition seed_admin : admin_row :=
  {| username := "admin"; password := "admin123" |}.

(** The question takes its answer from a radio or a slider. *)
Definition closed_question (q : question_row) : Prop :=
  qtype q = "mcq" \/ qtype q = "rating".

(** What the widgets of the pages guarantee about the stored rows: titles
    and question texts are stripped and not empty, a question has one of the
    three types and stripped options (none unless multiple-choice), an
    answer is never blank, a rating answer is a digit from 1 to 5 and a
    multiple-choice answer is one of the options its question offers. *)
Record app_made (d : database) : Prop := {
  made_surveys :
    forall s, In s (surveys d) ->
      title s <> "" /\ Str.strip (title s) = title s
      /\ exists desc, description s = Some desc /\ Str.strip desc = desc;
  made_questions :
    forall q, In q (questions d) ->
      question_text q <> "" /\ Str.strip (question_text q) = question_text q
      /\ In (qtype q) ["text"; "mcq"; "rating"]
      /\ exists o, options q = Some o /\ Str.strip o = o
                   /\ (qtype q <> "mcq" -> o = "");
  made_responses :
    forall r, In r (responses d) ->
      Str.strip (answer r) <> ""
      /\ exists name, respondent_name r = Some name /\ Str.strip name = name;
  made_ratings :
    forall r q, In r (responses d) -> In q (questions d) ->
      q_id q = r_question_id r -> qtype q = "rating" ->
      In (answer r) ["1"; "2"; "3"; "4"; "5"];
  made_choices :
    forall r q, In r (responses d) -> In q (questions d) ->
      q_id q = r_question_id r -> qtype q = "mcq" ->
      In (answer r) (mcq_opts (Str.strip (or_empty (options q)))) }.

(** The rows of the three data tables. *)
Definition data_of (d : database)
  : list survey_row * list question_row * list response_row :=
  (surveys d, questions d, responses d).

(** ** Sample runs *)

Module Sample.

(** A clock that advances one second per reading. *)
Definition clock (n : nat) : string :=
  ("2024-05-01T10:00:" ++ F64.two_digits (Z.of_nat n))%string.

Definition new_file : world :=
  {| db := empty_db; wall_clock := clock; readings := 0 |}.

Definition started : world := snd (init_db new_file).

(** A survey with a text, a rating and a multiple-choice question; the
    second slot is left blank. *)
Definition feedback_slots : list (string * string * string) :=
  [ question_slot " How was it? " "text" "";
    question_slot "  " "text" "";
    question_slot "Rate it" "rating" "";
    question_slot "Pick one" "mcq" "Good, Poor" ].

Definition with_survey : world :=
  snd (create_survey " Course feedback " " Spring term " feedback_slots
         started).

Definition ui_complete (qid : Z) : gesture :=
  match qid with
  | 1 => Typed "fine"
  | 2 => Slid 4
  | 3 => Picked 1
  | _ => Untouched
  end.

Definition ui_blank_text (qid : Z) : gesture :=
  match qid with
  | 1 => Typed "   "
  | 2 => Slid 4
  | 3 => Picked 1
  | _ => Untouched
  end.

(** The same survey with a question of a type the form does not offer. *)
Definition with_scale_question : world :=
  snd (insert_question 1 "Anything else?" "scale" "" with_survey).

(** A survey whose two questions have the same text, answered once. *)
Definition same_text_slots : list (string * string * string) :=
  [ question_slot "Same?" "mcq" "A,B"; question_slot "Same?" "mcq" "A,B" ].

Definition ui_a_then_b (qid : Z) : gesture :=
  match qid with
  | 1 => Picked 0
  | 2 => Picked 1
  | _ => Untouched
  end.

Definition same_text_answered : world :=
  snd (submit_survey 1 "" ui_a_then_b
         (snd (create_survey "Twice" "" same_text_slots started))).

Definition same_q1 : question_row :=
  {| q_id := 1; q_survey_id := 1; question_text := "Same?"; qtype := "mcq";
     options := Some "A,B" |}.

Definition same_q2 : question_row :=
  {| q_id := 2; q_survey_id := 1; question_text := "Same?"; qtype := "mcq";
     options := Some "A,B" |}.



End Sample.

(** ** Sample interactions with the script *)

Module Tour.

Definition idle_user : user_inputs :=
  {| survey_pick := Untouched; respondent_in := Untouched;
     answers_in := fun _ => Untouched; submitted := false |}.

Definition blank_slot : slot_inputs :=
  {| q_text_in := Untouched; q_type_in := Untouched; q_opts_in := Untouched |}.

Definition idle_admin : admin_inputs :=
  {| username_in := Untouched; password_in := Untouched;
     login_clicked := false; title_in := Untouched; desc_in := Untouched;
     q_count_in := Untouched; slots_in := fun _ => blank_slot;
     create_clicked := false; view_pick := Untouched;
     analytics_pick := Untouched; logout_clicked := false |}.

(** The admin types the password and presses "Login". *)
Definition login_admin : admin_inputs :=
  {| username_in := Untouched; password_in := Typed "admin123";
     login_clicked := true; title_in := Untouched; desc_in := Untouched;
     q_count_in := Untouched; slots_in := fun _ => blank_slot;
     create_clicked := false; view_pick := Untouched;
     analytics_pick := Untouched; logout_clicked := false |}.

(** A wrong password. *)
Definition guessing_admin : admin_inputs :=
  {| username_in := Untouched; password_in := Typed "admin";
     login_clicked := true; title_in := Untouched; desc_in := Untouched;
     q_count_in := Untouched; slots_in := fun _ => blank_slot;
     create_clicked := true; view_pick := Untouched;
     analytics_pick := Untouched; logout_clicked := false |}.

(** The admin authors "Lunch" with a rating and a multiple-choice question
    and presses "Create". *)
Definition lunch_slot (i : nat) : slot_inputs :=
  match i with
  | O => {| q_text_in := Typed "Rate the food"; q_type_in := Picked 2;
            q_opts_in := Untouched |}
  | _ => {| q_text_in := Typed " Which dish? "; q_type_in := Picked 1;
            q_opts_in := Untouched |}
  end.

Definition authoring_admin : admin_inputs :=
  {| username_in := Untouched; password_in := Untouched;
     login_clicked := false; title_in := Typed "Lunch"; desc_in := Untouched;
     q_count_in := Slid 2; slots_in := lunch_slot;
     create_clicked := true; view_pick := Untouched;
     analytics_pick := Untouched; logout_clicked := false |}.

(** A respondent who sends the form without touching any widget. *)
Definition sending_user : user_inputs :=
  {| survey_pick := Untouched; respondent_in := Typed " Bo ";
     answers_in := fun _ => Untouched; submitted := true |}.

Definition session_after (r : option (session_state * list message) * world)
    (ss : session_state) : session_state :=
  match fst r with
  | Some (ss', _) => ss'
  | None => ss
  end.

Definition run1 := script (Picked 1) idle_user login_admin initial_session
                          Sample.new_file.
Definition session1 := session_after run1 initial_session.

Definition run2 := script (Picked 1) idle_user authoring_admin session1
                          (snd run1).
Definition session2 := session_after run2 session1.

Definition run3 := script Untouched sending_user idle_admin session2
                          (snd run2).
Definition session3 := session_after run3 session2.

(** Two surveys with the same title. *)
Definition two_lunches : world :=
  snd (create_survey "Lunch" "later" [question_slot "Again?" "text" ""]
         (snd run3)).

(** The sample survey of [Sample] with one complete submission. *)
Definition answered : world :=
  snd (submit_survey 1 " Ann " Sample.ui_complete Sample.with_survey).

(** Slots without any text. *)
Definition blank_slots : list (string * string * string) :=
  [question_slot "  " "text" ""; question_slot "" "rating" ""].

End Tour.

(** ** Strings: [strip] and [split] *)

Lemma lstrip_empty_iff (s : string) : Str.lstrip s = "" <-> blank s.
Proof.
  unfold blank. induction s as [|c s IH]; simpl.
  - split; [constructor | reflexivity].
  - destruct (Str.isspace c) eqn:Hc.
    + rewrite IH. split.
      * intros H. constructor; assumption.
      * intros H. inversion H; assumption.
    + split; [discriminate|].
      intros H. inversion H; congruence.
Qed.

Lemma rstrip_empty_iff (s : string) : Str.rstrip s = "" <-> blank s.
Proof.
  unfold blank. induction s as [|c s IH]; simpl.
  - split; [constructor | reflexivity].
  - destruct (Str.rstrip s) eqn:Hr.
    + destruct (Str.isspace c) eqn:Hc.
      * split; [|reflexivity]. intros _. constructor; [assumption|].
        apply IH. reflexivity.
      * split; [discriminate|]. intros H. inversion H; congruence.
    + split; [discriminate|]. intros H. inversion H; subst.
      apply IH in H3. discriminate.
Qed.

Lemma lstrip_chars (P : ascii -> Prop) (s : string) :
  Forall P (Str.chars s) -> Forall P (Str.chars (Str.lstrip s)).
Proof.
  induction s as [|c s IH]; simpl; intros H; [assumption|].
  destruct (Str.isspace c); [|assumption].
  apply IH. inversion H; assumption.
Qed.



Lemma blank_lstrip (s : string) : blank (Str.lstrip s) -> blank s.
Proof.
  unfold blank. induction s as [|c s IH]; simpl; intros H; [assumption|].
  destruct (Str.isspace c) eqn:Hc; [|assumption].
  constructor; auto.
Qed.

Lemma strip_empty_iff (s : string) : Str.strip s = "" <-> blank s.
Proof.
  unfold Str.strip. rewrite rstrip_empty_iff. split.
  - apply blank_lstrip.
  - apply lstrip_chars.
Qed.

Lemma truthy_false_iff (s : string) : Str.truthy s = false <-> s = "".
Proof. destruct s; simpl; split; congruence. Qed.

Lemma truthy_true_iff (s : string) : Str.truthy s = true <-> s <> "".
Proof. destruct s; simpl; split; congruence. Qed.



Lemma mcq_opts_not_nil (options_ : string) : mcq_opts options_ <> [].
Proof.
  unfold mcq_opts.
  destruct (map Str.strip _); discriminate.
Qed.


(** An option offered by the radio is a stripped, non-empty piece. *)
Lemma mcq_opts_pieces (options_ : string) (o : string) :
  In o (mcq_opts options_) ->
  o = "Option 1" \/ o = "Option 2"
  \/ (o <> "" /\ exists piece, In piece (Str.split "," options_)
                               /\ o = Str.strip piece).
Proof.
  unfold mcq_opts.
  destruct (map Str.strip _) as [|x l] eqn:E.
  - simpl. intuition auto.
  - intros Hin. right. right. rewrite <- E in Hin.
    apply in_map_iff in Hin. destruct Hin as [piece [Hp Hin]].
    apply filter_In in Hin. destruct Hin as [Hin Ht].
    apply truthy_true_iff in Ht. subst o. split; [assumption|].
    exists piece. split; [assumption | reflexivity].
Qed.

(** ** [ORDER BY] *)

Section OrderBy.

Context {A : Type}.
Variable le : A -> A -> bool.

Lemma insert_by_perm (x : A) (l : list A) :
  Permutation (insert_by le x l) (x :: l).
Proof.
  induction l as [|y l IH]; simpl; [reflexivity|].
  destruct (le x y); [reflexivity|].
  rewrite IH. apply perm_swap.
Qed.

Lemma order_by_perm (l : list A) : Permutation (order_by le l) l.
Proof.
  induction l as [|x l IH]; simpl; [reflexivity|].
  rewrite insert_by_perm. constructor. exact IH.
Qed.

Lemma order_by_In (x : A) (l : list A) : In x (order_by le l) <-> In x l.
Proof.
  split; apply Permutation_in;
    [apply order_by_perm | symmetry; apply order_by_perm].
Qed.

Lemma order_by_length (l : list A) :
  List.length (order_by le l) = List.length l.
Proof. apply Permutation_length, order_by_perm. Qed.

Lemma order_by_nil_iff (l : list A) : order_by le l = [] <-> l = [].
Proof.
  split; intros H.
  - apply length_zero_iff_nil. rewrite <- order_by_length, H. reflexivity.
  - subst. reflexivity.
Qed.

(** A list that is already in order is returned as it is. *)
Lemma order_by_sorted_id (l : list A) :
  Sorted (fun a b => le a b = true) l -> order_by le l = l.
Proof.
  induction 1 as [|x l Hs IH Hhd]; simpl; [reflexivity|].
  fold (order_by le l). rewrite IH.
  destruct Hhd as [|y l' Hxy]; simpl; [reflexivity|].
  rewrite Hxy. reflexivity.
Qed.

(** A last row that must precede every other one comes out first. *)
Lemma order_by_snoc_first (l : list A) (x : A) :
  (forall y, In y l -> le y x = false) ->
  order_by le (l ++ [x]) = x :: order_by le l.
Proof.
  induction l as [|y l IH]; simpl; intros H; [reflexivity|].
  fold (order_by le (l ++ [x])). fold (order_by le l).
  rewrite IH by auto. simpl.
  rewrite (H y) by auto. reflexivity.
Qed.

Hypothesis le_total : forall a b, le a b = true \/ le b a = true.
Hypothesis le_trans :
  forall a b c, le a b = true -> le b c = true -> le a c = true.

Lemma insert_by_sorted (x : A) (l : list A) :
  StronglySorted (fun a b => le a b = true) l ->
  StronglySorted (fun a b => le a b = true) (insert_by le x l).
Proof.
  induction 1 as [|y l Hs IH Hall]; simpl.
  - repeat constructor.
  - destruct (le x y) eqn:Hxy.
    + constructor; [constructor; assumption|].
      constructor; [assumption|].
      eapply Forall_impl; [|exact Hall].
      intros z Hz. eapply le_trans; eassumption.
    + constructor; [assumption|].
      assert (Hyx : le y x = true).
      { destruct (le_total x y); congruence. }
      eapply Permutation_Forall.
      * symmetry. apply insert_by_perm.
      * constructor; assumption.
Qed.

Lemma order_by_sorted (l : list A) :
  StronglySorted (fun a b => le a b = true) (order_by le l).
Proof.
  induction l as [|x l IH]; simpl; [constructor|].
  apply insert_by_sorted. exact IH.
Qed.

End OrderBy.

(** ** Rowids *)

Lemma fold_max_ge (ids : list Z) (x : Z) :
  In x ids -> x <= fold_right Z.max 0 ids.
Proof.
  induction ids as [|y ids IH]; simpl; [contradiction|].
  intros [->|H]; [lia|]. specialize (IH H). lia.
Qed.

Lemma next_rowid_above (ids : list Z) (seq : Z) (x : Z) :
  In x ids -> x < next_rowid ids seq.
Proof.
  intros H. apply fold_max_ge in H. unfold next_rowid. lia.
Qed.

Lemma next_rowid_fresh (ids : list Z) (seq : Z) :
  ~ In (next_rowid ids seq) ids.
Proof.
  intros H. apply (next_rowid_above ids seq) in H. lia.
Qed.

Lemma fold_max_le (l : list Z) (b : Z) :
  0 <= b -> (forall x, In x l -> x <= b) -> fold_right Z.max 0 l <= b.
Proof.
  intros P. induction l as [|y l IH]; simpl; intros G; [lia|].
  assert (y <= b) by (apply G; auto).
  assert (fold_right Z.max 0 l <= b) by (apply IH; auto).
  lia.
Qed.

Lemma fold_max_nonneg (l : list Z) : 0 <= fold_right Z.max 0 l.
Proof. induction l; simpl; lia. Qed.

Lemma high_water_snoc (ids : list Z) (seq : Z) :
  high_water (ids ++ [next_rowid ids seq]) (next_rowid ids seq)
  = next_rowid ids seq.
Proof.
  unfold high_water.
  assert (P : 0 <= next_rowid ids seq).
  { unfold next_rowid. pose proof (fold_max_nonneg ids). lia. }
  assert (H : fold_right Z.max 0 (ids ++ [next_rowid ids seq])
              <= next_rowid ids seq).
  { apply fold_max_le; [assumption|].
    intros x Hx. apply in_app_or in Hx. destruct Hx as [Hx|[<-|[]]].
    - apply (next_rowid_above ids seq) in Hx. lia.
    - lia. }
  lia.
Qed.

Lemma ascending_above_sorted (b : Z) (l : list Z) :
  ascending_above b l -> Sorted Z.lt l /\ Forall (fun x => b < x) l.
Proof.
  revert b. induction l as [|x l IH]; simpl; intros b H.
  - split; constructor.
  - destruct H as [Hb Hl]. destruct (IH x Hl) as [Hs Hall]. split.
    + constructor; [assumption|].
      destruct l; constructor. simpl in Hl. tauto.
    + constructor; [assumption|].
      eapply Forall_impl; [|exact Hall]. simpl. intros; lia.
Qed.

(** ** The form of the user page *)

Lemma question_widget_mcq (q : question_row) :
  qtype q = "mcq" ->
  question_widget q = radio (mcq_opts (Str.strip (or_empty (options q)))).
Proof. intros H. unfold question_widget. rewrite H. reflexivity. Qed.

Lemma question_widget_other (q : question_row) :
  qtype q <> "text" -> qtype q <> "mcq" -> qtype q <> "rating" ->
  question_widget q = text_input.
Proof.
  intros H1 H2 H3. unfold question_widget.
  apply String.eqb_neq in H1, H2, H3. rewrite H1, H2, H3. reflexivity.
Qed.

(** No widget of the form hands back [None]. *)
Lemma answer_of_not_none (ui : Z -> gesture) (q : question_row) :
  answer_of ui q <> VNone.
Proof.
  unfold answer_of, question_widget.
  destruct (qtype q =? "text")%string.
  { simpl. destruct (ui (q_id q)); discriminate. }
  destruct (qtype q =? "mcq")%string.
  { pose proof (mcq_opts_not_nil (Str.strip (or_empty (options q)))) as Hne.
    destruct (mcq_opts _) as [|o opts]; [congruence|].
    simpl. destruct (ui (q_id q)); try discriminate.
    destruct (nth_error (o :: opts) i); discriminate. }
  destruct (qtype q =? "rating")%string.
  { simpl. destruct (ui (q_id q)); try discriminate.
    destruct (_ && _); discriminate. }
  simpl. destruct (ui (q_id q)); discriminate.
Qed.

Lemma is_empty_answer_iff (ui : Z -> gesture) (q : question_row) :
  is_empty_answer (answer_of ui q) = true
  <-> Str.strip (str (answer_of ui q)) = "".
Proof.
  pose proof (answer_of_not_none ui q) as Hn.
  destruct (answer_of ui q); [congruence| |]; simpl; apply String.eqb_eq.
Qed.

Lemma dict_set_fresh (k : Z) (v : value) (d : list (Z * value)) :
  ~ In k (map fst d) -> dict_set k v d = d ++ [(k, v)].
Proof.
  induction d as [|[k' v'] d IH]; simpl; intros H; [reflexivity|].
  destruct (Z.eqb_spec k k') as [->|Hne]; [tauto|].
  rewrite IH by tauto. reflexivity.
Qed.

Lemma survey_form_acc (ui : Z -> gesture) (qdf : list question_row)
    (acc : list (Z * value)) :
  NoDup (map fst acc ++ map q_id qdf) ->
  fold_left
    (fun answers q => dict_set (q_id q) (answer_of ui q) answers) qdf acc
  = acc ++ map (fun q => (q_id q, answer_of ui q)) qdf.
Proof.
  revert acc. induction qdf as [|q qdf IH]; simpl; intros acc H.
  - rewrite app_nil_r. reflexivity.
  - assert (Hq : ~ In (q_id q) (map fst acc)).
    { apply NoDup_remove_2 in H. intros Hin. apply H.
      apply in_or_app. left. assumption. }
    rewrite dict_set_fresh by assumption.
    rewrite IH.
    + rewrite <- app_assoc. reflexivity.
    + rewrite map_app. simpl. rewrite <- app_assoc. simpl. exact H.
Qed.

(** With distinct question ids the dict has one entry per question, in
    question order. *)
Lemma survey_form_entries (ui : Z -> gesture) (qdf : list question_row) :
  NoDup (map q_id qdf) ->
  survey_form qdf ui = map (fun q => (q_id q, answer_of ui q)) qdf.
Proof.
  intros H. unfold survey_form.
  change (fold_left
            (fun answers q => dict_set (q_id q) (answer_of ui q) answers)
            qdf [] = map (fun q => (q_id q, answer_of ui q)) qdf).
  rewrite survey_form_acc; [reflexivity | exact H].
Qed.

(** Selecting rows keeps their ids distinct. *)
Lemma selected_ids_NoDup (keep : question_row -> bool)
    (rows : list question_row) :
  NoDup (map q_id rows) -> NoDup (map q_id (filter keep rows)).
Proof.
  intros Hnd. induction rows as [|row rows IH]; simpl in *; [constructor|].
  apply NoDup_cons_iff in Hnd. destruct Hnd as [Hrow Hrows].
  destruct (keep row); simpl; [|auto].
  apply NoDup_cons_iff. split; [|auto].
  intros Hin. apply Hrow. apply in_map_iff in Hin.
  destruct Hin as [other [Hid Hin]]. apply filter_In in Hin.
  apply in_map_iff. exists other. tauto.
Qed.

Lemma fetch_questions_In (d : database) (sid : Z) (q : question_row) :
  In q (fetch_questions d sid)
  <-> In q (questions d) /\ q_survey_id q = sid.
Proof.
  unfold fetch_questions. rewrite order_by_In, filter_In.
  rewrite Z.eqb_eq. reflexivity.
Qed.

Lemma fetch_questions_NoDup (d : database) (sid : Z) :
  NoDup (map q_id (questions d)) ->
  NoDup (map q_id (fetch_questions d sid)).
Proof.
  intros H. unfold fetch_questions.
  eapply Permutation_NoDup.
  - apply Permutation_map. symmetry. apply order_by_perm.
  - apply selected_ids_NoDup. exact H.
Qed.

(** ** Writing response rows *)

Lemma insert_responses_spec (chosen_id : Z) (name : string)
    (answers : list (Z * value)) (w : world) :
  exists new : list response_row,
    let w' :=
      snd (for_each answers
             (fun qa => insert_response chosen_id (fst qa) name (snd qa)) w) in
    responses (db w') = responses (db w) ++ new
    /\ map response_fields new
       = map (fun qa => (chosen_id, fst qa, Some name, str (snd qa))) answers
    /\ ascending_above
         (high_water (map r_id (responses (db w))) (seq_responses (db w)))
         (map r_id new)
    /\ map submitted_at new
       = map (wall_clock w) (seq (readings w) (List.length answers))
    /\ admins (db w') = admins (db w)
    /\ surveys (db w') = surveys (db w)
    /\ questions (db w') = questions (db w)
    /\ seq_surveys (db w') = seq_surveys (db w)
    /\ seq_questions (db w') = seq_questions (db w).
Proof.
  revert w. induction answers as [|[qid ans] answers IH]; intros w.
  - exists []. simpl. rewrite app_nil_r. repeat split; reflexivity.
  - set (i := next_rowid (map r_id (responses (db w))) (seq_responses (db w))).
    set (row := {| r_id := i; r_survey_id := chosen_id; r_question_id := qid;
                   respondent_name := Some name; answer := str ans;
                   submitted_at := wall_clock w (readings w) |}).
    set (w1 := {| db := {| admins := admins (db w); surveys := surveys (db w);
                           questions := questions (db w);
                           responses := responses (db w) ++ [row];
                           seq_surveys := seq_surveys (db w);
                           seq_questions := seq_questions (db w);
                           seq_responses := i |};
                  wall_clock := wall_clock w;
                  readings := S (readings w) |}).
    destruct (IH w1) as [new (Hr & Hf & Ha & Ht & H1 & H2 & H3 & H4 & H5)].
    exists (row :: new).
    change (snd (for_each ((qid, ans) :: answers)
                   (fun qa => insert_response chosen_id (fst qa) name (snd qa))
                   w))
      with (snd (for_each answers
                   (fun qa => insert_response chosen_id (fst qa) name (snd qa))
                   w1)).
    cbv zeta in *.
    rewrite Hr, H1, H2, H3, H4, H5. simpl.
    rewrite <- app_assoc. simpl.
    repeat split; try reflexivity.
    + f_equal. exact Hf.
    + unfold i, next_rowid, high_water. lia.
    + simpl in Ha. rewrite map_app in Ha. simpl in Ha.
      fold i in Ha. unfold i in Ha |- *.
      rewrite high_water_snoc in Ha. exact Ha.
    + f_equal. exact Ht.
Qed.

Lemma ascending_above_NoDup (b : Z) (l : list Z) :
  ascending_above b l -> NoDup l.
Proof.
  revert b. induction l as [|x l IH]; simpl; intros b H; [constructor|].
  destruct H as [_ H]. constructor; [|eauto].
  apply ascending_above_sorted in H. destruct H as [_ H].
  rewrite Forall_forall in H. intros Hin. apply H in Hin. lia.
Qed.

Lemma NoDup_app_above (old new : list Z) (seq : Z) :
  NoDup old -> ascending_above (high_water old seq) new ->
  NoDup (old ++ new).
Proof.
  intros Ho Hn.
  pose proof (ascending_above_NoDup _ _ Hn) as Hd.
  apply ascending_above_sorted in Hn. destruct Hn as [_ Hn].
  rewrite Forall_forall in Hn.
  induction old as [|x old IH]; simpl; [assumption|].
  inversion Ho; subst. constructor.
  - intros Hin. apply in_app_or in Hin. destruct Hin as [Hin|Hin]; [tauto|].
    apply Hn in Hin. unfold high_water in Hin. simpl in Hin. lia.
  - apply IH; [assumption|].
    intros y Hy. apply Hn in Hy. unfold high_water in *. simpl in Hy. lia.
Qed.

(** ** Submitting a survey *)

Lemma empty_text_none (ui : Z -> gesture) (qdf : list question_row) :
  Forall (fun q => Str.strip (str (answer_of ui q)) <> "") qdf ->
  filter (fun qa => is_empty_answer (snd qa))
         (map (fun q => (q_id q, answer_of ui q)) qdf) = [].
Proof.
  induction 1 as [|q qdf Hq _ IH]; simpl; [reflexivity|].
  destruct (is_empty_answer (answer_of ui q)) eqn:E; [|exact IH].
  apply is_empty_answer_iff in E. contradiction.
Qed.

Lemma empty_text_some (ui : Z -> gesture) (qdf : list question_row) :
  Exists (fun q => Str.strip (str (answer_of ui q)) = "") qdf ->
  exists qid rest,
    map fst (filter (fun qa => is_empty_answer (snd qa))
                    (map (fun q => (q_id q, answer_of ui q)) qdf))
    = qid :: rest.
Proof.
  induction 1 as [q qdf Hq | q qdf _ IH]; simpl.
  - apply is_empty_answer_iff in Hq. rewrite Hq. simpl. eauto.
  - destruct (is_empty_answer (answer_of ui q)); simpl; eauto.
Qed.

Lemma submit_answers_rejected (chosen_id : Z) (respondent : string)
    (ui : Z -> gesture) (qdf : list question_row) (w : world) :
  Exists (fun q => Str.strip (str (answer_of ui q)) = "") qdf ->
  submit_answers chosen_id respondent
    (map (fun q => (q_id q, answer_of ui q)) qdf) w
  = (st_error "Please answer all questions before submitting.", w).
Proof.
  intros H. apply empty_text_some in H. destruct H as [qid [rest H]].
  unfold submit_answers. rewrite H. reflexivity.
Qed.

Lemma submit_answers_accepted (chosen_id : Z) (respondent : string)
    (ui : Z -> gesture) (qdf : list question_row) (w : world) :
  Forall (fun q => Str.strip (str (answer_of ui q)) <> "") qdf ->
  submit_answers chosen_id respondent
    (map (fun q => (q_id q, answer_of ui q)) qdf) w
  = (st_success "Thank you! Your responses have been submitted.",
     snd (for_each (map (fun q => (q_id q, answer_of ui q)) qdf)
            (fun qa => insert_response chosen_id (fst qa)
                         (Str.strip respondent) (snd qa)) w)).
Proof.
  intros H. apply empty_text_none in H.
  unfold submit_answers. rewrite H. simpl. unfold bind.
  destruct (for_each _ _ w). reflexivity.
Qed.

(** With distinct question ids, sending the form runs [submit_answers] on
    one entry per question. *)
Lemma submit_survey_run (w : world) (chosen_id : Z) (respondent : string)
    (ui : Z -> gesture) :
  NoDup (map q_id (questions (db w))) ->
  submit_survey chosen_id respondent ui w
  = match fetch_questions (db w) chosen_id with
    | [] => (st_warning "This survey has no questions yet.", w)
    | _ :: _ =>
        submit_answers chosen_id respondent
          (map (fun q => (q_id q, answer_of ui q))
               (fetch_questions (db w) chosen_id)) w
    end.
Proof.
  intros Hnd. unfold submit_survey, bind, get_db.
  rewrite <- (survey_form_entries ui (fetch_questions (db w) chosen_id)).
  - destruct (fetch_questions (db w) chosen_id); reflexivity.
  - apply fetch_questions_NoDup, Hnd.
Qed.

Lemma submit_survey_rejects (w : world) (chosen_id : Z) (respondent : string)
    (ui : Z -> gesture) :
  NoDup (map q_id (questions (db w))) ->
  Exists (fun q => Str.strip (str (answer_of ui q)) = "")
         (fetch_questions (db w) chosen_id) ->
  submit_survey chosen_id respondent ui w
  = (st_error "Please answer all questions before submitting.", w).
Proof.
  intros Hnd Hex. rewrite (submit_survey_run _ _ _ _ Hnd).
  destruct (fetch_questions (db w) chosen_id) as [|q0 qs] eqn:Eq.
  - inversion Hex.
  - apply submit_answers_rejected. exact Hex.
Qed.

(** C1. A submission with a blank answer (empty once stripped) is refused
    with the one error message and leaves the database as it was; a
    submission without one appends exactly one response row per question of
    the survey, in question order, each with the stripped respondent name,
    and touches no other table. *)
Theorem submit_survey_all_or_nothing (w : world) (chosen_id : Z)
    (respondent : string) (ui : Z -> gesture) :
  db_ok (db w) ->
  let qdf := fetch_questions (db w) chosen_id in
  let out := submit_survey chosen_id respondent ui w in
  (Exists (fun q => Str.strip (str (answer_of ui q)) = "") qdf ->
   out = (st_error "Please answer all questions before submitting.", w))
  /\ (Forall (fun q => Str.strip (str (answer_of ui q)) <> "") qdf ->
      exists written : list response_row,
        responses (db (snd out)) = responses (db w) ++ written
        /\ map response_fields written
           = map (fun q => (chosen_id, q_id q, Some (Str.strip respondent),
                            str (answer_of ui q))) qdf
        /\ List.length written = List.length qdf
        /\ NoDup (map r_id (responses (db w) ++ written))
        /\ admins (db (snd out)) = admins (db w)
        /\ surveys (db (snd out)) = surveys (db w)
        /\ questions (db (snd out)) = questions (db w)
        /\ (qdf <> [] ->
            fst out
            = st_success "Thank you! Your responses have been submitted.")).
Proof.
  intros Hok qdf out.
  pose proof (submit_survey_run w chosen_id respondent ui
                (ok_question_ids _ Hok)) as Hout.
  fold out qdf in Hout.
  split.
  - intros Hex. unfold out.
    apply submit_survey_rejects; [apply Hok | exact Hex].
  - intros Hall. rewrite Hout. destruct qdf as [|q0 qs] eqn:Eq.
    + exists []. simpl. rewrite app_nil_r.
      repeat split; try reflexivity; [apply Hok | congruence].
    + rewrite (submit_answers_accepted _ _ _ _ _ Hall).
      destruct (insert_responses_spec chosen_id (Str.strip respondent)
                  (map (fun q => (q_id q, answer_of ui q)) (q0 :: qs)) w)
        as [new (Hr & Hf & Ha & _ & H1 & H2 & H3 & _)].
      cbv zeta in *. exists new.
      rewrite map_map in Hf.
      repeat split; try assumption.
      * rewrite <- (length_map response_fields), Hf, length_map. reflexivity.
      * rewrite map_app. eapply NoDup_app_above; [apply Hok | exact Ha].
Qed.

(** ** Creating a survey *)

Lemma insert_questions_spec (sid : Z)
    (question_data : list (string * string * string)) (w : world) :
  exists new : list question_row,
    let w' := snd (for_each question_data (store_question sid) w) in
    questions (db w') = questions (db w) ++ new
    /\ map question_fields new
       = map (stored_fields sid) (filter has_text question_data)
    /\ ascending_above
         (high_water (map q_id (questions (db w))) (seq_questions (db w)))
         (map q_id new)
    /\ admins (db w') = admins (db w)
    /\ surveys (db w') = surveys (db w)
    /\ responses (db w') = responses (db w)
    /\ seq_surveys (db w') = seq_surveys (db w)
    /\ seq_responses (db w') = seq_responses (db w).
Proof.
  revert w.
  induction question_data as [|[[q_text q_type] q_opts] qd IH]; intros w.
  - exists []. simpl. rewrite app_nil_r. repeat split; reflexivity.
  - destruct (Str.truthy (Str.strip q_text)) eqn:Ht.
    + set (i := next_rowid (map q_id (questions (db w)))
                           (seq_questions (db w))).
      set (row := {| q_id := i; q_survey_id := sid;
                     question_text := Str.strip q_text; qtype := q_type;
                     options := Some (Str.strip q_opts) |}).
      set (w1 := {| db := {| admins := admins (db w);
                             surveys := surveys (db w);
                             questions := questions (db w) ++ [row];
                             responses := responses (db w);
                             seq_surveys := seq_surveys (db w);
                             seq_questions := i;
                             seq_responses := seq_responses (db w) |};
                    wall_clock := wall_clock w;
                    readings := readings w |}).
      assert (Estep : for_each ((q_text, q_type, q_opts) :: qd)
                               (store_question sid) w
                      = for_each qd (store_question sid) w1).
      { cbn [for_each]. unfold bind at 1. unfold store_question at 1.
        rewrite Ht. reflexivity. }
      destruct (IH w1) as [new (Hq & Hf & Ha & H1 & H2 & H3 & H4 & H5)].
      exists (row :: new).
      cbv zeta in *. rewrite Estep. cbn [filter].
      change (has_text (q_text, q_type, q_opts))
        with (Str.truthy (Str.strip q_text)).
      rewrite Ht.
      rewrite Hq, H1, H2, H3, H4, H5. simpl.
      rewrite <- app_assoc. simpl.
      repeat split; try reflexivity.
      * f_equal. exact Hf.
      * unfold i, next_rowid, high_water. lia.
      * simpl in Ha. rewrite map_app in Ha. simpl in Ha.
        fold i in Ha. unfold i in Ha |- *.
        rewrite high_water_snoc in Ha. exact Ha.
    + assert (Estep : for_each ((q_text, q_type, q_opts) :: qd)
                               (store_question sid) w
                      = for_each qd (store_question sid) w).
      { cbn [for_each]. unfold bind at 1. unfold store_question at 1.
        rewrite Ht. reflexivity. }
      destruct (IH w) as [new H]. exists new.
      cbv zeta in *. rewrite Estep. cbn [filter].
      change (has_text (q_text, q_type, q_opts))
        with (Str.truthy (Str.strip q_text)).
      rewrite Ht. exact H.
Qed.

Lemma sorted_rows_by_id (rows : list question_row) :
  Sorted Z.lt (map q_id rows) ->
  Sorted (fun a b => (q_id a <=? q_id b) = true) rows.
Proof.
  induction rows as [|x rows IH]; simpl; intros H; [constructor|].
  inversion H as [|? ? Hs Hhd]; subst.
  constructor; [auto|].
  destruct rows as [|y rows]; constructor.
  inversion Hhd; subst. apply Z.leb_le. lia.
Qed.

Lemma filter_all {A : Type} (p : A -> bool) (l : list A) :
  (forall x, In x l -> p x = true) -> filter p l = l.
Proof.
  induction l as [|x l IH]; simpl; intros H; [reflexivity|].
  rewrite (H x) by auto. f_equal. auto.
Qed.

Lemma filter_none {A : Type} (p : A -> bool) (l : list A) :
  (forall x, In x l -> p x = false) -> filter p l = [].
Proof.
  induction l as [|x l IH]; simpl; intros H; [reflexivity|].
  rewrite (H x) by auto. auto.
Qed.

Lemma question_fields_survey (sid : Z) (new : list question_row)
    (slots : list (string * string * string)) :
  map question_fields new = map (stored_fields sid) slots ->
  forall q, In q new -> q_survey_id q = sid.
Proof.
  revert slots. induction new as [|x new IH]; intros slots H q Hq.
  - contradiction.
  - destruct slots as [|[[t ty] o] slots]; [discriminate|].
    simpl in H. injection H as Hx Hrest.
    destruct Hq as [<-|Hq]; [|eapply IH; eassumption].
    unfold question_fields in Hx. congruence.
Qed.

Lemma create_survey_rejected (title_ desc : string)
    (question_data : list (string * string * string)) (w : world) :
  Str.strip title_ = "" ->
  create_survey title_ desc question_data w
  = (st_error "Survey title is required.", w).
Proof. intros H. unfold create_survey. rewrite H. reflexivity. Qed.

Lemma create_survey_accepted (title_ desc : string)
    (question_data : list (string * string * string)) (w : world) :
  Str.strip title_ <> "" ->
  create_survey title_ desc question_data w
  = (st_success ("Survey created successfully! (Survey ID: "
                 ++ Str.of_Z (new_survey_id w) ++ ")"),
     snd (for_each question_data (store_question (new_survey_id w))
            (after_insert_survey w title_ desc))).
Proof.
  intros H. apply truthy_true_iff in H.
  unfold create_survey. rewrite H. cbn [negb].
  unfold bind at 1.
  change (insert_survey (Str.strip title_) (Str.strip desc) w)
    with (new_survey_id w, after_insert_survey w title_ desc).
  unfold bind.
  destruct (for_each _ _ _). reflexivity.
Qed.

Lemma create_survey_effect (title_ desc : string)
    (question_data : list (string * string * string)) (w : world) :
  Str.strip title_ <> "" ->
  exists new : list question_row,
    let d' := db (snd (create_survey title_ desc question_data w)) in
    surveys d' = surveys (db w) ++ [new_survey_row w title_ desc]
    /\ questions d' = questions (db w) ++ new
    /\ map question_fields new
       = map (stored_fields (new_survey_id w)) (filter has_text question_data)
    /\ ascending_above
         (high_water (map q_id (questions (db w))) (seq_questions (db w)))
         (map q_id new)
    /\ admins d' = admins (db w)
    /\ responses d' = responses (db w).
Proof.
  intros H. rewrite (create_survey_accepted _ _ _ _ H).
  destruct (insert_questions_spec (new_survey_id w) question_data
              (after_insert_survey w title_ desc))
    as [new (Hq & Hf & Ha & H1 & H2 & H3 & _)].
  exists new. cbv zeta in *. cbn [snd].
  rewrite Hq, H1, H2, H3. repeat split; assumption.
Qed.

(** C2. With a title that strips to nothing, creation writes nothing at
    all; otherwise it appends one survey row, and the question rows it
    appends are exactly the slots whose text is not blank, in slot order,
    with the text stripped: they are what [fetch_questions] returns for the
    new survey. *)
Theorem create_survey_persists (w : world) (title_ desc : string)
    (question_data : list (string * string * string)) :
  db_ok (db w) ->
  let out := create_survey title_ desc question_data w in
  let sid := new_survey_id w in
  (Str.strip title_ = "" ->
   out = (st_error "Survey title is required.", w))
  /\ (Str.strip title_ <> "" ->
      surveys (db (snd out))
      = surveys (db w) ++ [new_survey_row w title_ desc]
      /\ questions (db (snd out))
         = questions (db w) ++ fetch_questions (db (snd out)) sid
      /\ map question_fields (fetch_questions (db (snd out)) sid)
         = map (stored_fields sid) (filter has_text question_data)
      /\ admins (db (snd out)) = admins (db w)
      /\ responses (db (snd out)) = responses (db w)).
Proof.
  intros Hok out sid. split.
  - apply create_survey_rejected.
  - intros Ht.
    destruct (create_survey_effect title_ desc question_data w Ht)
      as [new (Hs & Hq & Hf & Ha & H1 & H2)].
    cbv zeta in *. fold out in Hs, Hq, H1, H2. fold sid in Hf.
    assert (Hfetch : fetch_questions (db (snd out)) sid = new).
    { unfold fetch_questions. rewrite Hq, filter_app.
      rewrite (filter_none _ (questions (db w))).
      - simpl. rewrite filter_all.
        + apply order_by_sorted_id, sorted_rows_by_id.
          apply ascending_above_sorted in Ha. tauto.
        + intros q Hin. apply Z.eqb_eq.
          eapply question_fields_survey; [exact Hf | exact Hin].
      - intros q Hin. apply Z.eqb_neq.
        apply (ok_question_survey _ Hok) in Hin.
        apply (next_rowid_above _ (seq_surveys (db w))) in Hin.
        unfold sid, new_survey_id. lia. }
    rewrite Hfetch. repeat split; assumption.
Qed.

Lemma StronglySorted_impl {A : Type} (R S : A -> A -> Prop) (l : list A) :
  (forall a b, R a b -> S a b) -> StronglySorted R l -> StronglySorted S l.
Proof.
  intros H. induction 1 as [|x l Hs IH Hall]; constructor; [assumption|].
  eapply Forall_impl; [|exact Hall]. intros b. apply H.
Qed.

Lemma fetch_surveys_sorted (d : database) :
  StronglySorted (fun a b => s_id b <= s_id a) (fetch_surveys d).
Proof.
  apply (StronglySorted_impl (fun a b => (s_id b <=? s_id a) = true)).
  - intros a b H. apply Z.leb_le in H. exact H.
  - apply order_by_sorted.
    + intros a b. destruct (Z.leb_spec (s_id b) (s_id a)); [auto|].
      right. apply Z.leb_le. lia.
    + intros a b c H1 H2. apply Z.leb_le in H1, H2. apply Z.leb_le. lia.
Qed.

(** C7. The listing is a permutation of the surveys table in descending
    order of id; right after a creation with a title that does not strip to
    nothing, the new survey is the first row of the listing, ahead of the
    listing as it was, its id is above every older one, and picking its
    title in the select box leads to it. *)
Theorem new_survey_listed_first (d : database) (w : world)
    (title_ desc : string)
    (question_data : list (string * string * string)) :
  Str.strip title_ <> "" ->
  let out := create_survey title_ desc question_data w in
  (StronglySorted (fun a b => s_id b <= s_id a) (fetch_surveys d)
   /\ Permutation (fetch_surveys d) (surveys d))
  /\ fetch_surveys (db (snd out))
     = new_survey_row w title_ desc :: fetch_surveys (db w)
  /\ Forall (fun old => s_id old < new_survey_id w) (fetch_surveys (db w))
  /\ chosen_survey_id (fetch_surveys (db (snd out))) (Str.strip title_)
     = Some (new_survey_id w)
  /\ fst out
     = st_success ("Survey created successfully! (Survey ID: "
                   ++ Str.of_Z (new_survey_id w) ++ ")").
Proof.
  intros Ht out.
  assert (Hhead : fetch_surveys (db (snd out))
                  = new_survey_row w title_ desc :: fetch_surveys (db w)).
  { destruct (create_survey_effect title_ desc question_data w Ht)
      as [new (Hs & _)].
    cbv zeta in Hs. fold out in Hs.
    unfold fetch_surveys. rewrite Hs.
    apply order_by_snoc_first.
    intros y Hy. apply Z.leb_gt. simpl.
    apply next_rowid_above. apply in_map. exact Hy. }
  split; [split|split; [exact Hhead|split; [|split]]].
  - apply fetch_surveys_sorted.
  - apply order_by_perm.
  - apply Forall_forall. intros old Hin.
    apply order_by_In in Hin.
    apply next_rowid_above. apply in_map. exact Hin.
  - rewrite Hhead. unfold chosen_survey_id. simpl.
    rewrite String.eqb_refl. reflexivity.
  - unfold out. rewrite (create_survey_accepted _ _ _ _ Ht). reflexivity.
Qed.

(** ** The constraints are kept *)

Lemma db_ok_empty : db_ok empty_db.
Proof.
  split; simpl; try constructor; intros ? [].
Qed.

Lemma init_db_ok (w : world) : db_ok (db w) -> db_ok (db (snd (init_db w))).
Proof.
  intros [H1 H2 H3 H4 H5]. unfold init_db, bind, get_db.
  destruct (Z.of_nat (List.length (admins (db w))) =? 0); simpl;
    split; assumption.
Qed.

Lemma create_survey_ok (title_ desc : string)
    (question_data : list (string * string * string)) (w : world) :
  db_ok (db w) ->
  db_ok (db (snd (create_survey title_ desc question_data w))).
Proof.
  intros Hok.
  destruct (string_dec (Str.strip title_) "") as [He|Hne].
  { rewrite create_survey_rejected by assumption. exact Hok. }
  destruct (create_survey_effect title_ desc question_data w Hne)
    as [new (Hs & Hq & Hf & Ha & H1 & H2)].
  cbv zeta in *. destruct Hok as [K1 K2 K3 K4 K5].
  split.
  - rewrite Hs, map_app. simpl.
    apply (NoDup_app_above _ _ (seq_surveys (db w))); [assumption|].
    simpl. split; [|exact I].
    unfold new_survey_id, next_rowid, high_water. lia.
  - rewrite Hq, map_app. eapply NoDup_app_above; eassumption.
  - rewrite H2. assumption.
  - rewrite Hq, Hs. intros q Hin. rewrite map_app. apply in_or_app.
    apply in_app_or in Hin. destruct Hin as [Hin|Hin]; [left; auto|].
    right. simpl. left. symmetry.
    eapply question_fields_survey; [exact Hf | exact Hin].
  - rewrite H2, Hq. intros r Hin. destruct (K5 r Hin) as [q [Hq1 Hq2]].
    exists q. split; [apply in_or_app; left|]; assumption.
Qed.

Lemma submit_survey_ok (chosen_id : Z) (respondent : string)
    (ui : Z -> gesture) (w : world) :
  db_ok (db w) ->
  db_ok (db (snd (submit_survey chosen_id respondent ui w))).
Proof.
  intros Hok.
  rewrite (submit_survey_run w chosen_id respondent ui (ok_question_ids _ Hok)).
  destruct (fetch_questions (db w) chosen_id) as [|q0 qs] eqn:Eq;
    [exact Hok|].
  rewrite <- Eq. set (qdf := fetch_questions (db w) chosen_id) in *.
  destruct (Exists_dec (fun q => Str.strip (str (answer_of ui q)) = "") qdf)
    as [Hex|Hnex].
  { intros q. apply string_dec. }
  { rewrite (submit_answers_rejected _ _ _ _ _ Hex). exact Hok. }
  assert (Hall : Forall (fun q => Str.strip (str (answer_of ui q)) <> "") qdf).
  { apply Forall_forall. intros q Hin Hq. apply Hnex.
    apply Exists_exists. eauto. }
  rewrite (submit_answers_accepted _ _ _ _ _ Hall).
  destruct (insert_responses_spec chosen_id (Str.strip respondent)
              (map (fun q => (q_id q, answer_of ui q)) qdf) w)
    as [new (Hr & Hf & Ha & _ & H1 & H2 & H3 & _)].
  cbv zeta in *. cbn [snd]. rewrite map_map in Hf.
  destruct Hok as [K1 K2 K3 K4 K5].
  split.
  - rewrite H2. assumption.
  - rewrite H3. assumption.
  - rewrite Hr, map_app. eapply NoDup_app_above; eassumption.
  - rewrite H3, H2. assumption.
  - rewrite Hr, H3. intros r Hin. apply in_app_or in Hin.
    destruct Hin as [Hin|Hin]; [auto|].
    apply (in_map response_fields) in Hin. rewrite Hf in Hin.
    apply in_map_iff in Hin. destruct Hin as [q [Hq Hin]].
    apply fetch_questions_In in Hin. destruct Hin as [Hin Hsid].
    unfold response_fields in Hq. injection Hq as E1 E2 E3 E4.
    exists q. repeat split; [assumption | congruence | congruence].
Qed.

(** ** Admin login *)

Lemma admin_login_iff (d : database) (u p : string) :
  admin_login d u p = true
  <-> exists a, In a (admins d) /\ username a = u /\ password a = p.
Proof.
  unfold admin_login. rewrite existsb_exists. split.
  - intros [a [Hin H]]. apply andb_true_iff in H. destruct H as [H1 H2].
    apply String.eqb_eq in H1, H2. eauto.
  - intros [a [Hin [H1 H2]]]. exists a. split; [assumption|].
    apply andb_true_iff. split; apply String.eqb_eq; assumption.
Qed.

(** C6. On a store initialised from a new file, the login check accepts
    the pair "admin" / "admin123" and no other pair; on any store it accepts
    exactly the pairs equal, character for character, to a stored admin
    row. *)
Theorem admin_login_fresh_store (clock : nat -> string) (n : nat)
    (d : database) (u p : string) :
  let fresh :=
    db (snd (init_db {| db := empty_db; wall_clock := clock;
                        readings := n |})) in
  (admin_login fresh u p = true <-> u = "admin" /\ p = "admin123")
  /\ admin_login fresh "admin" "admin123" = true
  /\ (admin_login d u p = true
      <-> exists a, In a (admins d) /\ username a = u /\ password a = p).
Proof.
  intros fresh. split; [|split].
  - rewrite admin_login_iff. unfold fresh. simpl. split.
    + intros [a [[<-|[]] [H1 H2]]]. simpl in *. split; congruence.
    + intros [-> ->]. eexists. split; [left; reflexivity|].
      split; reflexivity.
  - reflexivity.
  - apply admin_login_iff.
Qed.

(** ** Question types outside "text", "mcq" and "rating" *)

(** C9. A question whose stored type is none of "text", "mcq" and "rating"
    gets the plain text input: whatever the user types is the answer, and
    when it is left untouched or blank the whole submission is refused and
    nothing is written. *)
Theorem other_type_is_free_text (w : world) (chosen_id : Z)
    (respondent : string) (ui : Z -> gesture) (q : question_row) :
  db_ok (db w) ->
  In q (fetch_questions (db w) chosen_id) ->
  qtype q <> "text" -> qtype q <> "mcq" -> qtype q <> "rating" ->
  question_widget q = text_input
  /\ (forall s, ui (q_id q) = Typed s -> answer_of ui q = VStr s)
  /\ (ui (q_id q) = Untouched
      \/ (exists s, ui (q_id q) = Typed s /\ blank s) ->
      submit_survey chosen_id respondent ui w
      = (st_error "Please answer all questions before submitting.", w)).
Proof.
  intros Hok Hin H1 H2 H3.
  pose proof (question_widget_other q H1 H2 H3) as Hw.
  split; [exact Hw|]. split.
  - intros s Hs. unfold answer_of. rewrite Hw, Hs. reflexivity.
  - intros Hblank.
    apply submit_survey_rejects; [apply Hok|].
    apply Exists_exists. exists q. split; [exact Hin|].
    unfold answer_of. rewrite Hw.
    destruct Hblank as [-> | [s [-> Hs]]]; simpl; [reflexivity|].
    apply strip_empty_iff. exact Hs.
Qed.

(** ** Multiple-choice options *)


(** Every multiple-choice question offers at least one option. *)
Lemma mcq_always_has_option (q : question_row) :
  qtype q = "mcq" ->
  exists o opts, question_widget q = radio (o :: opts).
Proof.
  intros Hty. rewrite (question_widget_mcq q Hty).
  pose proof (mcq_opts_not_nil (Str.strip (or_empty (options q)))) as Hne.
  destruct (mcq_opts _) as [|o opts]; [congruence|]. eauto.
Qed.

(** ** Counting values *)

Section Tally.

Context {A : Type}.
Variable eqb : A -> A -> bool.
Variable P : A -> Prop.

Hypothesis eqb_refl : forall x, P x -> eqb x x = true.
Hypothesis eqb_sym : forall x y, P x -> P y -> eqb x y = eqb y x.
Hypothesis eqb_trans :
  forall x y z, P x -> P y -> P z ->
                eqb x y = true -> eqb y z = true -> eqb x z = true.

Lemma bump_keys (Q : A -> Prop) (x : A) (acc : list (A * nat)) :
  Q x -> Forall Q (map fst acc) -> Forall Q (map fst (bump eqb x acc)).
Proof.
  intros Hx. induction acc as [|[y n] acc IH]; simpl; intros H.
  - repeat constructor. exact Hx.
  - inversion H; subst. destruct (eqb x y); simpl; constructor; auto.
Qed.

Lemma tally_acc_keys (Q : A -> Prop) (l : list A) (acc : list (A * nat)) :
  Forall Q l -> Forall Q (map fst acc) ->
  Forall Q (map fst (fold_left (fun acc x => bump eqb x acc) l acc)).
Proof.
  revert acc. induction l as [|x l IH]; simpl; intros acc Hl Hacc.
  - exact Hacc.
  - inversion Hl; subst. apply IH; [assumption|].
    apply bump_keys; assumption.
Qed.

Lemma tally_keys (Q : A -> Prop) (l : list A) :
  Forall Q l -> Forall Q (map fst (tally eqb l)).
Proof. intros H. apply tally_acc_keys; [exact H | constructor]. Qed.

Lemma bump_positive (x : A) (acc : list (A * nat)) :
  Forall (fun kn => (0 < snd kn)%nat) acc ->
  Forall (fun kn => (0 < snd kn)%nat) (bump eqb x acc).
Proof.
  induction acc as [|[y n] acc IH]; simpl; intros H.
  - repeat constructor.
  - inversion H; subst.
    destruct (eqb x y); constructor; simpl; auto; lia.
Qed.

Lemma tally_positive (l : list A) :
  Forall (fun kn => (0 < snd kn)%nat) (tally eqb l).
Proof.
  unfold tally. generalize (@nil (A * nat)) (Forall_nil (fun kn : A * nat => (0 < snd kn)%nat)).
  induction l as [|x l IH]; simpl; intros acc H; [exact H|].
  apply IH. apply bump_positive. exact H.
Qed.



Lemma bump_distinct (x : A) (acc : list (A * nat)) :
  distinct_keys eqb acc -> distinct_keys eqb (bump eqb x acc).
Proof.
  unfold distinct_keys.
  induction acc as [|[y n] acc IH]; simpl; intros H.
  - repeat constructor.
  - inversion H as [|? ? Hy Hacc]; subst.
    destruct (eqb x y) eqn:Exy.
    + constructor; assumption.
    + constructor; [|auto].
      simpl in *.
      apply (Forall_map fst (fun k => eqb k y = false)).
      apply bump_keys; [exact Exy|].
      apply (Forall_map fst (fun k => eqb k y = false)). exact Hy.
Qed.

Lemma tally_distinct (l : list A) : distinct_keys eqb (tally eqb l).
Proof.
  unfold tally.
  assert (H : forall acc, distinct_keys eqb acc ->
             distinct_keys eqb (fold_left (fun acc x => bump eqb x acc) l acc)).
  { induction l as [|x l IH]; simpl; intros acc Hacc; [exact Hacc|].
    apply IH, bump_distinct, Hacc. }
  apply H. constructor.
Qed.

Lemma count_for_bump (k x : A) (acc : list (A * nat)) :
  P k -> P x -> Forall P (map fst acc) ->
  count_for eqb k (bump eqb x acc)
  = (count_for eqb k acc + if eqb k x then 1 else 0)%nat.
Proof.
  intros Hk Hx. induction acc as [|[y n] acc IH]; simpl; intros H.
  - destruct (eqb k x); reflexivity.
  - inversion H as [|? ? Hy Hacc]; subst. destruct (eqb x y) eqn:Exy; simpl.
    + assert (E : eqb k y = eqb k x).
      { destruct (eqb k x) eqn:Ekx.
        - eapply eqb_trans; eauto.
        - destruct (eqb k y) eqn:Eky; [|reflexivity].
          rewrite <- Ekx. symmetry. apply (eqb_trans k y x); auto.
          rewrite eqb_sym; auto. }
      rewrite E. destruct (eqb k x); lia.
    + rewrite IH by assumption. destruct (eqb k y); lia.
Qed.

Lemma count_for_tally (k : A) (l : list A) :
  P k -> Forall P l -> count_for eqb k (tally eqb l) = occurrences eqb k l.
Proof.
  intros Hk. unfold tally, occurrences.
  assert (H : forall acc,
             Forall P l -> Forall P (map fst acc) ->
             count_for eqb k (fold_left (fun acc x => bump eqb x acc) l acc)
             = (count_for eqb k acc + List.length (filter (eqb k) l))%nat).
  { induction l as [|x l IH]; simpl; intros acc Hl Hacc; [lia|].
    inversion Hl; subst.
    rewrite IH; [|assumption|apply bump_keys; assumption].
    rewrite count_for_bump by assumption.
    destruct (eqb k x); simpl; lia. }
  intros Hl. rewrite H; [reflexivity | assumption | constructor].
Qed.

Lemma count_for_none (k : A) (acc : list (A * nat)) :
  Forall (fun kn => eqb k (fst kn) = false) acc -> count_for eqb k acc = 0%nat.
Proof.
  induction 1 as [|[y n] acc Hy _ IH]; simpl; [reflexivity|].
  simpl in Hy. rewrite Hy. exact IH.
Qed.

Lemma count_for_entry (y : A) (n : nat) (acc : list (A * nat)) :
  distinct_keys eqb acc -> Forall P (map fst acc) -> In (y, n) acc ->
  count_for eqb y acc = n.
Proof.
  unfold distinct_keys.
  induction acc as [|[y0 n0] acc IH]; simpl; intros Hd HP Hin; [contradiction|].
  inversion Hd as [|? ? Hy Hacc]; subst. inversion HP as [|? ? Py0 Pacc]; subst.
  destruct Hin as [E|Hin].
  - injection E as -> ->. rewrite eqb_refl by assumption.
    rewrite count_for_none; [lia|].
    rewrite Forall_forall in *. intros [z m] Hz. simpl.
    rewrite eqb_sym; [apply (Hy _ Hz) | assumption |].
    apply Pacc. apply in_map_iff. exists (z, m). auto.
  - rewrite Forall_forall in Hy. specialize (Hy _ Hin). simpl in Hy.
    rewrite Hy. auto.
Qed.

Lemma count_for_covered (k : A) (acc : list (A * nat)) :
  (0 < count_for eqb k acc)%nat ->
  exists y n, In (y, n) acc /\ eqb k y = true.
Proof.
  induction acc as [|[y n] acc IH]; simpl; intros H; [lia|].
  destruct (eqb k y) eqn:E.
  - exists y, n. auto.
  - destruct (IH H) as [y' [n' [Hin Hy']]]. exists y', n'. auto.
Qed.

(** Each entry of the tally holds the number of elements equated with its
    key, which is positive. *)
Lemma tally_entry (y : A) (n : nat) (l : list A) :
  Forall P l -> In (y, n) (tally eqb l) ->
  n = occurrences eqb y l /\ (0 < n)%nat /\ In y l.
Proof.
  intros Hl Hin.
  assert (Hk : Forall P (map fst (tally eqb l))) by (apply tally_keys, Hl).
  assert (Hy : P y).
  { rewrite Forall_forall in Hk. apply Hk. apply in_map_iff.
    exists (y, n). auto. }
  split; [|split].
  - rewrite <- (count_for_tally y l Hy Hl). symmetry.
    apply count_for_entry; [apply tally_distinct | exact Hk | exact Hin].
  - pose proof (tally_positive l) as Hp. rewrite Forall_forall in Hp.
    apply (Hp _ Hin).
  - assert (Hq : Forall (fun k => In k l) (map fst (tally eqb l))).
    { apply tally_keys. apply Forall_forall. auto. }
    rewrite Forall_forall in Hq. apply Hq. apply in_map_iff.
    exists (y, n). auto.
Qed.

(** Each element is counted under some key equated with it. *)
Lemma tally_covers (x : A) (l : list A) :
  Forall P l -> In x l ->
  exists y n, In (y, n) (tally eqb l) /\ eqb x y = true.
Proof.
  intros Hl Hin. apply count_for_covered.
  assert (Hx : P x) by (rewrite Forall_forall in Hl; auto).
  rewrite (count_for_tally x l Hx Hl). unfold occurrences.
  clear Hl. induction l as [|z l IH]; simpl; [contradiction|].
  destruct Hin as [->|Hin].
  - rewrite eqb_refl by assumption. simpl. lia.
  - destruct (eqb x z); simpl; [lia | auto].
Qed.

End Tally.

(** ** Multiple-choice breakdown *)

Lemma occurrences_count_occ (o : string) (l : list string) :
  occurrences String.eqb o l = count_occ string_dec l o.
Proof.
  unfold occurrences. induction l as [|x l IH]; simpl; [reflexivity|].
  destruct (String.eqb_spec o x) as [->|Hne].
  - destruct (string_dec x x); [simpl; congruence | congruence].
  - destruct (string_dec x o); [congruence | exact IH].
Qed.

Lemma value_counts_In {A : Type} (eqb : A -> A -> bool) (l : list A)
    (kn : A * nat) :
  In kn (value_counts eqb l) <-> In kn (tally eqb l).
Proof. unfold value_counts. apply order_by_In. Qed.

Lemma string_eqb_trans (x y z : string) :
  True -> True -> True ->
  String.eqb x y = true -> String.eqb y z = true -> String.eqb x z = true.
Proof.
  intros _ _ _ H1 H2. apply String.eqb_eq in H1, H2.
  apply String.eqb_eq. congruence.
Qed.

Lemma tally_strings_entry (answers : list string) (o : string) (n : nat) :
  In (o, n) (tally String.eqb answers) ->
  n = occurrences String.eqb o answers /\ (0 < n)%nat /\ In o answers.
Proof.
  apply (tally_entry String.eqb (fun _ => True)
           (fun x _ => String.eqb_refl x)
           (fun x y _ _ => String.eqb_sym x y) string_eqb_trans).
  apply Forall_forall. auto.
Qed.

Lemma tally_strings_covers (answers : list string) (o : string) :
  In o answers -> exists n, In (o, n) (tally String.eqb answers).
Proof.
  intros Hin.
  destruct (tally_covers String.eqb (fun _ => True)
              (fun x _ => String.eqb_refl x)
              (fun x y _ _ => String.eqb_sym x y) string_eqb_trans
              o answers) as (y & n & Hyn & E).
  - apply Forall_forall. auto.
  - exact Hin.
  - apply String.eqb_eq in E. subst y. eauto.
Qed.

Lemma value_counts_strings (answers : list string) (o : string) (n : nat) :
  In (o, n) (value_counts String.eqb answers)
  <-> n = count_occ string_dec answers o /\ (0 < n)%nat.
Proof.
  rewrite value_counts_In, <- occurrences_count_occ. split.
  - intros Hin. apply tally_strings_entry in Hin. tauto.
  - intros [Hn Hpos].
    assert (Hin : In o answers).
    { rewrite occurrences_count_occ in Hn. apply (count_occ_In string_dec).
      lia. }
    destruct (tally_strings_covers answers o Hin) as [m Hm].
    pose proof (tally_strings_entry answers o m Hm) as [E _].
    subst. exact Hm.
Qed.

Lemma distinct_keys_NoDup (counts : list (string * nat)) :
  distinct_keys String.eqb counts -> NoDup (map fst counts).
Proof.
  unfold distinct_keys. induction 1 as [|a l Ha _ IH]; simpl; constructor.
  - intros Hin. apply in_map_iff in Hin. destruct Hin as [b [E Hb]].
    rewrite Forall_forall in Ha. specialize (Ha b Hb).
    apply String.eqb_neq in Ha. congruence.
  - exact IH.
Qed.

Lemma value_counts_strings_NoDup (answers : list string) :
  NoDup (map fst (value_counts String.eqb answers)).
Proof.
  eapply Permutation_NoDup.
  - apply Permutation_map. symmetry. apply order_by_perm.
  - apply distinct_keys_NoDup, tally_distinct.
Qed.

(** C5. For a multiple-choice question the chart holds one entry per
    distinct answer given, with the number of answers equal to it; the
    answers "Good", "Good", "Poor" give Good 2 and Poor 1. *)
Theorem mcq_counts_by_option (to_numeric : string -> option spec_float)
    (rdf : list response_view) (q : question_row) :
  qtype q = "mcq" ->
  let answers := map v_answer (responses_of rdf (question_text q)) in
  exists counts : list (string * nat),
    question_analysis to_numeric rdf q = mcq_chart counts
    /\ counts = value_counts String.eqb answers
    /\ (forall o n, In (o, n) counts
                    <-> n = count_occ string_dec answers o /\ (0 < n)%nat)
    /\ NoDup (map fst counts)
    /\ value_counts String.eqb ["Good"; "Good"; "Poor"]
       = [("Good", 2%nat); ("Poor", 1%nat)].
Proof.
  intros Hty answers. exists (value_counts String.eqb answers).
  split; [|split; [|split; [|split]]].
  - unfold question_analysis. rewrite Hty. reflexivity.
  - reflexivity.
  - intros o n. apply value_counts_strings.
  - apply value_counts_strings_NoDup.
  - reflexivity.
Qed.

(** ** Responses matched to questions by text *)

Lemma fetch_responses_In (d : database) (sid : Z) (v : response_view) :
  In v (fetch_responses d sid)
  <-> exists r q, In r (responses d) /\ r_survey_id r = sid
                  /\ In q (questions d) /\ q_id q = r_question_id r
                  /\ v = join_row r q.
Proof.
  unfold fetch_responses. rewrite order_by_In, in_flat_map. split.
  - intros [r [Hr Hv]]. destruct (Z.eqb_spec (r_survey_id r) sid); [|contradiction].
    apply in_map_iff in Hv. destruct Hv as [q [E Hq]].
    apply filter_In in Hq. destruct Hq as [Hq Hid]. apply Z.eqb_eq in Hid.
    exists r, q. auto.
  - intros [r [q (Hr & Hs & Hq & Hid & ->)]]. exists r. split; [assumption|].
    rewrite (proj2 (Z.eqb_eq _ _) Hs).
    apply in_map. apply filter_In. split; [assumption|].
    apply Z.eqb_eq. assumption.
Qed.

Lemma responses_of_In (rdf : list response_view) (qtext : string)
    (v : response_view) :
  In v (responses_of rdf qtext) <-> In v rdf /\ v_question_text v = qtext.
Proof.
  unfold responses_of. rewrite filter_In, String.eqb_eq. reflexivity.
Qed.


(** ** Rating breakdown *)












(** ** Two decimals *)

Lemma round_half_even_shift_nearest (n k : Z) :
  0 <= k ->
  2 * Z.abs (n - F64.round_half_even_shift n k * 2 ^ k) <= 2 ^ k.
Proof.
  intros Hk. unfold F64.round_half_even_shift.
  assert (Hd : 0 < 2 ^ k) by (apply Z.pow_pos_nonneg; lia).
  pose proof (Z.div_mod n (2 ^ k) ltac:(lia)) as Hn.
  pose proof (Z.mod_pos_bound n (2 ^ k) Hd) as Hr.
  set (d := 2 ^ k) in *. set (q := n / d) in *. set (r := n mod d) in *.
  destruct (Z.ltb_spec (2 * r) d).
  - replace (n - q * d) with r by lia. lia.
  - destruct (Z.ltb_spec d (2 * r)).
    + replace (n - (q + 1) * d) with (r - d) by lia. lia.
    + destruct (Z.even q).
      * replace (n - q * d) with r by lia. lia.
      * replace (n - (q + 1) * d) with (r - d) by lia. lia.
Qed.

(** The hundredths printed are the nearest to the value [m * 2^e]. *)
Lemma hundredths_nearest (m : positive) (e : Z) :
  (0 <= e -> F64.hundredths m e = 100 * Zpos m * 2 ^ e)
  /\ (e < 0 ->
      2 * Z.abs (100 * Zpos m - F64.hundredths m e * 2 ^ (- e)) <= 2 ^ (- e)).
Proof.
  unfold F64.hundredths. split; intros H.
  - destruct (Z.leb_spec 0 e); [reflexivity | lia].
  - destruct (Z.leb_spec 0 e); [lia|].
    apply round_half_even_shift_nearest. lia.
Qed.

(** ** Runs on the sample data *)

Lemma insert_question_ok (sid : Z) (text ty opts : string) (w : world) :
  db_ok (db w) -> In sid (map s_id (surveys (db w))) ->
  db_ok (db (snd (insert_question sid text ty opts w))).
Proof.
  intros [K1 K2 K3 K4 K5] Hsid. split; simpl; try assumption.
  - rewrite map_app. simpl.
    apply (NoDup_app_above _ _ (seq_questions (db w))); [assumption|].
    simpl. split; [|exact I]. unfold next_rowid, high_water. lia.
  - intros q Hin. apply in_app_or in Hin.
    destruct Hin as [Hin|[<-|[]]]; auto.
  - intros r Hin. destruct (K5 r Hin) as [q [Hq H]].
    exists q. split; [apply in_or_app; left|]; assumption.
Qed.

Lemma sample_started_ok : db_ok (db Sample.started).
Proof. apply init_db_ok, db_ok_empty. Qed.

Lemma sample_with_survey_ok : db_ok (db Sample.with_survey).
Proof. apply create_survey_ok, sample_started_ok. Qed.

(** The sample survey: a blank text answer is refused, a complete form is
    stored as three rows for "Ann". *)
Lemma submit_survey_all_or_nothing_witness :
  db_ok (db Sample.with_survey)
  /\ submit_survey 1 " Ann " Sample.ui_blank_text Sample.with_survey
     = (st_error "Please answer all questions before submitting.",
        Sample.with_survey)
  /\ exists written,
       responses (db (snd (submit_survey 1 " Ann " Sample.ui_complete
                             Sample.with_survey)))
       = responses (db Sample.with_survey) ++ written
       /\ map response_fields written
          = [(1, 1, Some "Ann", "fine"); (1, 2, Some "Ann", "4");
             (1, 3, Some "Ann", "Poor")].
Proof.
  split; [exact sample_with_survey_ok|]. split.
  - apply (submit_survey_all_or_nothing Sample.with_survey 1 " Ann "
             Sample.ui_blank_text sample_with_survey_ok).
    apply Exists_cons_hd. reflexivity.
  - destruct (proj2 (submit_survey_all_or_nothing Sample.with_survey 1 " Ann "
                       Sample.ui_complete sample_with_survey_ok))
      as [written (Hr & Hf & _)].
    + repeat constructor; discriminate.
    + exists written. split; [exact Hr | exact Hf].
Defined.

(** The sample survey keeps three of its four slots; a blank title writes
    nothing. *)
Lemma create_survey_persists_witness :
  db_ok (db Sample.started)
  /\ Str.strip " Course feedback " <> ""
  /\ map question_fields (fetch_questions (db Sample.with_survey) 1)
     = [(1, "How was it?", "text", Some "");
        (1, "Rate it", "rating", Some "");
        (1, "Pick one", "mcq", Some "Good, Poor")]
  /\ create_survey "   " "" Sample.feedback_slots Sample.started
     = (st_error "Survey title is required.", Sample.started).
Proof.
  split; [exact sample_started_ok|].
  split; [discriminate|]. split.
  - apply (create_survey_persists Sample.started " Course feedback "
             " Spring term " Sample.feedback_slots sample_started_ok).
    discriminate.
  - apply (create_survey_persists Sample.started "   " ""
             Sample.feedback_slots sample_started_ok).
    reflexivity.
Defined.

(** The sample survey heads the listing once created. *)
Lemma new_survey_listed_first_witness :
  Str.strip " Course feedback " <> ""
  /\ fetch_surveys (db Sample.with_survey)
     = new_survey_row Sample.started " Course feedback " " Spring term "
       :: fetch_surveys (db Sample.started).
Proof.
  split; [discriminate|].
  apply (new_survey_listed_first empty_db Sample.started " Course feedback "
           " Spring term " Sample.feedback_slots).
  discriminate.
Defined.


(** Both questions of the sample show the answers given to either. *)
Example same_text_charts :
  let rdf := fetch_responses (db Sample.same_text_answered) 1 in
  question_analysis read_digits rdf Sample.same_q1
  = mcq_chart [("B", 1%nat); ("A", 1%nat)]
  /\ question_analysis read_digits rdf Sample.same_q2
     = mcq_chart [("B", 1%nat); ("A", 1%nat)].
Proof. split; reflexivity. Qed.



(** The chart of a multiple-choice question of the sample. *)
Lemma mcq_counts_by_option_witness :
  qtype Sample.same_q1 = "mcq"
  /\ exists counts,
       question_analysis read_digits
         (fetch_responses (db Sample.same_text_answered) 1) Sample.same_q1
       = mcq_chart counts
       /\ NoDup (map fst counts).
Proof.
  split; [reflexivity|].
  destruct (mcq_counts_by_option read_digits
              (fetch_responses (db Sample.same_text_answered) 1)
              Sample.same_q1 eq_refl) as [counts (H1 & _ & _ & H2 & _)].
  exists counts. split; [exact H1 | exact H2].
Defined.

(** The seeded pair logs in, another password does not. *)
Lemma admin_login_fresh_store_witness :
  admin_login (db Sample.started) "admin" "admin123" = true
  /\ admin_login (db Sample.started) "admin" "admin" <> true.
Proof.
  split.
  - apply (admin_login_fresh_store Sample.clock 0 empty_db "admin" "admin123").
  - intros H.
    destruct (proj1 (proj1 (admin_login_fresh_store Sample.clock 0 empty_db
                              "admin" "admin")) H) as [_ E].
    discriminate E.
Defined.

Lemma sample_with_scale_question_ok : db_ok (db Sample.with_scale_question).
Proof.
  apply insert_question_ok; [exact sample_with_survey_ok|].
  left. reflexivity.
Qed.

(** The untouched "scale" question of the sample blocks a form that is
    otherwise complete. *)
Lemma other_type_is_free_text_witness :
  db_ok (db Sample.with_scale_question)
  /\ In {| q_id := 4; q_survey_id := 1; question_text := "Anything else?";
           qtype := "scale"; options := Some "" |}
        (fetch_questions (db Sample.with_scale_question) 1)
  /\ submit_survey 1 "" Sample.ui_complete Sample.with_scale_question
     = (st_error "Please answer all questions before submitting.",
        Sample.with_scale_question).
Proof.
  assert (Hin : In {| q_id := 4; q_survey_id := 1;
                      question_text := "Anything else?";
                      qtype := "scale"; options := Some "" |}
                   (fetch_questions (db Sample.with_scale_question) 1)).
  { right. right. right. left. reflexivity. }
  split; [exact sample_with_scale_question_ok|]. split; [exact Hin|].
  apply (other_type_is_free_text Sample.with_scale_question 1 ""
           Sample.ui_complete _ sample_with_scale_question_ok Hin);
    try discriminate.
  left. reflexivity.
Defined.


(** ** Further checks on concrete values *)

Example strip_inner_space_kept : Str.strip "  a b  " = "a b".
Proof. reflexivity. Qed.

Example split_keeps_empty_pieces :
  Str.split "," "a,, b," = ["a"; ""; " b"; ""].
Proof. reflexivity. Qed.

Example default_options_parsed :
  mcq_opts "Excellent, Good, Average, Poor"
  = ["Excellent"; "Good"; "Average"; "Poor"].
Proof. reflexivity. Qed.

(** 43/40 is shown as 1.07: the binary64 quotient lies below 1.075. *)
Example format_rounds_the_binary_value :
  F64.format_2f (F64.div (F64.of_Z 43) (F64.of_Z 40)) = "1.07".
Proof. vm_compute. reflexivity. Qed.

(** An exact tie goes to the even hundredth. *)
Example format_tie_to_even :
  F64.format_2f (F64.div (F64.of_Z 1) (F64.of_Z 8)) = "0.12"
  /\ F64.format_2f (F64.div (F64.of_Z 3) (F64.of_Z 8)) = "0.38".
Proof. split; vm_compute; reflexivity. Qed.

(** The analytics tab of the sample survey after one complete submission. *)
Example sample_analytics :
  analytics read_digits
    (db (snd (submit_survey 1 " Ann " Sample.ui_complete Sample.with_survey)))
    1
  = inr (3%nat, 3%nat,
         [ text_table [(Some "Ann", "fine", "2024-05-01T10:00:01")];
           rating_analysis
             (average_and_chart "Average Rating: **4.00 / 5**"
                                [(F64.of_Z 4, 1%nat)]);
           mcq_chart [("Poor", 1%nat)] ]).
Proof. vm_compute. reflexivity. Qed.

(** * Further properties of the code *)

(** ** More on strings *)

Lemma rstrip_idempotent (s : string) : Str.rstrip (Str.rstrip s) = Str.rstrip s.
Proof.
  induction s as [|c s IH]; simpl; [reflexivity|].
  destruct (Str.rstrip s) as [|d r] eqn:E.
  - destruct (Str.isspace c) eqn:Hc; simpl; [reflexivity|].
    rewrite Hc. reflexivity.
  - simpl in *. rewrite IH. reflexivity.
Qed.

Lemma lstrip_head (s : string) :
  Str.lstrip s = ""
  \/ exists c r, Str.lstrip s = String c r /\ Str.isspace c = false.
Proof.
  induction s as [|c s IH]; simpl; [left; reflexivity|].
  destruct (Str.isspace c) eqn:Hc; [exact IH|]. right. eauto.
Qed.

Lemma rstrip_keeps_head (c : ascii) (r : string) :
  Str.isspace c = false -> exists r', Str.rstrip (String c r) = String c r'.
Proof.
  intros Hc. simpl. destruct (Str.rstrip r); [rewrite Hc|]; eauto.
Qed.

(** Stripping twice is stripping once. *)
Lemma strip_idempotent (s : string) : Str.strip (Str.strip s) = Str.strip s.
Proof.
  unfold Str.strip at 1.
  assert (H : Str.lstrip (Str.strip s) = Str.strip s).
  { unfold Str.strip. destruct (lstrip_head s) as [E|(c & r & E & Hc)].
    - rewrite E. reflexivity.
    - rewrite E. destruct (rstrip_keeps_head c r Hc) as [r' E'].
      rewrite E'. simpl. rewrite Hc. reflexivity. }
  rewrite H. unfold Str.strip. apply rstrip_idempotent.
Qed.

Lemma string_leb_trans (a b c : string) :
  String.leb a b = true -> String.leb b c = true -> String.leb a c = true.
Proof.
  unfold String.leb.
  assert (H : forall x y z, String.compare x y <> Gt ->
                            String.compare y z <> Gt ->
                            String.compare x z <> Gt).
  { induction x as [|p x IH]; intros [|q y] [|r z]; simpl;
      try congruence.
    unfold Ascii.compare.
    destruct (N.compare_spec (N_of_ascii p) (N_of_ascii q)) as [E1|L1|G1];
      destruct (N.compare_spec (N_of_ascii q) (N_of_ascii r)) as [E2|L2|G2];
      try congruence; intros H1 H2.
    - rewrite E1, E2, N.compare_refl. eauto.
    - rewrite E1. rewrite (proj2 (N.compare_lt_iff _ _) L2). congruence.
    - rewrite <- E2. rewrite (proj2 (N.compare_lt_iff _ _) L1). congruence.
    - rewrite (proj2 (N.compare_lt_iff _ _) (N.lt_trans _ _ _ L1 L2)).
      congruence. }
  intros H1 H2.
  specialize (H a b c).
  destruct (String.compare a b); destruct (String.compare b c);
    destruct (String.compare a c); try reflexivity; try discriminate;
    exfalso; apply H; congruence.
Qed.

(** ** Starting the store *)

(** X1. [init_db] seeds the admin table only when it is empty: on an empty
    table it writes the one default row, on any other it changes nothing at
    all, so running it again after itself changes nothing; it never touches
    surveys, questions or responses. *)
Theorem init_db_seeds_once (w : world) :
  let w' := snd (init_db w) in
  (admins (db w) = [] -> admins (db w') = [seed_admin])
  /\ (admins (db w) <> [] -> w' = w)
  /\ snd (init_db w') = w'
  /\ admins (db w') <> []
  /\ data_of (db w') = data_of (db w).
Proof.
  unfold init_db, bind, get_db.
  destruct (admins (db w)) as [|a0 rest] eqn:E; simpl.
  - split; [reflexivity|]. split; [congruence|].
    split; [reflexivity|]. split; [discriminate | reflexivity].
  - split; [discriminate|]. split; [reflexivity|].
    rewrite E. simpl. split; [reflexivity|].
    split; [discriminate | reflexivity].
Qed.

(** ** Reading questions and responses *)

Lemma sorted_distinct_strict (rows : list question_row) :
  StronglySorted (fun a b => q_id a <= q_id b) rows ->
  NoDup (map q_id rows) ->
  StronglySorted (fun a b => q_id a < q_id b) rows.
Proof.
  induction 1 as [|x rows Hs IH Hall]; simpl; intros Hnd; constructor.
  - apply IH. inversion Hnd; assumption.
  - inversion Hnd as [|? ? Hx Hrest]; subst.
    rewrite Forall_forall in *. intros y Hy.
    specialize (Hall y Hy).
    assert (q_id x <> q_id y).
    { intros E. apply Hx. rewrite E. apply in_map. exact Hy. }
    lia.
Qed.

Lemma fetch_questions_sorted (d : database) (sid : Z) :
  StronglySorted (fun a b => q_id a <= q_id b) (fetch_questions d sid).
Proof.
  apply (StronglySorted_impl (fun a b => (q_id a <=? q_id b) = true)).
  - intros a b H. apply Z.leb_le in H. exact H.
  - apply order_by_sorted.
    + intros a b. destruct (Z.leb_spec (q_id a) (q_id b)); [auto|].
      right. apply Z.leb_le. lia.
    + intros a b c H1 H2. apply Z.leb_le in H1, H2. apply Z.leb_le. lia.
Qed.

(** X2. [fetch_questions] returns the questions of the survey and no other
    row, each as often as the table holds it, in ascending order of id;
    with distinct ids the order is strict. *)
Theorem fetch_questions_exact (d : database) (sid : Z) :
  (forall q, In q (fetch_questions d sid)
             <-> In q (questions d) /\ q_survey_id q = sid)
  /\ Permutation (fetch_questions d sid)
                 (filter (fun q => q_survey_id q =? sid) (questions d))
  /\ StronglySorted (fun a b => q_id a <= q_id b) (fetch_questions d sid)
  /\ (NoDup (map q_id (questions d)) ->
      StronglySorted (fun a b => q_id a < q_id b) (fetch_questions d sid)).
Proof.
  split; [|split; [|split]].
  - intros q. apply fetch_questions_In.
  - apply order_by_perm.
  - apply fetch_questions_sorted.
  - intros Hnd. apply sorted_distinct_strict.
    + apply fetch_questions_sorted.
    + apply fetch_questions_NoDup, Hnd.
Qed.

Lemma unique_match (rows : list question_row) (q : question_row) :
  NoDup (map q_id rows) -> In q rows ->
  filter (fun x => q_id x =? q_id q) rows = [q].
Proof.
  induction rows as [|x rows IH]; simpl; intros Hnd Hin; [contradiction|].
  inversion Hnd as [|? ? Hx Hrest]; subst.
  destruct Hin as [->|Hin].
  - rewrite Z.eqb_refl. f_equal. apply filter_none.
    intros y Hy. apply Z.eqb_neq. intros E. apply Hx. rewrite <- E.
    apply in_map. exact Hy.
  - destruct (Z.eqb_spec (q_id x) (q_id q)) as [E|_]; [|auto].
    exfalso. apply Hx. rewrite E. apply in_map. exact Hin.
Qed.

(** With the constraints kept, the join yields one row per response. *)
Lemma joined_rows (d : database) (sid : Z) :
  db_ok d ->
  map v_id
      (flat_map
         (fun r =>
            if r_survey_id r =? sid
            then map (join_row r)
                     (filter (fun q => q_id q =? r_question_id r)
                             (questions d))
            else [])
         (responses d))
  = map r_id (filter (fun r => r_survey_id r =? sid) (responses d)).
Proof.
  intros Hok.
  assert (H : forall r, In r (responses d) ->
                exists q, filter (fun x => q_id x =? r_question_id r)
                                 (questions d) = [q]).
  { intros r Hr. destruct (ok_response_question _ Hok r Hr) as [q (Hq & E & _)].
    exists q. rewrite <- E. apply unique_match; [apply Hok | exact Hq]. }
  induction (responses d) as [|r rs IH]; simpl; [reflexivity|].
  rewrite map_app, IH by (intros; apply H; right; assumption).
  destruct (r_survey_id r =? sid); [|reflexivity].
  destruct (H r (or_introl eq_refl)) as [q ->]. reflexivity.
Qed.

Lemma fetch_responses_sorted (d : database) (sid : Z) :
  StronglySorted
    (fun a b => String.leb (v_submitted_at b) (v_submitted_at a) = true)
    (fetch_responses d sid).
Proof.
  unfold fetch_responses.
  apply (order_by_sorted
           (fun a b => String.leb (v_submitted_at b) (v_submitted_at a))).
  - intros a b. destruct (String.leb_total (v_submitted_at b) (v_submitted_at a));
      auto.
  - intros a b c H1 H2. eapply string_leb_trans; eassumption.
Qed.

(** X3. [fetch_responses] lists newest first by timestamp text; on a store
    that keeps the constraints it has exactly one row per response row of
    the survey, none lost and none doubled by the join. *)
Theorem fetch_responses_newest_first (d : database) (sid : Z) :
  db_ok d ->
  StronglySorted
    (fun a b => String.leb (v_submitted_at b) (v_submitted_at a) = true)
    (fetch_responses d sid)
  /\ Permutation (map v_id (fetch_responses d sid))
                 (map r_id (filter (fun r => r_survey_id r =? sid)
                                   (responses d)))
  /\ NoDup (map v_id (fetch_responses d sid))
  /\ List.length (fetch_responses d sid)
     = List.length (filter (fun r => r_survey_id r =? sid) (responses d)).
Proof.
  intros Hok.
  assert (Hperm : Permutation (map v_id (fetch_responses d sid))
                    (map r_id (filter (fun r => r_survey_id r =? sid)
                                      (responses d)))).
  { rewrite <- (joined_rows d sid Hok). apply Permutation_map.
    unfold fetch_responses. apply order_by_perm. }
  split; [apply fetch_responses_sorted|]. split; [exact Hperm|]. split.
  - eapply Permutation_NoDup; [symmetry; exact Hperm|].
    assert (G : forall (keep : response_row -> bool) rows,
               NoDup (map r_id rows) -> NoDup (map r_id (filter keep rows))).
    { intros keep rows. induction rows as [|x rows IH]; simpl; intros Hnd;
        [constructor|].
      apply NoDup_cons_iff in Hnd. destruct Hnd as [Hx Hrest].
      destruct (keep x); simpl; [|auto].
      apply NoDup_cons_iff. split; [|auto].
      intros Hin. apply Hx. apply in_map_iff in Hin.
      destruct Hin as [y [E Hy]]. apply filter_In in Hy.
      apply in_map_iff. exists y. tauto. }
    apply G, Hok.
  - rewrite <- (length_map v_id), <- (length_map r_id).
    apply Permutation_length. exact Hperm.
Qed.

(** ** New ids *)


(** ** Answers from radios and sliders *)

Lemma radio_value_In (opts : list string) (g : gesture) :
  opts <> [] -> exists o, widget_value (radio opts) g = VStr o /\ In o opts.
Proof.
  intros Hne. destruct opts as [|o0 opts]; [congruence|].
  assert (H0 : In o0 (o0 :: opts)) by (left; reflexivity).
  destruct g as [| s | i | n]; try (exists o0; split; [reflexivity | exact H0]).
  unfold widget_value.
  destruct (nth_error (o0 :: opts) i) as [o|] eqn:E.
  - exists o. split; [reflexivity|]. eapply nth_error_In. exact E.
  - exists o0. split; [reflexivity | exact H0].
Qed.

Lemma mcq_opts_not_blank (options_ : string) (o : string) :
  In o (mcq_opts options_) -> Str.strip o = o /\ o <> "".
Proof.
  intros Hin. apply mcq_opts_pieces in Hin.
  destruct Hin as [->|[->|[Hne [piece [_ ->]]]]].
  - split; [reflexivity | discriminate].
  - split; [reflexivity | discriminate].
  - split; [apply strip_idempotent | exact Hne].
Qed.

Lemma slider_value (g : gesture) :
  exists n, widget_value (slider 1 5 3) g = VInt n /\ 1 <= n <= 5.
Proof.
  simpl. destruct g as [| s | i | n]; try (exists 3; split; [reflexivity | lia]).
  destruct (Z.leb_spec 1 n), (Z.leb_spec n 5); simpl;
    try (exists 3; split; [reflexivity | lia]).
  exists n. split; [reflexivity | lia].
Qed.

Lemma digit_text (n : Z) :
  1 <= n <= 5 -> In (Str.of_Z n) ["1"; "2"; "3"; "4"; "5"].
Proof.
  intros H.
  assert (E : n = 1 \/ n = 2 \/ n = 3 \/ n = 4 \/ n = 5) by lia.
  destruct E as [->|[->|[->|[->| ->]]]]; simpl; auto 6.
Qed.

Lemma question_widget_rating (q : question_row) :
  qtype q = "rating" -> question_widget q = slider 1 5 3.
Proof. intros H. unfold question_widget. rewrite H. reflexivity. Qed.

Lemma rating_answer_digit (ui : Z -> gesture) (q : question_row) :
  qtype q = "rating" -> In (str (answer_of ui q)) ["1"; "2"; "3"; "4"; "5"].
Proof.
  intros Hty. unfold answer_of. rewrite (question_widget_rating q Hty).
  destruct (slider_value (ui (q_id q))) as [n [-> Hn]].
  apply digit_text, Hn.
Qed.

Lemma mcq_answer_offered (ui : Z -> gesture) (q : question_row) :
  qtype q = "mcq" ->
  In (str (answer_of ui q)) (mcq_opts (Str.strip (or_empty (options q)))).
Proof.
  intros Hty. unfold answer_of. rewrite (question_widget_mcq q Hty).
  destruct (radio_value_In (mcq_opts (Str.strip (or_empty (options q))))
              (ui (q_id q)) (mcq_opts_not_nil _)) as [o [-> Ho]].
  exact Ho.
Qed.

Lemma closed_answer_kept (ui : Z -> gesture) (q : question_row) :
  closed_question q ->
  Str.strip (str (answer_of ui q)) = str (answer_of ui q)
  /\ str (answer_of ui q) <> "".
Proof.
  intros [Hty|Hty].
  - apply (mcq_opts_not_blank _ _ (mcq_answer_offered ui q Hty)).
  - pose proof (rating_answer_digit ui q Hty) as Hr. simpl in Hr.
    destruct Hr as [<-|[<-|[<-|[<-|[<-|[]]]]]];
      (split; [reflexivity | discriminate]).
Qed.

(** X5. The answer of a rating question is always one of the texts "1" to
    "5" ("3" when the slider is left alone), and the answer of a
    multiple-choice question is always one of the options shown, which are
    stripped and not empty; so neither can be the blank answer that refuses
    a submission. *)
Theorem closed_answers_never_blank (ui : Z -> gesture) (q : question_row) :
  closed_question q ->
  (qtype q = "rating" ->
   In (str (answer_of ui q)) ["1"; "2"; "3"; "4"; "5"]
   /\ (ui (q_id q) = Untouched -> str (answer_of ui q) = "3"))
  /\ (qtype q = "mcq" ->
      In (str (answer_of ui q))
         (mcq_opts (Str.strip (or_empty (options q)))))
  /\ Str.strip (str (answer_of ui q)) = str (answer_of ui q)
  /\ is_empty_answer (answer_of ui q) = false.
Proof.
  intros Hclosed.
  pose proof (closed_answer_kept ui q Hclosed) as [H1 H2].
  split; [|split; [apply mcq_answer_offered|split; [exact H1|]]].
  - intros Hty. split; [apply rating_answer_digit, Hty|].
    intros Hu. unfold answer_of.
    rewrite (question_widget_rating q Hty), Hu. reflexivity.
  - destruct (is_empty_answer (answer_of ui q)) eqn:E; [|reflexivity].
    apply is_empty_answer_iff in E. congruence.
Qed.

(** What an accepted submission writes. *)
Lemma submit_survey_written (w : world) (chosen_id : Z) (respondent : string)
    (ui : Z -> gesture) :
  NoDup (map q_id (questions (db w))) ->
  fetch_questions (db w) chosen_id <> [] ->
  Forall (fun q => Str.strip (str (answer_of ui q)) <> "")
         (fetch_questions (db w) chosen_id) ->
  exists written : list response_row,
    let out := submit_survey chosen_id respondent ui w in
    fst out = st_success "Thank you! Your responses have been submitted."
    /\ responses (db (snd out)) = responses (db w) ++ written
    /\ map response_fields written
       = map (fun q => (chosen_id, q_id q, Some (Str.strip respondent),
                        str (answer_of ui q)))
             (fetch_questions (db w) chosen_id)
    /\ ascending_above
         (high_water (map r_id (responses (db w))) (seq_responses (db w)))
         (map r_id written)
    /\ map submitted_at written
       = map (wall_clock w)
             (seq (readings w)
                  (List.length (fetch_questions (db w) chosen_id)))
    /\ admins (db (snd out)) = admins (db w)
    /\ surveys (db (snd out)) = surveys (db w)
    /\ questions (db (snd out)) = questions (db w).
Proof.
  intros Hnd Hne Hall.
  rewrite (submit_survey_run w chosen_id respondent ui Hnd).
  destruct (fetch_questions (db w) chosen_id) as [|q0 qs] eqn:Eq;
    [congruence|].
  rewrite (submit_answers_accepted _ _ _ _ _ Hall).
  destruct (insert_responses_spec chosen_id (Str.strip respondent)
              (map (fun q => (q_id q, answer_of ui q)) (q0 :: qs)) w)
    as [new (Hr & Hf & Ha & Ht & H1 & H2 & H3 & _)].
  cbv zeta in *. exists new. cbn [fst snd].
  rewrite map_map in Hf. rewrite length_map in Ht.
  repeat split; assumption.
Qed.

(** X6. A survey made only of rating and multiple-choice questions cannot
    be refused: whatever the respondent does with the widgets, sending the
    form succeeds and stores one row per question. *)
Theorem closed_survey_always_accepted (w : world) (chosen_id : Z)
    (respondent : string) (ui : Z -> gesture) :
  db_ok (db w) ->
  fetch_questions (db w) chosen_id <> [] ->
  Forall closed_question (fetch_questions (db w) chosen_id) ->
  let out := submit_survey chosen_id respondent ui w in
  fst out = st_success "Thank you! Your responses have been submitted."
  /\ List.length (responses (db (snd out)))
     = (List.length (responses (db w))
        + List.length (fetch_questions (db w) chosen_id))%nat.
Proof.
  intros Hok Hne Hclosed.
  destruct (submit_survey_written w chosen_id respondent ui
              (ok_question_ids _ Hok) Hne) as [written (H1 & H2 & H3 & _)].
  - eapply Forall_impl; [|exact Hclosed].
    intros q Hq E.
    pose proof (closed_answer_kept ui q Hq) as [H1 H2]. congruence.
  - cbv zeta in *. split; [exact H1|].
    rewrite H2, length_app. f_equal.
    rewrite <- (length_map response_fields), H3, length_map. reflexivity.
Qed.

(** ** Choosing a survey by its title *)

Lemma find_first {A : Type} (p : A -> bool) (l : list A) (x : A) :
  find p l = Some x ->
  exists l1 l2, l = l1 ++ x :: l2 /\ p x = true
                /\ forall y, In y l1 -> p y = false.
Proof.
  induction l as [|y l IH]; simpl; [discriminate|].
  destruct (p y) eqn:Hy.
  - intros [= ->]. exists [], l. simpl. tauto.
  - intros H. destruct (IH H) as (l1 & l2 & -> & Hx & Hl1).
    exists (y :: l1), l2. simpl. split; [reflexivity|]. split; [exact Hx|].
    intros z [<-|Hz]; auto.
Qed.


Lemma pick_survey_first (surveys_df : list survey_row) (g : gesture) :
  surveys_df <> [] ->
  exists row l1 l2,
    pick_survey surveys_df g = Some (s_id row)
    /\ surveys_df = l1 ++ row :: l2
    /\ forall other, In other l1 -> title other <> title row.
Proof.
  intros Hne. unfold pick_survey, selectbox.
  destruct (radio_value_In (map title surveys_df) g) as [t [-> Ht]].
  { destruct surveys_df; [congruence | discriminate]. }
  unfold chosen_survey_id.
  destruct (find (fun s => (title s =? t)%string) surveys_df) as [row|] eqn:E.
  - destruct (find_first _ _ _ E) as (l1 & l2 & Hl & Hrow & Hl1).
    apply String.eqb_eq in Hrow. exists row, l1, l2.
    split; [reflexivity|]. split; [exact Hl|].
    intros other Hin. specialize (Hl1 other Hin).
    apply String.eqb_neq in Hl1. congruence.
  - apply in_map_iff in Ht. destruct Ht as [s [Hs Hin]].
    pose proof (find_none _ _ E s Hin) as Hn. simpl in Hn.
    apply String.eqb_neq in Hn. congruence.
Qed.


(** ** One survey does not disturb another *)

Lemma flat_map_nothing {A B : Type} (f : A -> list B) (l : list A) :
  (forall x, In x l -> f x = []) -> flat_map f l = [].
Proof.
  induction l as [|x l IH]; simpl; intros H; [reflexivity|].
  rewrite (H x), IH by auto. reflexivity.
Qed.

Lemma flat_map_same {A B : Type} (f g : A -> list B) (l : list A) :
  (forall x, In x l -> f x = g x) -> flat_map f l = flat_map g l.
Proof.
  induction l as [|x l IH]; simpl; intros H; [reflexivity|].
  rewrite (H x), IH by auto. reflexivity.
Qed.

(** What any submission, refused or accepted, does to the store. *)
Lemma submit_survey_effect (w : world) (chosen_id : Z) (respondent : string)
    (ui : Z -> gesture) :
  NoDup (map q_id (questions (db w))) ->
  exists written : list response_row,
    let d' := db (snd (submit_survey chosen_id respondent ui w)) in
    responses d' = responses (db w) ++ written
    /\ Forall (fun r => r_survey_id r = chosen_id) written
    /\ admins d' = admins (db w)
    /\ surveys d' = surveys (db w)
    /\ questions d' = questions (db w).
Proof.
  intros Hnd. set (qdf := fetch_questions (db w) chosen_id).
  destruct (Exists_dec (fun q => Str.strip (str (answer_of ui q)) = "") qdf)
    as [Hex|Hnex].
  { intros q. apply string_dec. }
  { exists []. rewrite (submit_survey_rejects w chosen_id respondent ui Hnd Hex).
    simpl. rewrite app_nil_r. repeat split; constructor. }
  assert (Hall : Forall (fun q => Str.strip (str (answer_of ui q)) <> "") qdf).
  { apply Forall_forall. intros q Hin Hq. apply Hnex.
    apply Exists_exists. eauto. }
  destruct qdf as [|q0 qs] eqn:Eq.
  - exists []. rewrite (submit_survey_run w chosen_id respondent ui Hnd).
    fold qdf. rewrite Eq. simpl. rewrite app_nil_r.
    repeat split; constructor.
  - destruct (submit_survey_written w chosen_id respondent ui Hnd)
      as [written (_ & H2 & H3 & _ & _ & H4 & H5 & H6)].
    + fold qdf. rewrite Eq. discriminate.
    + fold qdf. rewrite Eq. exact Hall.
    + exists written. cbv zeta in *. repeat split; try assumption.
      apply Forall_forall. intros r Hr.
      apply (in_map response_fields) in Hr. rewrite H3 in Hr.
      apply in_map_iff in Hr. destruct Hr as [q [E _]].
      unfold response_fields in E. congruence.
Qed.

(** X8. A submission to one survey, accepted or not, leaves the listings of
    surveys and of questions as they were and changes the responses of no
    other survey. *)
Theorem submission_leaves_other_surveys (w : world) (chosen_id other : Z)
    (respondent : string) (ui : Z -> gesture) :
  db_ok (db w) ->
  let d' := db (snd (submit_survey chosen_id respondent ui w)) in
  fetch_surveys d' = fetch_surveys (db w)
  /\ (forall sid, fetch_questions d' sid = fetch_questions (db w) sid)
  /\ (other <> chosen_id ->
      fetch_responses d' other = fetch_responses (db w) other).
Proof.
  intros Hok.
  destruct (submit_survey_effect w chosen_id respondent ui
              (ok_question_ids _ Hok)) as [written (Hr & Hw & _ & Hs & Hq)].
  cbv zeta in *. split; [|split].
  - unfold fetch_surveys. rewrite Hs. reflexivity.
  - intros sid. unfold fetch_questions. rewrite Hq. reflexivity.
  - intros Hne. unfold fetch_responses. rewrite Hr, Hq, flat_map_app.
    rewrite (flat_map_nothing _ written).
    + rewrite app_nil_r. reflexivity.
    + intros r Hin. rewrite Forall_forall in Hw. rewrite (Hw r Hin).
      destruct (Z.eqb_spec chosen_id other); [congruence | reflexivity].
Qed.

(** X9. Creating a survey leaves the questions of every other survey and
    the responses of every survey as they were. *)
Theorem creation_leaves_other_surveys (w : world) (title_ desc : string)
    (question_data : list (string * string * string)) (other : Z) :
  db_ok (db w) ->
  let d' := db (snd (create_survey title_ desc question_data w)) in
  (other <> new_survey_id w ->
   fetch_questions d' other = fetch_questions (db w) other)
  /\ fetch_responses d' other = fetch_responses (db w) other.
Proof.
  intros Hok.
  destruct (string_dec (Str.strip title_) "") as [He|Hne].
  { rewrite create_survey_rejected by assumption. split; reflexivity. }
  destruct (create_survey_effect title_ desc question_data w Hne)
    as [new (Hs & Hq & Hf & Ha & H1 & H2)].
  cbv zeta in *. split.
  - intros Hother. unfold fetch_questions. rewrite Hq, filter_app.
    rewrite (filter_none _ new).
    + rewrite app_nil_r. reflexivity.
    + intros q Hin. apply Z.eqb_neq.
      rewrite (question_fields_survey _ _ _ Hf q Hin). congruence.
  - unfold fetch_responses. rewrite H2. f_equal.
    apply flat_map_same. intros r Hr.
    destruct (r_survey_id r =? other); [|reflexivity].
    f_equal. rewrite Hq, filter_app.
    rewrite (filter_none _ new).
    + apply app_nil_r.
    + intros q Hin. apply Z.eqb_neq.
      destruct (ok_response_question _ Hok r Hr) as [q0 (Hq0 & E & _)].
      rewrite <- E.
      apply ascending_above_sorted in Ha. destruct Ha as [_ Ha].
      rewrite Forall_forall in Ha.
      specialize (Ha (q_id q) (in_map q_id _ _ Hin)).
      pose proof (fold_max_ge (map q_id (questions (db w))) (q_id q0)
                    (in_map q_id _ _ Hq0)).
      unfold high_water in Ha. lia.
Qed.

(** ** From the form to the admin's tables *)

(** X10. What an accepted submission stored is what the admin reads back:
    for every question of the survey the responses listing holds a row with
    the stripped respondent name, the text of the answer given, and the text
    and type of that question; the listing grows by one row per question. *)
Theorem submitted_answers_listed (w : world) (chosen_id : Z)
    (respondent : string) (ui : Z -> gesture) :
  db_ok (db w) ->
  fetch_questions (db w) chosen_id <> [] ->
  Forall (fun q => Str.strip (str (answer_of ui q)) <> "")
         (fetch_questions (db w) chosen_id) ->
  let d' := db (snd (submit_survey chosen_id respondent ui w)) in
  (forall q, In q (fetch_questions (db w) chosen_id) ->
     exists v, In v (fetch_responses d' chosen_id)
               /\ v_respondent_name v = Some (Str.strip respondent)
               /\ v_answer v = str (answer_of ui q)
               /\ v_question_text v = question_text q
               /\ v_qtype v = qtype q
               /\ ~ In (v_id v) (map r_id (responses (db w))))
  /\ List.length (fetch_responses d' chosen_id)
     = (List.length (fetch_responses (db w) chosen_id)
        + List.length (fetch_questions (db w) chosen_id))%nat.
Proof.
  intros Hok Hne Hall.
  destruct (submit_survey_written w chosen_id respondent ui
              (ok_question_ids _ Hok) Hne Hall)
    as [written (_ & Hr & Hf & Ha & _ & _ & _ & Hq)].
  cbv zeta in *. split.
  - intros q Hin.
    assert (Hrow : In (chosen_id, q_id q, Some (Str.strip respondent),
                       str (answer_of ui q))
                      (map response_fields written)).
    { rewrite Hf. apply in_map_iff. exists q. auto. }
    apply in_map_iff in Hrow. destruct Hrow as [r [E Hr']].
    unfold response_fields in E. injection E as E1 E2 E3 E4.
    exists (join_row r q). split; [|repeat split; simpl; auto].
    + apply fetch_responses_In. exists r, q.
      apply fetch_questions_In in Hin. destruct Hin as [Hin _].
      rewrite Hr, Hq. repeat split; auto.
      apply in_or_app. right. exact Hr'.
    + intros Hold. apply ascending_above_sorted in Ha.
      destruct Ha as [_ Ha]. rewrite Forall_forall in Ha.
      specialize (Ha (r_id r) (in_map r_id _ _ Hr')).
      apply fold_max_ge in Hold. unfold high_water in Ha. lia.
  - unfold fetch_responses. rewrite !order_by_length.
    rewrite Hr, Hq, flat_map_app, length_app. f_equal.
    clear Hr Ha.
    assert (G : forall r, In r written ->
                  exists q, In q (questions (db w))
                            /\ q_id q = r_question_id r
                            /\ r_survey_id r = chosen_id).
    { intros r Hin. apply (in_map response_fields) in Hin. rewrite Hf in Hin.
      apply in_map_iff in Hin. destruct Hin as [q [E Hin]].
      apply fetch_questions_In in Hin. destruct Hin as [Hin _].
      unfold response_fields in E. injection E as E1 E2 E3 E4.
      exists q. auto. }
    assert (L : List.length written
                = List.length (fetch_questions (db w) chosen_id)).
    { rewrite <- (length_map response_fields written), Hf, length_map.
      reflexivity. }
    rewrite <- L. clear L Hf.
    induction written as [|r rs IH]; simpl; [reflexivity|].
    rewrite length_app, IH by (intros; apply G; right; assumption).
    destruct (G r (or_introl eq_refl)) as [q (Hin & E & ->)].
    rewrite Z.eqb_refl, <- E.
    rewrite (unique_match _ q (ok_question_ids _ Hok) Hin). reflexivity.
Qed.

(** X11. When no other question of the survey has the same text, the subset
    analysed for a question is exactly the set of responses to that
    question: matching by text and matching by id agree. *)
Theorem distinct_texts_match_by_id (d : database) (sid : Z)
    (q : question_row) :
  db_ok d ->
  In q (fetch_questions d sid) ->
  (forall q', In q' (fetch_questions d sid) ->
              question_text q' = question_text q -> q' = q) ->
  forall v,
    In v (responses_of (fetch_responses d sid) (question_text q))
    <-> exists r, In r (responses d) /\ r_survey_id r = sid
                  /\ r_question_id r = q_id q /\ v = join_row r q.
Proof.
  intros Hok Hq Hdistinct v.
  rewrite responses_of_In, fetch_responses_In. split.
  - intros [(r & q' & Hr & Hs & Hq' & Hid & ->) Ht]. simpl in Ht.
    destruct (ok_response_question _ Hok r Hr) as [q0 (Hq0 & E0 & S0)].
    assert (q' = q0).
    { pose proof (unique_match _ q0 (ok_question_ids _ Hok) Hq0) as U.
      assert (Hin : In q' (filter (fun x => q_id x =? q_id q0) (questions d))).
      { apply filter_In. split; [exact Hq'|]. apply Z.eqb_eq. congruence. }
      rewrite U in Hin. destruct Hin as [<-|[]]. reflexivity. }
    subst q0.
    assert (q' = q).
    { apply Hdistinct; [|exact Ht]. apply fetch_questions_In.
      split; [exact Hq' | congruence]. }
    subst q'. exists r. auto.
  - intros (r & Hr & Hs & Hid & ->).
    apply fetch_questions_In in Hq. destruct Hq as [Hq _].
    split; [|reflexivity]. exists r, q. auto.
Qed.

(** ** The analytics tab *)

Lemma filter_sorted {A : Type} (R : A -> A -> Prop) (p : A -> bool)
    (l : list A) :
  StronglySorted R l -> StronglySorted R (filter p l).
Proof.
  induction 1 as [|x l Hs IH Hall]; simpl; [constructor|].
  destruct (p x); [|exact IH].
  constructor; [exact IH|].
  rewrite Forall_forall in *. intros y Hy. apply filter_In in Hy.
  apply Hall. tauto.
Qed.

(** X12. The analytics tab shows only the warning when the survey has no
    response, and otherwise the two totals and one view per question in
    ascending order of question id; on a store that keeps the constraints
    the first total is the number of response rows of the survey. *)
Theorem analytics_totals (to_numeric : string -> option spec_float)
    (d : database) (sid : Z) :
  db_ok d ->
  let n := List.length (filter (fun r => r_survey_id r =? sid) (responses d)) in
  (n = 0%nat ->
   analytics to_numeric d sid = inl (st_warning "No responses yet to analyze."))
  /\ (n <> 0%nat ->
      analytics to_numeric d sid
      = inr (n, List.length (fetch_questions d sid),
             map (question_analysis to_numeric (fetch_responses d sid))
                 (fetch_questions d sid))).
Proof.
  intros Hok n.
  assert (Hlen : List.length (fetch_responses d sid) = n).
  { unfold n. rewrite <- (length_map v_id), <- (length_map r_id).
    apply Permutation_length. rewrite <- (joined_rows d sid Hok).
    apply Permutation_map. unfold fetch_responses. apply order_by_perm. }
  unfold analytics. split; intros Hn.
  - destruct (fetch_responses d sid); [reflexivity|].
    simpl in Hlen. lia.
  - destruct (fetch_responses d sid) as [|v rdf] eqn:E.
    + simpl in Hlen. lia.
    + rewrite <- Hlen. reflexivity.
Qed.

(** X13. For a question that is neither a rating nor multiple-choice the
    analytics show a table of name, answer and timestamp of the responses
    whose question has that text, newest first. *)
Theorem text_answers_newest_first
    (to_numeric : string -> option spec_float) (d : database) (sid : Z)
    (q : question_row) :
  qtype q <> "rating" -> qtype q <> "mcq" ->
  exists rows,
    question_analysis to_numeric (fetch_responses d sid) q = text_table rows
    /\ rows = map (fun v => (v_respondent_name v, v_answer v, v_submitted_at v))
                  (responses_of (fetch_responses d sid) (question_text q))
    /\ StronglySorted (fun a b => String.leb (snd b) (snd a) = true) rows.
Proof.
  intros H1 H2. eexists. split; [|split; [reflexivity|]].
  - unfold question_analysis.
    apply String.eqb_neq in H1, H2. rewrite H1, H2. reflexivity.
  - pose proof (filter_sorted _
                  (fun r => (v_question_text r =? question_text q)%string)
                  _ (fetch_responses_sorted d sid)) as Hs.
    fold (responses_of (fetch_responses d sid) (question_text q)) in Hs.
    induction Hs as [|v l Hl IH Hall]; simpl; constructor; [exact IH|].
    rewrite Forall_forall in *. intros row Hrow.
    apply in_map_iff in Hrow. destruct Hrow as [v' [<- Hv']]. simpl.
    apply Hall. exact Hv'.
Qed.

(** ** Rows of one submission *)

(** X14. The rows of an accepted submission are appended in question
    order, each with its own reading of the clock (the readings that follow
    the ones made so far) and with ids that increase from row to row and lie
    above every id already in the table. *)
Theorem submission_rows_stamped (w : world) (chosen_id : Z)
    (respondent : string) (ui : Z -> gesture) :
  db_ok (db w) ->
  fetch_questions (db w) chosen_id <> [] ->
  Forall (fun q => Str.strip (str (answer_of ui q)) <> "")
         (fetch_questions (db w) chosen_id) ->
  exists written : list response_row,
    responses (db (snd (submit_survey chosen_id respondent ui w)))
    = responses (db w) ++ written
    /\ map r_question_id written
       = map q_id (fetch_questions (db w) chosen_id)
    /\ map submitted_at written
       = map (wall_clock w)
             (seq (readings w)
                  (List.length (fetch_questions (db w) chosen_id)))
    /\ Sorted Z.lt (map r_id written)
    /\ (forall old new, In old (responses (db w)) -> In new written ->
                        r_id old < r_id new).
Proof.
  intros Hok Hne Hall.
  destruct (submit_survey_written w chosen_id respondent ui
              (ok_question_ids _ Hok) Hne Hall)
    as [written (_ & Hr & Hf & Ha & Ht & _)].
  cbv zeta in *. exists written.
  apply ascending_above_sorted in Ha. destruct Ha as [Hs Hab].
  split; [exact Hr|]. split; [|split; [exact Ht|split; [exact Hs|]]].
  - assert (E : map r_question_id written
                = map (fun f : Z * Z * option string * string => snd (fst (fst f)))
                      (map response_fields written)).
    { rewrite map_map. reflexivity. }
    rewrite E, Hf, map_map. reflexivity.
  - intros old new Ho Hn. rewrite Forall_forall in Hab.
    specialize (Hab (r_id new) (in_map r_id _ _ Hn)).
    pose proof (fold_max_ge (map r_id (responses (db w))) (r_id old)
                  (in_map r_id _ _ Ho)).
    unfold high_water in Hab. lia.
Qed.

(** X15. Nothing stops a second submission: sending the same complete form
    again is accepted again, and the table then holds two rows per
    question. *)
Theorem resubmission_accepted (w : world) (chosen_id : Z)
    (respondent : string) (ui : Z -> gesture) :
  db_ok (db w) ->
  fetch_questions (db w) chosen_id <> [] ->
  Forall (fun q => Str.strip (str (answer_of ui q)) <> "")
         (fetch_questions (db w) chosen_id) ->
  let w1 := snd (submit_survey chosen_id respondent ui w) in
  let out2 := submit_survey chosen_id respondent ui w1 in
  fst out2 = st_success "Thank you! Your responses have been submitted."
  /\ List.length (responses (db (snd out2)))
     = (List.length (responses (db w))
        + 2 * List.length (fetch_questions (db w) chosen_id))%nat.
Proof.
  intros Hok Hne Hall w1 out2.
  destruct (submit_survey_written w chosen_id respondent ui
              (ok_question_ids _ Hok) Hne Hall)
    as [written1 (_ & Hr1 & Hf1 & _ & _ & _ & _ & Hq1)].
  cbv zeta in *. fold w1 in Hr1, Hq1.
  assert (Hsame : fetch_questions (db w1) chosen_id
                  = fetch_questions (db w) chosen_id).
  { unfold fetch_questions. rewrite Hq1. reflexivity. }
  destruct (submit_survey_written w1 chosen_id respondent ui)
    as [written2 (Hm & Hr2 & Hf2 & _)].
  - rewrite Hq1. apply Hok.
  - rewrite Hsame. exact Hne.
  - rewrite Hsame. exact Hall.
  - cbv zeta in *. fold out2 in Hm, Hr2. split; [exact Hm|].
    rewrite Hr2, Hr1, !length_app.
    rewrite <- (length_map response_fields written1), Hf1, length_map.
    rewrite <- (length_map response_fields written2), Hf2, length_map.
    rewrite Hsame. lia.
Qed.

(** ** The authoring form *)

Lemma number_input_range (lo hi preset : Z) (g : gesture) :
  lo <= preset <= hi -> lo <= number_input lo hi preset g <= hi.
Proof.
  intros H. unfold number_input. destruct g; try exact H.
  destruct (Z.leb_spec lo n), (Z.leb_spec n hi); simpl; lia.
Qed.

Lemma authored_slot_shape (s : slot_inputs) :
  exists t ty o,
    authored_slot s = (t, ty, o)
    /\ In ty ["text"; "mcq"; "rating"]
    /\ (ty <> "mcq" -> o = "").
Proof.
  unfold authored_slot, question_slot, selectbox.
  destruct (radio_value_In ["text"; "mcq"; "rating"] (q_type_in s))
    as [ty [-> Hty]]; [discriminate|].
  eexists _, ty, _. split; [reflexivity|]. split; [exact Hty|].
  intros Hne. apply String.eqb_neq in Hne. rewrite Hne. reflexivity.
Qed.

(** The questions listed for a survey right after its creation. *)
Lemma new_survey_questions (w : world) (title_ desc : string)
    (question_data : list (string * string * string)) :
  db_ok (db w) -> Str.strip title_ <> "" ->
  map question_fields
      (fetch_questions (db (snd (create_survey title_ desc question_data w)))
                       (new_survey_id w))
  = map (stored_fields (new_survey_id w)) (filter has_text question_data).
Proof.
  intros Hok Ht.
  destruct (create_survey_effect title_ desc question_data w Ht)
    as [new (_ & Hq & Hf & Ha & _)].
  cbv zeta in *. rewrite <- Hf. f_equal.
  unfold fetch_questions. rewrite Hq, filter_app.
  rewrite (filter_none _ (questions (db w))).
  - simpl. rewrite filter_all.
    + apply order_by_sorted_id, sorted_rows_by_id.
      apply ascending_above_sorted in Ha. tauto.
    + intros q Hin. apply Z.eqb_eq.
      eapply question_fields_survey; [exact Hf | exact Hin].
  - intros q Hin. apply Z.eqb_neq.
    apply (ok_question_survey _ Hok) in Hin.
    apply (next_rowid_above _ (seq_surveys (db w))) in Hin.
    unfold new_survey_id. lia.
Qed.

(** X16. The authoring form hands over between 1 and 20 slots (3 when the
    counter is left alone), each with one of the three types and with
    options only for a multiple-choice question; so a survey created
    through it has at most 20 questions. *)
Theorem authored_questions_bounded (a : admin_inputs) (w : world) :
  db_ok (db w) ->
  Str.strip (text_value "" (title_in a)) <> "" ->
  let question_data := question_data_of a in
  let d' := db (snd (create_survey (text_value "" (title_in a))
                       (text_value "" (desc_in a)) question_data w)) in
  (1 <= List.length question_data <= 20)%nat
  /\ (q_count_in a = Untouched -> List.length question_data = 3%nat)
  /\ Forall (fun slot : string * string * string =>
               In (snd (fst slot)) ["text"; "mcq"; "rating"]
               /\ (snd (fst slot) <> "mcq" -> snd slot = ""))
            question_data
  /\ (List.length (fetch_questions d' (new_survey_id w)) <= 20)%nat.
Proof.
  intros Hok Ht question_data d'.
  assert (Hlen : (1 <= List.length question_data <= 20)%nat).
  { unfold question_data, question_data_of. rewrite length_map, length_seq.
    pose proof (number_input_range 1 20 3 (q_count_in a) ltac:(lia)). lia. }
  split; [exact Hlen|]. split; [|split].
  - intros Hu. unfold question_data, question_data_of.
    rewrite length_map, length_seq, Hu. reflexivity.
  - apply Forall_forall. intros slot Hin.
    unfold question_data, question_data_of in Hin.
    apply in_map_iff in Hin. destruct Hin as [i [<- _]].
    destruct (authored_slot_shape (slots_in a i)) as (t & ty & o & -> & H1 & H2).
    simpl. auto.
  - rewrite <- (length_map question_fields).
    unfold d'. rewrite (new_survey_questions _ _ _ _ Hok Ht), length_map.
    pose proof (filter_length_le has_text question_data). lia.
Qed.

(** X17. A survey created with a title but with every question text left
    blank has no questions; the user page then only warns about it and a
    submission to it writes nothing. *)
Theorem blank_slots_give_empty_survey (w : world) (title_ desc : string)
    (question_data : list (string * string * string))
    (respondent : string) (ui : Z -> gesture) :
  db_ok (db w) ->
  Str.strip title_ <> "" ->
  Forall (fun slot => has_text slot = false) question_data ->
  let w1 := snd (create_survey title_ desc question_data w) in
  In (new_survey_row w title_ desc) (fetch_surveys (db w1))
  /\ fetch_questions (db w1) (new_survey_id w) = []
  /\ submit_survey (new_survey_id w) respondent ui w1
     = (st_warning "This survey has no questions yet.", w1).
Proof.
  intros Hok Ht Hblank w1.
  assert (Hq : fetch_questions (db w1) (new_survey_id w) = []).
  { apply (map_eq_nil question_fields).
    unfold w1. rewrite (new_survey_questions _ _ _ _ Hok Ht).
    rewrite filter_none; [reflexivity|].
    rewrite Forall_forall in Hblank. exact Hblank. }
  split; [|split; [exact Hq|]].
  - destruct (create_survey_effect title_ desc question_data w Ht)
      as [new (Hs & _)].
    cbv zeta in Hs. fold w1 in Hs.
    apply (order_by_In (fun a b => s_id b <=? s_id a)).
    rewrite Hs. apply in_or_app. right. left. reflexivity.
  - unfold submit_survey, bind, get_db. rewrite Hq. reflexivity.
Qed.

(** ** One run of the script *)

Lemma init_db_run (w : world) : init_db w = (tt, snd (init_db w)).
Proof. destruct (init_db w) as [[] w']. reflexivity. Qed.

Lemma init_db_noop (w : world) : admins (db w) <> [] -> init_db w = (tt, w).
Proof.
  intros H. unfold init_db, bind, get_db.
  destruct (admins (db w)); [congruence | reflexivity].
Qed.

Lemma init_db_admins (w : world) :
  admins (db (snd (init_db w))) <> []
  /\ (admins (db w) = [] -> admins (db (snd (init_db w))) = [seed_admin])
  /\ (admins (db w) <> [] -> admins (db (snd (init_db w))) = admins (db w)).
Proof.
  unfold init_db, bind, get_db.
  destruct (admins (db w)) as [|a0 rest] eqn:E; simpl.
  - split; [discriminate|]. split; [reflexivity | congruence].
  - rewrite E. split; [discriminate|]. split; [discriminate | reflexivity].
Qed.

Lemma init_db_data (w : world) :
  data_of (db (snd (init_db w))) = data_of (db w).
Proof.
  unfold init_db, bind, get_db.
  destruct (Z.of_nat (List.length (admins (db w))) =? 0); reflexivity.
Qed.

Lemma pick_survey_some (surveys_df : list survey_row) (g : gesture) :
  surveys_df <> [] ->
  exists sid, pick_survey surveys_df g = Some sid
              /\ In sid (map s_id surveys_df).
Proof.
  intros Hne.
  destruct (pick_survey_first surveys_df g Hne) as (row & l1 & l2 & H & Hl & _).
  exists (s_id row). split; [exact H|].
  apply in_map. rewrite Hl. apply in_or_app. right. left. reflexivity.
Qed.

Lemma responses_tab_shown (d : database) (g : gesture) :
  exists shown, responses_tab d g = Some shown.
Proof.
  unfold responses_tab. destruct (fetch_surveys d) as [|s rest].
  { eexists. reflexivity. }
  destruct (pick_survey_some (s :: rest) g) as [sid [-> _]]; [discriminate|].
  destruct (fetch_responses d sid); eexists; reflexivity.
Qed.

Lemma analytics_tab_shown (d : database) (g : gesture) :
  exists shown, analytics_tab d g = Some shown.
Proof.
  unfold analytics_tab. destruct (fetch_surveys d) as [|s rest].
  { eexists. reflexivity. }
  destruct (pick_survey_some (s :: rest) g) as [sid [-> _]]; [discriminate|].
  destruct (fetch_responses d sid); eexists; reflexivity.
Qed.

(** The user page shows something and writes at most one submission. *)
Lemma user_mode_cases (u : user_inputs) (w : world) :
  exists shown,
    user_mode u w = (Some shown, w)
    \/ (submitted u = true
        /\ exists chosen_id,
             In chosen_id (map s_id (surveys (db w)))
             /\ user_mode u w
                = (Some shown,
                   snd (submit_survey chosen_id
                          (text_value "" (respondent_in u)) (answers_in u) w))).
Proof.
  unfold user_mode, bind, get_db.
  destruct (fetch_surveys (db w)) as [|s rest] eqn:Es.
  { eexists. left. reflexivity. }
  destruct (pick_survey_some (s :: rest) (survey_pick u))
    as [chosen_id [-> Hin]]; [discriminate|].
  assert (Hid : In chosen_id (map s_id (surveys (db w)))).
  { rewrite <- Es in Hin. apply in_map_iff in Hin.
    destruct Hin as [row [<- Hrow]]. apply in_map.
    apply (order_by_In (fun a b => s_id b <=? s_id a)). exact Hrow. }
  destruct (fetch_questions (db w) chosen_id) as [|q0 qs] eqn:Eq.
  { eexists. left. reflexivity. }
  destruct (submitted u) eqn:Esub.
  2: { eexists. left. reflexivity. }
  destruct (submit_answers chosen_id (text_value "" (respondent_in u))
              (survey_form (q0 :: qs) (answers_in u)) w) as [m w'] eqn:E.
  exists [m]. right. split; [reflexivity|]. exists chosen_id.
  split; [exact Hid|].
  unfold submit_survey, bind, get_db. rewrite Eq, E. reflexivity.
Qed.

Lemma user_mode_idle (u : user_inputs) (w : world) :
  submitted u = false -> exists shown, user_mode u w = (Some shown, w).
Proof.
  intros H. destruct (user_mode_cases u w) as [shown [E|[E _]]];
    [eauto | congruence].
Qed.

Lemma chosen_role_cases (role_pick : gesture) :
  chosen_role role_pick = "User" \/ chosen_role role_pick = "Admin".
Proof.
  unfold chosen_role.
  destruct (radio_value_In ["User"; "Admin"] role_pick) as [r [-> Hr]];
    [discriminate|].
  simpl in Hr. destruct Hr as [<-|[<-|[]]]; auto.
Qed.

Lemma create_survey_admins (title_ desc : string)
    (question_data : list (string * string * string)) (w : world) :
  admins (db (snd (create_survey title_ desc question_data w)))
  = admins (db w).
Proof.
  destruct (string_dec (Str.strip title_) "") as [He|Hne].
  - rewrite create_survey_rejected by assumption. reflexivity.
  - destruct (create_survey_effect title_ desc question_data w Hne)
      as [new (_ & _ & _ & _ & H & _)].
    exact H.
Qed.

Lemma script_pass_unfold (role_pick : gesture) (u : user_inputs)
    (a : admin_inputs) (ss : session_state) (w : world) :
  script_pass role_pick u a ss w
  = if (chosen_role role_pick =? "User")%string
    then (let (r, w1) := user_mode u (snd (init_db w)) in
          (option_map
             (fun shown => ({| role := chosen_role role_pick;
                               admin_logged_in := admin_logged_in ss |},
                            false, shown)) r, w1))
    else admin_mode a {| role := chosen_role role_pick;
                         admin_logged_in := admin_logged_in ss |}
                    (snd (init_db w)).
Proof.
  unfold script_pass, bind. rewrite init_db_run.
  destruct (chosen_role role_pick =? "User")%string; reflexivity.
Qed.

(** A pass of a logged-in admin who presses neither "Create" nor "Logout"
    only shows the tabs. *)
Lemma admin_mode_idle (a : admin_inputs) (ss : session_state) (w : world) :
  admin_logged_in ss = true -> create_clicked a = false ->
  logout_clicked a = false ->
  exists shown, admin_mode a ss w = (Some (ss, false, shown), w).
Proof.
  intros Hin Hc Hl. unfold admin_mode, bind, get_db, logout_button.
  rewrite Hin, Hc, Hl. simpl.
  destruct (responses_tab_shown (db w) (view_pick a)) as [m2 ->].
  destruct (analytics_tab_shown (db w) (analytics_pick a)) as [m3 ->].
  eexists. reflexivity.
Qed.

Lemma admin_mode_logged_in (a : admin_inputs) (ss : session_state)
    (w : world) :
  admin_logged_in ss = true ->
  exists shown,
    admin_mode a ss w
    = (Some (logout_button a ss shown),
       if create_clicked a
       then snd (create_survey (text_value "" (title_in a))
                   (text_value "" (desc_in a)) (question_data_of a) w)
       else w).
Proof.
  intros Hin. unfold admin_mode, bind, get_db. rewrite Hin. simpl.
  destruct (create_clicked a).
  - destruct (create_survey _ _ _ w) as [m w1]. simpl.
    destruct (responses_tab_shown (db w1) (view_pick a)) as [m2 ->].
    destruct (analytics_tab_shown (db w1) (analytics_pick a)) as [m3 ->].
    eexists. reflexivity.
  - simpl.
    destruct (responses_tab_shown (db w) (view_pick a)) as [m2 ->].
    destruct (analytics_tab_shown (db w) (analytics_pick a)) as [m3 ->].
    eexists. reflexivity.
Qed.

Lemma admin_mode_logged_out (a : admin_inputs) (ss : session_state)
    (w : world) :
  admin_logged_in ss = false ->
  exists shown,
    admin_mode a ss w
    = (Some (if login_clicked a
                && admin_login (db w) (text_value "admin" (username_in a))
                               (text_value "" (password_in a))
             then ({| role := role ss; admin_logged_in := true |}, true, shown)
             else (ss, false, shown)),
       w).
Proof.
  intros Hout. unfold admin_mode, bind, get_db, ret. rewrite Hout. simpl.
  destruct (login_clicked a); simpl; [|eexists; reflexivity].
  destruct (admin_login (db w) _ _); eexists; reflexivity.
Qed.

Lemma script_user_page (role_pick : gesture) (u : user_inputs)
    (a : admin_inputs) (ss : session_state) (w : world) :
  chosen_role role_pick = "User" ->
  exists shown w',
    script role_pick u a ss w
    = (Some ({| role := "User"; admin_logged_in := admin_logged_in ss |},
             shown), w')
    /\ (w' = snd (init_db w)
        \/ (submitted u = true
            /\ exists chosen_id,
                 In chosen_id (map s_id (surveys (db (snd (init_db w)))))
                 /\ w' = snd (submit_survey chosen_id
                               (text_value "" (respondent_in u))
                               (answers_in u) (snd (init_db w))))).
Proof.
  intros Er. unfold script, bind. rewrite script_pass_unfold, Er. simpl.
  destruct (user_mode_cases u (snd (init_db w)))
    as [shown [E|[Hs [cid [Hc E]]]]]; rewrite E; simpl.
  - eexists _, _. split; [reflexivity|]. left. reflexivity.
  - eexists _, _. split; [reflexivity|]. right. split; [exact Hs|].
    exists cid. split; [exact Hc | reflexivity].
Qed.

Lemma script_admin_logged_out (role_pick : gesture) (u : user_inputs)
    (a : admin_inputs) (ss : session_state) (w : world) :
  chosen_role role_pick = "Admin" -> admin_logged_in ss = false ->
  exists shown,
    script role_pick u a ss w
    = (Some ({| role := "Admin";
                admin_logged_in :=
                  login_clicked a
                  && admin_login (db (snd (init_db w)))
                                 (text_value "admin" (username_in a))
                                 (text_value "" (password_in a)) |},
             shown), snd (init_db w)).
Proof.
  intros Er Hout. unfold script, bind. rewrite script_pass_unfold, Er. simpl.
  destruct (admin_mode_logged_out a
              {| role := "Admin"; admin_logged_in := admin_logged_in ss |}
              (snd (init_db w)) Hout) as [shown ->].
  rewrite Hout.
  destruct (login_clicked a && admin_login _ _ _); simpl.
  - rewrite script_pass_unfold, Er. simpl.
    rewrite (init_db_noop _ (proj1 (init_db_admins w))). simpl.
    destruct (admin_mode_idle (released_admin a)
                {| role := "Admin"; admin_logged_in := true |}
                (snd (init_db w)) eq_refl eq_refl eq_refl) as [shown2 ->].
    simpl. eexists. reflexivity.
  - eexists. reflexivity.
Qed.

Lemma script_admin_logged_in (role_pick : gesture) (u : user_inputs)
    (a : admin_inputs) (ss : session_state) (w : world) :
  chosen_role role_pick = "Admin" -> admin_logged_in ss = true ->
  exists shown,
    script role_pick u a ss w
    = (Some ({| role := "Admin";
                admin_logged_in := negb (logout_clicked a) |}, shown),
       if create_clicked a
       then snd (create_survey (text_value "" (title_in a))
                   (text_value "" (desc_in a)) (question_data_of a)
                   (snd (init_db w)))
       else snd (init_db w)).
Proof.
  intros Er Hin. unfold script, bind. rewrite script_pass_unfold, Er. simpl.
  destruct (admin_mode_logged_in a
              {| role := "Admin"; admin_logged_in := admin_logged_in ss |}
              (snd (init_db w)) Hin) as [shown ->].
  set (w1 := if create_clicked a
             then snd (create_survey (text_value "" (title_in a))
                         (text_value "" (desc_in a)) (question_data_of a)
                         (snd (init_db w)))
             else snd (init_db w)).
  assert (Hw1 : admins (db w1) <> []).
  { unfold w1. destruct (create_clicked a).
    - rewrite create_survey_admins. apply init_db_admins.
    - apply init_db_admins. }
  unfold logout_button. rewrite Hin. simpl.
  destruct (logout_clicked a); simpl.
  - rewrite script_pass_unfold, Er. simpl.
    rewrite (init_db_noop w1 Hw1). simpl.
    eexists. reflexivity.
  - eexists. reflexivity.
Qed.

(** The store after one interaction: the store as [init_db] leaves it, with
    at most one submission or one creation on top. *)
Lemma script_world (role_pick : gesture) (u : user_inputs) (a : admin_inputs)
    (ss : session_state) (w : world) :
  let w0 := snd (init_db w) in
  let w' := snd (script role_pick u a ss w) in
  w' = w0
  \/ (chosen_role role_pick = "User" /\ submitted u = true
      /\ exists chosen_id,
           In chosen_id (map s_id (surveys (db w0)))
           /\ w' = snd (submit_survey chosen_id
                          (text_value "" (respondent_in u))
                          (answers_in u) w0))
  \/ (chosen_role role_pick = "Admin" /\ admin_logged_in ss = true
      /\ create_clicked a = true
      /\ w' = snd (create_survey (text_value "" (title_in a))
                     (text_value "" (desc_in a)) (question_data_of a) w0)).
Proof.
  cbv zeta.
  destruct (chosen_role_cases role_pick) as [Er|Er].
  - destruct (script_user_page role_pick u a ss w Er)
      as (shown & w' & -> & [->|(Hs & cid & Hc & ->)]); simpl.
    + left. reflexivity.
    + right. left. split; [exact Er|]. split; [exact Hs|].
      exists cid. split; [exact Hc | reflexivity].
  - destruct (admin_logged_in ss) eqn:Elog.
    + destruct (script_admin_logged_in role_pick u a ss w Er Elog)
        as [shown ->]. simpl.
      destruct (create_clicked a) eqn:Ec; [|left; reflexivity].
      right. right. repeat split; assumption.
    + destruct (script_admin_logged_out role_pick u a ss w Er Elog)
        as [shown ->]. simpl. left. reflexivity.
Qed.

(** The session after one interaction. *)
Lemma script_session (role_pick : gesture) (u : user_inputs)
    (a : admin_inputs) (ss : session_state) (w : world) :
  exists ss' shown,
    fst (script role_pick u a ss w) = Some (ss', shown)
    /\ role ss' = chosen_role role_pick
    /\ admin_logged_in ss'
       = if (chosen_role role_pick =? "User")%string
         then admin_logged_in ss
         else if admin_logged_in ss
              then negb (logout_clicked a)
              else login_clicked a
                   && admin_login (db (snd (init_db w)))
                        (text_value "admin" (username_in a))
                        (text_value "" (password_in a)).
Proof.
  destruct (chosen_role_cases role_pick) as [Er|Er].
  - destruct (script_user_page role_pick u a ss w Er)
      as (shown & w' & -> & _).
    rewrite Er. simpl. eexists _, _. repeat split; reflexivity.
  - destruct (admin_logged_in ss) eqn:Elog.
    + destruct (script_admin_logged_in role_pick u a ss w Er Elog)
        as [shown ->].
      rewrite Er. simpl. eexists _, _. repeat split; reflexivity.
    + destruct (script_admin_logged_out role_pick u a ss w Er Elog)
        as [shown ->].
      rewrite Er. simpl. eexists _, _. repeat split; reflexivity.
Qed.

(** Sending answers, whatever they are, touches the responses table
    only. *)
Lemma submit_answers_tables (chosen_id : Z) (respondent : string)
    (answers : list (Z * value)) (w : world) :
  let d' := db (snd (submit_answers chosen_id respondent answers w)) in
  admins d' = admins (db w) /\ surveys d' = surveys (db w)
  /\ questions d' = questions (db w).
Proof.
  unfold submit_answers.
  destruct (map fst (filter (fun qa => is_empty_answer (snd qa)) answers)).
  - destruct (insert_responses_spec chosen_id (Str.strip respondent) answers w)
      as [new (_ & _ & _ & _ & H1 & H2 & H3 & _)].
    cbv zeta in *. unfold bind.
    destruct (for_each answers _ w) as [[] w']. simpl in *. auto.
  - simpl. auto.
Qed.

Lemma submit_survey_tables (chosen_id : Z) (respondent : string)
    (ui : Z -> gesture) (w : world) :
  let d' := db (snd (submit_survey chosen_id respondent ui w)) in
  admins d' = admins (db w) /\ surveys d' = surveys (db w)
  /\ questions d' = questions (db w).
Proof.
  unfold submit_survey, bind, get_db.
  destruct (fetch_questions (db w) chosen_id) eqn:E.
  - simpl. auto.
  - apply submit_answers_tables.
Qed.

Lemma create_survey_responses (title_ desc : string)
    (question_data : list (string * string * string)) (w : world) :
  responses (db (snd (create_survey title_ desc question_data w)))
  = responses (db w).
Proof.
  destruct (string_dec (Str.strip title_) "") as [He|Hne].
  - rewrite create_survey_rejected by assumption. reflexivity.
  - destruct (create_survey_effect title_ desc question_data w Hne)
      as [new (_ & _ & _ & _ & _ & H)].
    exact H.
Qed.


(** X19. What an interaction can write depends on the page: surveys and
    questions change only when a logged-in admin presses "Create", and
    responses change only when the form of the user page is sent. *)
Theorem writes_need_their_page (role_pick : gesture) (u : user_inputs)
    (a : admin_inputs) (ss : session_state) (w : world) :
  let d' := db (snd (script role_pick u a ss w)) in
  ((surveys d' <> surveys (db w) \/ questions d' <> questions (db w)) ->
   chosen_role role_pick = "Admin" /\ admin_logged_in ss = true
   /\ create_clicked a = true)
  /\ (responses d' <> responses (db w) ->
      chosen_role role_pick = "User" /\ submitted u = true).
Proof.
  cbv zeta.
  pose proof (init_db_data w) as Hd. unfold data_of in Hd.
  injection Hd as Hs Hq Hr.
  destruct (script_world role_pick u a ss w)
    as [->|[(Er & Hsub & cid & _ & ->)|(Er & Hin & Hc & ->)]].
  - rewrite Hs, Hq, Hr. split; [intros [H|H]|intros H]; congruence.
  - destruct (submit_survey_tables cid (text_value "" (respondent_in u))
                (answers_in u) (snd (init_db w))) as (_ & -> & ->).
    rewrite Hs, Hq. split; [intros [H|H]; congruence | auto].
  - rewrite create_survey_responses, Hr.
    split; [auto | intros H; congruence].
Qed.

(** X20. The login flag changes only on the admin page: it turns on only
    when "Login" is pressed with a pair that [admin_login] accepts on the
    store, and it turns off exactly when a logged-in admin presses
    "Logout". *)
Theorem login_flag_changes (role_pick : gesture) (u : user_inputs)
    (a : admin_inputs) (ss : session_state) (w : world) :
  exists ss' shown,
    fst (script role_pick u a ss w) = Some (ss', shown)
    /\ (admin_logged_in ss = false -> admin_logged_in ss' = true ->
        chosen_role role_pick = "Admin" /\ login_clicked a = true
        /\ admin_login (db (snd (init_db w)))
                       (text_value "admin" (username_in a))
                       (text_value "" (password_in a)) = true)
    /\ (admin_logged_in ss = true ->
        (admin_logged_in ss' = false
         <-> chosen_role role_pick = "Admin" /\ logout_clicked a = true)).
Proof.
  destruct (script_session role_pick u a ss w) as (ss' & shown & E & _ & Hf).
  exists ss', shown. split; [exact E|]. split.
  - intros Hout Hin. rewrite Hout in Hf.
    destruct (chosen_role_cases role_pick) as [Er|Er]; rewrite Er in Hf;
      simpl in Hf; [congruence|].
    rewrite Hin in Hf. symmetry in Hf. apply andb_true_iff in Hf.
    tauto.
  - intros Hin. rewrite Hin in Hf.
    destruct (chosen_role_cases role_pick) as [Er|Er]; rewrite Er in Hf;
      simpl in Hf; rewrite Hf.
    + split; [discriminate|]. intros [H _]. congruence.
    + destruct (logout_clicked a); simpl; split; auto; try discriminate.
      intros [_ H]. discriminate.
Qed.

(** ** What the pages guarantee about the rows *)

Lemma app_made_same_data (d d' : database) :
  data_of d' = data_of d -> app_made d -> app_made d'.
Proof.
  unfold data_of. intros E [H1 H2 H3 H4 H5]. injection E as Es Eq Er.
  split; rewrite ?Es, ?Eq, ?Er; assumption.
Qed.

Lemma same_id_same_question (rows : list question_row) (x y : question_row) :
  NoDup (map q_id rows) -> In x rows -> In y rows -> q_id x = q_id y -> x = y.
Proof.
  intros Hnd Hx Hy E.
  pose proof (unique_match rows y Hnd Hy) as U.
  assert (Hin : In x (filter (fun z => q_id z =? q_id y) rows)).
  { apply filter_In. split; [exact Hx|]. apply Z.eqb_eq. exact E. }
  rewrite U in Hin. destruct Hin as [<-|[]]. reflexivity.
Qed.

Lemma submit_survey_app_made (chosen_id : Z) (respondent : string)
    (ui : Z -> gesture) (w : world) :
  db_ok (db w) -> app_made (db w) ->
  app_made (db (snd (submit_survey chosen_id respondent ui w))).
Proof.
  intros Hok Hmade.
  pose proof (ok_question_ids _ Hok) as Hnd.
  set (qdf := fetch_questions (db w) chosen_id).
  destruct (Exists_dec (fun q => Str.strip (str (answer_of ui q)) = "") qdf)
    as [Hex|Hnex].
  { intros q. apply string_dec. }
  { rewrite (submit_survey_rejects w chosen_id respondent ui Hnd Hex).
    exact Hmade. }
  assert (Hall : Forall (fun q => Str.strip (str (answer_of ui q)) <> "") qdf).
  { apply Forall_forall. intros q Hin Hq. apply Hnex.
    apply Exists_exists. eauto. }
  destruct qdf as [|q0 qs] eqn:Eq.
  { rewrite (submit_survey_run w chosen_id respondent ui Hnd).
    fold qdf. rewrite Eq. exact Hmade. }
  destruct (submit_survey_written w chosen_id respondent ui Hnd)
    as [written (_ & Hr & Hf & _ & _ & _ & Hs & Hq)].
  { fold qdf. rewrite Eq. discriminate. }
  { fold qdf. rewrite Eq. exact Hall. }
  cbv zeta in *. fold qdf in Hf. rewrite Eq in Hf. rewrite <- Eq in Hf, Hall.
  assert (Hrow : forall r, In r written ->
            exists q, In q (questions (db w)) /\ In q qdf
                      /\ r_question_id r = q_id q
                      /\ respondent_name r = Some (Str.strip respondent)
                      /\ answer r = str (answer_of ui q)).
  { intros r Hin. apply (in_map response_fields) in Hin. rewrite Hf in Hin.
    apply in_map_iff in Hin. destruct Hin as [q [E Hin]].
    unfold response_fields in E. injection E as E1 E2 E3 E4.
    exists q. split; [|auto].
    apply (fetch_questions_In (db w) chosen_id). rewrite <- Eq in *.
    exact Hin. }
  destruct Hmade as [M1 M2 M3 M4 M5].
  split; rewrite ?Hs, ?Hq, ?Hr.
  - exact M1.
  - exact M2.
  - intros r Hin. apply in_app_or in Hin. destruct Hin as [Hin|Hin]; [auto|].
    destruct (Hrow r Hin) as (q & _ & Hqin & _ & Hn & Ha).
    rewrite Ha. split.
    + rewrite Forall_forall in Hall. apply Hall. exact Hqin.
    + exists (Str.strip respondent). split; [exact Hn|].
      apply strip_idempotent.
  - intros r q Hin Hqin Hid Hty. apply in_app_or in Hin.
    destruct Hin as [Hin|Hin]; [eauto|].
    destruct (Hrow r Hin) as (q' & Hq' & _ & Hid' & _ & Ha).
    assert (q = q').
    { apply (same_id_same_question _ _ _ Hnd Hqin Hq'). congruence. }
    subst q'. rewrite Ha. apply rating_answer_digit, Hty.
  - intros r q Hin Hqin Hid Hty. apply in_app_or in Hin.
    destruct Hin as [Hin|Hin]; [eauto|].
    destruct (Hrow r Hin) as (q' & Hq' & _ & Hid' & _ & Ha).
    assert (q = q').
    { apply (same_id_same_question _ _ _ Hnd Hqin Hq'). congruence. }
    subst q'. rewrite Ha. apply mcq_answer_offered, Hty.
Qed.

Lemma create_survey_app_made (title_ desc : string) (a : admin_inputs)
    (w : world) :
  db_ok (db w) -> app_made (db w) ->
  app_made (db (snd (create_survey title_ desc (question_data_of a) w))).
Proof.
  intros Hok Hmade.
  destruct (string_dec (Str.strip title_) "") as [He|Hne].
  { rewrite create_survey_rejected by assumption. exact Hmade. }
  destruct (create_survey_effect title_ desc (question_data_of a) w Hne)
    as [new (Hs & Hq & Hf & Ha & _ & Hr)].
  cbv zeta in *.
  assert (Hnew : forall q, In q new ->
            question_text q <> ""
            /\ Str.strip (question_text q) = question_text q
            /\ In (qtype q) ["text"; "mcq"; "rating"]
            /\ exists o, options q = Some o /\ Str.strip o = o
                         /\ (qtype q <> "mcq" -> o = "")).
  { intros q Hin. apply (in_map question_fields) in Hin. rewrite Hf in Hin.
    apply in_map_iff in Hin. destruct Hin as [slot [E Hslot]].
    apply filter_In in Hslot. destruct Hslot as [Hslot Htext].
    unfold question_data_of in Hslot. apply in_map_iff in Hslot.
    destruct Hslot as [i [<- _]].
    destruct (authored_slot_shape (slots_in a i))
      as (t & ty & o & Eslot & Hty & Ho).
    rewrite Eslot in E, Htext. simpl in E, Htext.
    unfold question_fields in E. injection E as E1 E2 E3 E4.
    rewrite <- E2, <- E3, <- E4.
    split; [apply truthy_true_iff, Htext|].
    split; [apply strip_idempotent|]. split; [exact Hty|].
    exists (Str.strip o). split; [reflexivity|].
    split; [apply strip_idempotent|].
    intros Hn. rewrite (Ho Hn). reflexivity. }
  assert (Hfresh : forall r q, In r (responses (db w)) -> In q new ->
                     q_id q <> r_question_id r).
  { intros r q Hrin Hqin E.
    destruct (ok_response_question _ Hok r Hrin) as [q0 (Hq0 & E0 & _)].
    apply ascending_above_sorted in Ha. destruct Ha as [_ Ha].
    rewrite Forall_forall in Ha.
    specialize (Ha (q_id q) (in_map q_id _ _ Hqin)).
    pose proof (fold_max_ge (map q_id (questions (db w))) (q_id q0)
                  (in_map q_id _ _ Hq0)).
    unfold high_water in Ha. lia. }
  destruct Hmade as [M1 M2 M3 M4 M5].
  split; rewrite ?Hs, ?Hq, ?Hr.
  - intros s Hin. apply in_app_or in Hin.
    destruct Hin as [Hin|[<-|[]]]; [auto|]. simpl.
    split; [exact Hne|]. split; [apply strip_idempotent|].
    exists (Str.strip desc). split; [reflexivity | apply strip_idempotent].
  - intros q Hin. apply in_app_or in Hin. destruct Hin as [Hin|Hin]; auto.
  - exact M3.
  - intros r q Hrin Hqin Hid Hty. apply in_app_or in Hqin.
    destruct Hqin as [Hqin|Hqin]; [eauto|].
    exfalso. apply (Hfresh r q Hrin Hqin Hid).
  - intros r q Hrin Hqin Hid Hty. apply in_app_or in Hqin.
    destruct Hqin as [Hqin|Hqin]; [eauto|].
    exfalso. apply (Hfresh r q Hrin Hqin Hid).
Qed.

Lemma app_made_empty : app_made empty_db.
Proof. split; simpl; intros; contradiction. Qed.

(** Every store the application reaches keeps the key constraints and the
    guarantees of the widgets. *)
Lemma reachable_well_formed (clock : nat -> string) (w : world)
    (ss : session_state) :
  reachable clock w ss -> db_ok (db w) /\ app_made (db w).
Proof.
  induction 1 as [|w ss role_pick u a Hreach [IHok IHmade]].
  - split; [apply db_ok_empty | apply app_made_empty].
  - assert (Hok0 : db_ok (db (snd (init_db w)))) by (apply init_db_ok, IHok).
    assert (Hmade0 : app_made (db (snd (init_db w)))).
    { eapply app_made_same_data; [apply init_db_data | exact IHmade]. }
    destruct (script_world role_pick u a ss w)
      as [->|[(_ & _ & cid & _ & ->)|(_ & _ & _ & ->)]].
    + auto.
    + split; [apply submit_survey_ok | apply submit_survey_app_made]; auto.
    + split; [apply create_survey_ok | apply create_survey_app_made]; auto.
Qed.

(** ** Every store the application reaches *)

(** X21. Whatever is done through the pages, starting from a new file, the
    store keeps its key constraints, although SQLite does not check the
    foreign keys: every question belongs to a listed survey and every
    response answers a question listed for the survey it is filed under. *)
Theorem reachable_keeps_constraints (clock : nat -> string) (w : world)
    (ss : session_state) :
  reachable clock w ss ->
  db_ok (db w)
  /\ (forall q, In q (questions (db w)) ->
        exists s, In s (fetch_surveys (db w)) /\ s_id s = q_survey_id q)
  /\ (forall r, In r (responses (db w)) ->
        exists q, In q (fetch_questions (db w) (r_survey_id r))
                  /\ q_id q = r_question_id r).
Proof.
  intros Hreach. destruct (reachable_well_formed clock w ss Hreach) as [Hok _].
  split; [exact Hok|]. split.
  - intros q Hin. apply (ok_question_survey _ Hok) in Hin.
    apply in_map_iff in Hin. destruct Hin as [s [E Hs]].
    exists s. split; [|exact E].
    apply (order_by_In (fun a b => s_id b <=? s_id a)). exact Hs.
  - intros r Hin.
    destruct (ok_response_question _ Hok r Hin) as [q (Hq & E1 & E2)].
    exists q. split; [|exact E1]. apply fetch_questions_In. auto.
Qed.

(** X22. The admin table never holds anything but the seeded row: on every
    store the application reaches it is empty (before the first run) or
    holds exactly "admin" / "admin123", so no other pair ever logs in, and a
    logged-in session implies that the seeded row is there. *)
Theorem reachable_admin_table (clock : nat -> string) (w : world)
    (ss : session_state) :
  reachable clock w ss ->
  (admins (db w) = [] \/ admins (db w) = [seed_admin])
  /\ (admin_logged_in ss = true -> admins (db w) = [seed_admin])
  /\ (forall u p, admin_login (db w) u p = true ->
                  u = "admin" /\ p = "admin123").
Proof.
  intros Hreach.
  assert (H : (admins (db w) = [] /\ admin_logged_in ss = false)
              \/ admins (db w) = [seed_admin]).
  { induction Hreach as [|w ss role_pick u a Hreach IH].
    - left. split; reflexivity.
    - right.
      assert (H0 : admins (db (snd (init_db w))) = [seed_admin]).
      { destruct (init_db_admins w) as (_ & H1 & H2).
        destruct IH as [[E _]|E]; [auto|].
        rewrite H2; [exact E|]. rewrite E. discriminate. }
      destruct (script_world role_pick u a ss w)
        as [->|[(_ & _ & cid & _ & ->)|(_ & _ & _ & ->)]].
      + exact H0.
      + destruct (submit_survey_tables cid (text_value "" (respondent_in u))
                    (answers_in u) (snd (init_db w))) as [-> _].
        exact H0.
      + rewrite create_survey_admins. exact H0. }
  split; [tauto|]. split.
  - intros Hin. destruct H as [[_ Hf]|E]; [congruence | exact E].
  - intros u p Hlog. apply admin_login_iff in Hlog.
    destruct Hlog as [row (Hin & Hu & Hp)].
    destruct H as [[E _]|E]; rewrite E in Hin; [contradiction|].
    destruct Hin as [<-|[]]. simpl in *. auto.
Qed.

(** X23. On every store the application reaches the rows are as the widgets
    make them: titles and question texts are stripped and not empty, every
    question has one of the three types, no stored answer is blank, a rating
    answer is a digit from 1 to 5 and a multiple-choice answer is one of the
    options of its question.  So the plain text input kept for other types
    is never shown. *)
Theorem reachable_rows_from_widgets (clock : nat -> string) (w : world)
    (ss : session_state) :
  reachable clock w ss ->
  app_made (db w)
  /\ (forall q, In q (questions (db w)) -> question_widget q <> text_input).
Proof.
  intros Hreach.
  destruct (reachable_well_formed clock w ss Hreach) as [_ Hmade].
  split; [exact Hmade|].
  intros q Hin. destruct (made_questions _ Hmade q Hin) as (_ & _ & Hty & _).
  unfold question_widget. simpl in Hty.
  destruct Hty as [<-|[<-|[<-|[]]]]; discriminate.
Qed.

(** X24. On every store the application reaches only a free-text question
    can make a submission fail: when every question of type "text" has an
    answer that is not blank, the form is accepted. *)
Theorem only_text_questions_can_refuse (clock : nat -> string) (w : world)
    (ss : session_state) (chosen_id : Z) (respondent : string)
    (ui : Z -> gesture) :
  reachable clock w ss ->
  fetch_questions (db w) chosen_id <> [] ->
  Forall (fun q => qtype q = "text" ->
                   Str.strip (str (answer_of ui q)) <> "")
         (fetch_questions (db w) chosen_id) ->
  fst (submit_survey chosen_id respondent ui w)
  = st_success "Thank you! Your responses have been submitted."
  /\ List.length (responses (db (snd (submit_survey chosen_id respondent ui w))))
     = (List.length (responses (db w))
        + List.length (fetch_questions (db w) chosen_id))%nat.
Proof.
  intros Hreach Hne Htext.
  destruct (reachable_well_formed clock w ss Hreach) as [Hok Hmade].
  destruct (submit_survey_written w chosen_id respondent ui
              (ok_question_ids _ Hok) Hne) as [written (H1 & H2 & H3 & _)].
  - apply Forall_forall. intros q Hin.
    rewrite Forall_forall in Htext. specialize (Htext q Hin).
    apply fetch_questions_In in Hin. destruct Hin as [Hin _].
    destruct (made_questions _ Hmade q Hin) as (_ & _ & Hty & _).
    simpl in Hty. destruct Hty as [Hty|[Hty|[Hty|[]]]].
    + apply Htext. symmetry. exact Hty.
    + pose proof (closed_answer_kept ui q (or_introl (eq_sym Hty))) as [E1 E2].
      congruence.
    + pose proof (closed_answer_kept ui q (or_intror (eq_sym Hty))) as [E1 E2].
      congruence.
  - cbv zeta in *. split; [exact H1|].
    rewrite H2, length_app. f_equal.
    rewrite <- (length_map response_fields), H3, length_map. reflexivity.
Qed.

(** ** The further properties on the sample data *)

Lemma tour_run1_reachable : reachable Sample.clock (snd Tour.run1) Tour.session1.
Proof.
  exact (reach_step Sample.clock _ _ (Picked 1) Tour.idle_user Tour.login_admin
           (reach_start Sample.clock)).
Qed.

Lemma tour_run2_reachable : reachable Sample.clock (snd Tour.run2) Tour.session2.
Proof.
  exact (reach_step Sample.clock _ _ (Picked 1) Tour.idle_user
           Tour.authoring_admin tour_run1_reachable).
Qed.

Lemma tour_run3_reachable : reachable Sample.clock (snd Tour.run3) Tour.session3.
Proof.
  exact (reach_step Sample.clock _ _ Untouched Tour.sending_user
           Tour.idle_admin tour_run2_reachable).
Qed.

Lemma tour_run1_ok : db_ok (db (snd Tour.run1)).
Proof. apply (reachable_well_formed _ _ _ tour_run1_reachable). Qed.

Lemma tour_run2_ok : db_ok (db (snd Tour.run2)).
Proof. apply (reachable_well_formed _ _ _ tour_run2_reachable). Qed.

Lemma tour_run3_ok : db_ok (db (snd Tour.run3)).
Proof. apply (reachable_well_formed _ _ _ tour_run3_reachable). Qed.

Lemma tour_answered_ok : db_ok (db Tour.answered).
Proof. apply submit_survey_ok, sample_with_survey_ok. Qed.

Lemma sample_complete_form :
  Forall (fun q => Str.strip (str (answer_of Sample.ui_complete q)) <> "")
         (fetch_questions (db Sample.with_survey) 1).
Proof. repeat constructor; discriminate. Qed.

(** A new file gets the seeded admin; a second [init_db] changes nothing. *)
Lemma init_db_seeds_once_witness :
  admins (db Sample.new_file) = []
  /\ admins (db Sample.started) = [seed_admin]
  /\ admins (db Sample.started) <> []
  /\ snd (init_db Sample.started) = Sample.started.
Proof.
  split; [reflexivity|]. split.
  - exact (proj1 (init_db_seeds_once Sample.new_file) eq_refl).
  - split; [discriminate|].
    apply (proj1 (proj2 (init_db_seeds_once Sample.started))).
    discriminate.
Defined.

(** The questions of the sample survey come in strictly ascending id. *)
Lemma fetch_questions_exact_witness :
  NoDup (map q_id (questions (db Sample.with_survey)))
  /\ StronglySorted (fun a b => q_id a < q_id b)
                    (fetch_questions (db Sample.with_survey) 1).
Proof.
  split; [apply sample_with_survey_ok|].
  apply (fetch_questions_exact (db Sample.with_survey) 1).
  apply sample_with_survey_ok.
Defined.

(** The answered sample survey lists as many rows as it has responses. *)
Lemma fetch_responses_newest_first_witness :
  db_ok (db Tour.answered)
  /\ List.length (fetch_responses (db Tour.answered) 1)
     = List.length (filter (fun r => r_survey_id r =? 1)
                           (responses (db Tour.answered))).
Proof.
  split; [exact tour_answered_ok|].
  apply (fetch_responses_newest_first (db Tour.answered) 1 tour_answered_ok).
Defined.

(** A multiple-choice question of the sample never gives a blank answer. *)
Lemma closed_answers_never_blank_witness :
  closed_question Sample.same_q1
  /\ is_empty_answer (answer_of Sample.ui_a_then_b Sample.same_q1) = false.
Proof.
  assert (H : closed_question Sample.same_q1) by (left; reflexivity).
  split; [exact H|].
  apply (closed_answers_never_blank Sample.ui_a_then_b Sample.same_q1 H).
Defined.

(** "Lunch" has a rating and a multiple-choice question: an untouched form
    is accepted. *)
Lemma closed_survey_always_accepted_witness :
  db_ok (db (snd Tour.run2))
  /\ fetch_questions (db (snd Tour.run2)) 1 <> []
  /\ Forall closed_question (fetch_questions (db (snd Tour.run2)) 1)
  /\ fst (submit_survey 1 "" (fun _ => Untouched) (snd Tour.run2))
     = st_success "Thank you! Your responses have been submitted.".
Proof.
  assert (H1 : fetch_questions (db (snd Tour.run2)) 1 <> []) by discriminate.
  assert (H2 : Forall closed_question (fetch_questions (db (snd Tour.run2)) 1)).
  { constructor; [right; reflexivity|].
    constructor; [left; reflexivity | constructor]. }
  split; [exact tour_run2_ok|]. split; [exact H1|]. split; [exact H2|].
  apply (closed_survey_always_accepted (snd Tour.run2) 1 ""
           (fun _ => Untouched) tour_run2_ok H1 H2).
Defined.


(** Answering survey 1 leaves the responses of survey 2 as they were. *)
Lemma submission_leaves_other_surveys_witness :
  db_ok (db Sample.with_survey)
  /\ 2 <> 1
  /\ fetch_responses (db Tour.answered) 2
     = fetch_responses (db Sample.with_survey) 2.
Proof.
  split; [exact sample_with_survey_ok|].
  assert (H : 2 <> 1) by discriminate.
  split; [exact H|].
  apply (submission_leaves_other_surveys Sample.with_survey 1 2 " Ann "
           Sample.ui_complete sample_with_survey_ok).
  exact H.
Defined.

(** A second "Lunch" leaves the responses to the first as they were. *)
Lemma creation_leaves_other_surveys_witness :
  db_ok (db (snd Tour.run3))
  /\ fetch_responses (db Tour.two_lunches) 1
     = fetch_responses (db (snd Tour.run3)) 1.
Proof.
  split; [exact tour_run3_ok|].
  apply (creation_leaves_other_surveys (snd Tour.run3) "Lunch" "later"
           [question_slot "Again?" "text" ""] 1 tour_run3_ok).
Defined.

(** The complete sample form adds three rows to the listing. *)
Lemma submitted_answers_listed_witness :
  db_ok (db Sample.with_survey)
  /\ fetch_questions (db Sample.with_survey) 1 <> []
  /\ List.length (fetch_responses (db Tour.answered) 1)
     = (List.length (fetch_responses (db Sample.with_survey) 1)
        + List.length (fetch_questions (db Sample.with_survey) 1))%nat.
Proof.
  assert (H : fetch_questions (db Sample.with_survey) 1 <> [])
    by discriminate.
  split; [exact sample_with_survey_ok|]. split; [exact H|].
  apply (submitted_answers_listed Sample.with_survey 1 " Ann "
           Sample.ui_complete sample_with_survey_ok H sample_complete_form).
Defined.

(** The first question of the answered sample has a text of its own: its
    subset holds the answer given to it. *)
Lemma distinct_texts_match_by_id_witness :
  db_ok (db Tour.answered)
  /\ (exists q, nth_error (fetch_questions (db Tour.answered) 1) 0 = Some q
       /\ (forall q', In q' (fetch_questions (db Tour.answered) 1) ->
                      question_text q' = question_text q -> q' = q)
       /\ forall v,
            In v (responses_of (fetch_responses (db Tour.answered) 1)
                               (question_text q))
            <-> exists r, In r (responses (db Tour.answered))
                          /\ r_survey_id r = 1
                          /\ r_question_id r = q_id q /\ v = join_row r q).
Proof.
  split; [exact tour_answered_ok|].
  eexists. split; [reflexivity|].
  assert (H : forall q',
             In q' (fetch_questions (db Tour.answered) 1) ->
             question_text q' = "How was it?" ->
             q' = {| q_id := 1; q_survey_id := 1;
                     question_text := "How was it?"; qtype := "text";
                     options := Some "" |}).
  { intros q' [<-|[<-|[<-|[]]]] E; try reflexivity; discriminate E. }
  split; [exact H|].
  apply (distinct_texts_match_by_id (db Tour.answered) 1 _ tour_answered_ok).
  - left. reflexivity.
  - exact H.
Defined.

(** Without responses the analytics tab of the sample only warns. *)
Lemma analytics_totals_witness :
  db_ok (db Sample.with_survey)
  /\ analytics read_digits (db Sample.with_survey) 1
     = inl (st_warning "No responses yet to analyze.").
Proof.
  split; [exact sample_with_survey_ok|].
  apply (analytics_totals read_digits (db Sample.with_survey) 1
           sample_with_survey_ok).
  reflexivity.
Defined.

(** The text question of the answered sample gets a table. *)
Lemma text_answers_newest_first_witness :
  "text" <> "rating" /\ "text" <> "mcq"
  /\ exists rows,
       question_analysis read_digits (fetch_responses (db Tour.answered) 1)
         {| q_id := 1; q_survey_id := 1; question_text := "How was it?";
            qtype := "text"; options := Some "" |}
       = text_table rows.
Proof.
  assert (H1 : "text" <> "rating") by discriminate.
  assert (H2 : "text" <> "mcq") by discriminate.
  split; [exact H1|]. split; [exact H2|].
  destruct (text_answers_newest_first read_digits (db Tour.answered) 1
              {| q_id := 1; q_survey_id := 1; question_text := "How was it?";
                 qtype := "text"; options := Some "" |} H1 H2)
    as [rows [E _]].
  exists rows. exact E.
Defined.

(** The three rows of the sample submission carry three clock readings. *)
Lemma submission_rows_stamped_witness :
  db_ok (db Sample.with_survey)
  /\ fetch_questions (db Sample.with_survey) 1 <> []
  /\ exists written,
       responses (db Tour.answered)
       = responses (db Sample.with_survey) ++ written
       /\ map submitted_at written
          = ["2024-05-01T10:00:01"; "2024-05-01T10:00:02";
             "2024-05-01T10:00:03"].
Proof.
  assert (H : fetch_questions (db Sample.with_survey) 1 <> [])
    by discriminate.
  split; [exact sample_with_survey_ok|]. split; [exact H|].
  destruct (submission_rows_stamped Sample.with_survey 1 " Ann "
              Sample.ui_complete sample_with_survey_ok H sample_complete_form)
    as [written (H1 & _ & H2 & _)].
  exists written. split; [exact H1 | exact H2].
Defined.

(** Sending the sample form twice is accepted twice. *)
Lemma resubmission_accepted_witness :
  db_ok (db Sample.with_survey)
  /\ fetch_questions (db Sample.with_survey) 1 <> []
  /\ fst (submit_survey 1 " Ann " Sample.ui_complete Tour.answered)
     = st_success "Thank you! Your responses have been submitted.".
Proof.
  assert (H : fetch_questions (db Sample.with_survey) 1 <> [])
    by discriminate.
  split; [exact sample_with_survey_ok|]. split; [exact H|].
  apply (resubmission_accepted Sample.with_survey 1 " Ann "
           Sample.ui_complete sample_with_survey_ok H sample_complete_form).
Defined.

(** The "Lunch" form hands over two slots. *)
Lemma authored_questions_bounded_witness :
  db_ok (db (snd Tour.run1))
  /\ Str.strip (text_value "" (title_in Tour.authoring_admin)) <> ""
  /\ (1 <= List.length (question_data_of Tour.authoring_admin) <= 20)%nat.
Proof.
  assert (H : Str.strip (text_value "" (title_in Tour.authoring_admin)) <> "")
    by discriminate.
  split; [exact tour_run1_ok|]. split; [exact H|].
  apply (authored_questions_bounded Tour.authoring_admin (snd Tour.run1)
           tour_run1_ok H).
Defined.

(** A survey created from blank slots only warns on the user page. *)
Lemma blank_slots_give_empty_survey_witness :
  db_ok (db Sample.started)
  /\ Str.strip "Empty" <> ""
  /\ Forall (fun slot => has_text slot = false) Tour.blank_slots
  /\ fetch_questions
       (db (snd (create_survey "Empty" "" Tour.blank_slots Sample.started)))
       (new_survey_id Sample.started) = [].
Proof.
  assert (H1 : Str.strip "Empty" <> "") by discriminate.
  assert (H2 : Forall (fun slot => has_text slot = false) Tour.blank_slots).
  { repeat constructor. }
  split; [exact sample_started_ok|]. split; [exact H1|]. split; [exact H2|].
  apply (blank_slots_give_empty_survey Sample.started "Empty" ""
           Tour.blank_slots "" (fun _ => Untouched) sample_started_ok H1 H2).
Defined.

(** The form sent in the third run is what changed the responses. *)
Lemma writes_need_their_page_witness :
  responses (db (snd Tour.run3)) <> responses (db (snd Tour.run2))
  /\ chosen_role Untouched = "User"
  /\ submitted Tour.sending_user = true.
Proof.
  assert (H : responses (db (snd Tour.run3)) <> responses (db (snd Tour.run2)))
    by discriminate.
  split; [exact H|].
  exact (proj2 (writes_need_their_page Untouched Tour.sending_user
                  Tour.idle_admin Tour.session2 (snd Tour.run2)) H).
Defined.

(** The first run logs in: "Login" was pressed with the seeded pair. *)
Lemma login_flag_changes_witness :
  admin_logged_in initial_session = false
  /\ admin_logged_in Tour.session1 = true
  /\ login_clicked Tour.login_admin = true
  /\ admin_login (db (snd (init_db Sample.new_file)))
                 (text_value "admin" (username_in Tour.login_admin))
                 (text_value "" (password_in Tour.login_admin)) = true.
Proof.
  split; [reflexivity|]. split; [reflexivity|].
  destruct (login_flag_changes (Picked 1) Tour.idle_user Tour.login_admin
              initial_session Sample.new_file) as (ss' & shown & E & H & _).
  assert (E' : fst Tour.run1
               = Some ({| role := "Admin"; admin_logged_in := true |},
                       [st_info "No surveys available.";
                        st_info "No surveys available."]))
    by reflexivity.
  unfold Tour.run1 in E'. rewrite E' in E. injection E as <- _.
  apply (H eq_refl eq_refl).
Defined.

(** The store after the three sample runs keeps the constraints. *)
Lemma reachable_keeps_constraints_witness :
  reachable Sample.clock (snd Tour.run3) Tour.session3
  /\ db_ok (db (snd Tour.run3)).
Proof.
  split; [exact tour_run3_reachable|].
  apply (reachable_keeps_constraints Sample.clock (snd Tour.run3)
           Tour.session3 tour_run3_reachable).
Defined.

(** After the three sample runs no pair but the seeded one logs in. *)
Lemma reachable_admin_table_witness :
  reachable Sample.clock (snd Tour.run3) Tour.session3
  /\ admin_login (db (snd Tour.run3)) "admin" "letmein" <> true.
Proof.
  split; [exact tour_run3_reachable|].
  intros H.
  destruct (proj2 (proj2 (reachable_admin_table Sample.clock (snd Tour.run3)
                            Tour.session3 tour_run3_reachable))
              "admin" "letmein" H) as [_ E].
  discriminate E.
Defined.

(** After the three sample runs the rows are as the widgets make them. *)
Lemma reachable_rows_from_widgets_witness :
  reachable Sample.clock (snd Tour.run3) Tour.session3
  /\ app_made (db (snd Tour.run3)).
Proof.
  split; [exact tour_run3_reachable|].
  apply (reachable_rows_from_widgets Sample.clock (snd Tour.run3)
           Tour.session3 tour_run3_reachable).
Defined.

(** "Lunch" has no text question: any form for it is accepted. *)
Lemma only_text_questions_can_refuse_witness :
  reachable Sample.clock (snd Tour.run3) Tour.session3
  /\ fetch_questions (db (snd Tour.run3)) 1 <> []
  /\ fst (submit_survey 1 "" (fun _ => Untouched) (snd Tour.run3))
     = st_success "Thank you! Your responses have been submitted.".
Proof.
  assert (H : fetch_questions (db (snd Tour.run3)) 1 <> []) by discriminate.
  split; [exact tour_run3_reachable|]. split; [exact H|].
  apply (only_text_questions_can_refuse Sample.clock (snd Tour.run3)
           Tour.session3 1 "" (fun _ => Untouched) tour_run3_reachable H).
  constructor; [discriminate|]. constructor; [discriminate | constructor].
Defined.
